(** * Statistics and binning engine of the sleep-health visualisations

    A shallow embedding of the aggregation code that the chart components
    share: Pearson correlation ([calculateCorrelation] of
    [correlationMatrix.ts], [scatterPlot.ts] and [categoryHeatmap.ts]),
    least-squares regression ([calculateLinearRegression] of
    [scatterPlot.ts]), equal-width binning ([createBins] and [processData]
    of [categoryHeatmap.ts]), the correlation matrix ([initializeData]
    of [correlationMatrix.ts]), the grid of sleep duration against quality
    ([SleepDurationQualityHeatmap.initializeData]) and the selection of the
    two categories of the heat map (the click handler of [App]).

    Numbers.  The code is read twice.  In the first part a JavaScript
    [number] is a real number or one of the three special values [NaN],
    [+Infinity], [-Infinity]; arithmetic on finite values is exact, and
    every operation that meets a special value, or divides by zero,
    follows IEEE-754 as JavaScript does.  That view serves the properties
    about pairing, counting, ordering and symmetry, and the evaluations at
    inputs on which no operation rounds.  In the second part, the module
    [Double], a [number] is an IEEE binary64 double and every operation is
    the operation of the standard, so that every definition evaluates to
    what the code returns; that view serves whatever depends on rounding,
    on overflow or on cancellation. *)

From Stdlib Require Import Floats.
From Stdlib Require Import String Ascii DecimalString DecimalN DecimalPos.
From Stdlib Require Import Reals Lra Lia ZArith Bool List.
Import ListNotations.

Open Scope R_scope.

(** ** JavaScript numbers *)

Inductive number : Type :=
| NaN
| PInf
| NInf
| Fin (r : R).

(** Sign of a real as a [comparison] with zero: [Lt] negative, [Eq] zero,
    [Gt] positive. *)
Definition Rsgn (r : R) : comparison :=
  if Rlt_dec r 0 then Lt else if Rlt_dec 0 r then Gt else Eq.

(** Sign of a number that is not [NaN]. *)
Definition sgn (x : number) : comparison :=
  match x with
  | NaN => Eq
  | PInf => Gt
  | NInf => Lt
  | Fin r => Rsgn r
  end.

(** The infinity of a given sign; the sign [Eq] stands for an undefined
    form (0 times infinity, 0/0) and yields [NaN]. *)
Definition inf (s : comparison) : number :=
  match s with
  | Gt => PInf
  | Lt => NInf
  | Eq => NaN
  end.

Definition cmul (a b : comparison) : comparison :=
  match a, b with
  | Eq, _ | _, Eq => Eq
  | Lt, Lt | Gt, Gt => Gt
  | _, _ => Lt
  end.

(** [x + y], the exact sum on finite values; the IEEE operation, which
    rounds and overflows, is the one of [Double] below. *)
Definition add (x y : number) : number :=
  match x, y with
  | NaN, _ | _, NaN => NaN
  | PInf, NInf | NInf, PInf => NaN
  | PInf, _ | _, PInf => PInf
  | NInf, _ | _, NInf => NInf
  | Fin a, Fin b => Fin (a + b)
  end.

(** [x - y], the exact difference on finite values. *)
Definition sub (x y : number) : number :=
  match x, y with
  | NaN, _ | _, NaN => NaN
  | PInf, PInf | NInf, NInf => NaN
  | PInf, _ | _, NInf => PInf
  | NInf, _ | _, PInf => NInf
  | Fin a, Fin b => Fin (a - b)
  end.

(** [x * y], the exact product on finite values. *)
Definition mul (x y : number) : number :=
  match x, y with
  | NaN, _ | _, NaN => NaN
  | Fin a, Fin b => Fin (a * b)
  | _, _ => inf (cmul (sgn x) (sgn y))
  end.

(** [x / y], the exact quotient on finite values: a finite value divided
    by zero is an infinity of the sign of the numerator, and [0 / 0] is
    [NaN]. *)
Definition div (x y : number) : number :=
  match x, y with
  | NaN, _ | _, NaN => NaN
  | Fin a, Fin b => if Req_dec_T b 0 then inf (Rsgn a) else Fin (a / b)
  | Fin _, _ => Fin 0
  | _, Fin b => inf (cmul (sgn x) (if Req_dec_T b 0 then Gt else Rsgn b))
  | _, _ => NaN
  end.

(** [Math.sqrt(x)], the exact square root on finite values. *)
Definition Math_sqrt (x : number) : number :=
  match x with
  | NaN | NInf => NaN
  | PInf => PInf
  | Fin a => if Rlt_dec a 0 then NaN else Fin (sqrt a)
  end.

(** [Math.pow(x, 2)] *)
Definition Math_pow2 (x : number) : number := mul x x.

(** [Math.floor(x)] and [Math.ceil(x)] *)
Definition Math_floor (x : number) : number :=
  match x with
  | Fin a => Fin (IZR (Zfloor a))
  | _ => x
  end.

Definition Math_ceil (x : number) : number :=
  match x with
  | Fin a => Fin (IZR (Zceil a))
  | _ => x
  end.

(** [isNaN(x)] *)
Definition isNaN (x : number) : bool :=
  match x with
  | NaN => true
  | _ => false
  end.

(** Ordering of two numbers; [None] when one of them is [NaN], in which
    case every JavaScript comparison is false. *)
Definition compare (x y : number) : option comparison :=
  match x, y with
  | NaN, _ | _, NaN => None
  | PInf, PInf | NInf, NInf => Some Eq
  | PInf, _ | _, NInf => Some Gt
  | NInf, _ | _, PInf => Some Lt
  | Fin a, Fin b =>
      Some (if Rlt_dec a b then Lt else if Rlt_dec b a then Gt else Eq)
  end.

(** [x === y] *)
Definition strict_eq (x y : number) : bool :=
  match compare x y with
  | Some Eq => true
  | _ => false
  end.

(** [x < y], [x > y], [x >= y] *)
Definition lt (x y : number) : bool :=
  match compare x y with
  | Some Lt => true
  | _ => false
  end.

Definition gt (x y : number) : bool := lt y x.

Definition ge (x y : number) : bool :=
  match compare x y with
  | Some Gt | Some Eq => true
  | _ => false
  end.

(** Truthiness of a number: everything but [NaN] and zero. *)
Definition truthy (x : number) : bool :=
  negb (isNaN x || strict_eq x (Fin 0)).

(** [o || 0] for a possibly undefined number [o]. *)
Definition or0 (o : option number) : number :=
  match o with
  | Some v => if truthy v then v else Fin 0
  | None => Fin 0
  end.

(** A number that is neither [NaN] nor an infinity. *)
Definition finite (x : number) : Prop := exists r, x = Fin r.

(** A number that is not an infinity: the values a column of the data set
    holds, [NaN] standing for a missing or unreadable cell. *)
Definition not_inf (x : number) : Prop := x <> PInf /\ x <> NInf.

(** ** The d3-array reductions the code calls

    [d3.sum] adds the values that are truthy after coercion (so it skips
    [NaN]); [d3.mean] averages the values [v] with [v >= v] and is
    undefined when there is none; [d3.extent] returns the least and the
    greatest such value, both undefined for an array without one. *)

Definition d3_sum (vs : list number) : number :=
  fold_left (fun s v => if truthy v then add s v else s) vs (Fin 0).

Definition d3_mean (vs : list number) : option number :=
  let '(count, s) :=
    fold_left (fun '(c, s) v => if ge v v then (S c, add s v) else (c, s))
              vs (O, Fin 0) in
  match count with
  | O => None
  | S _ => Some (div s (Fin (INR count)))
  end.

Definition d3_extent (vs : list number) : option (number * number) :=
  fold_left
    (fun st v =>
       match st with
       | None => if ge v v then Some (v, v) else None
       | Some (mn, mx) =>
           Some (if gt mn v then v else mn, if lt mx v then v else mx)
       end)
    vs None.

(** ** Arrays *)

(** [a[i]]: an index past the end reads [undefined], which [isNaN] and
    every arithmetic operation coerce to [NaN]. *)
Definition at_ (a : list number) (i : nat) : number := nth i a NaN.

(** [a.map((v, i) => f(v, i))] *)
Definition mapi {A B : Type} (f : A -> nat -> B) (a : list A) : list B :=
  map (fun p => f (snd p) (fst p)) (combine (seq 0 (length a)) a).

(** ** Pearson correlation, [correlationMatrix.ts] *)

Module Pair.
(** The objects [{ x: xi, y: y[i] }] of [pairedData]. *)
Record t : Type := mk { x : number; y : number }.
End Pair.

Module CorrelationMatrix.

Definition pairedData (x y : list number) : list Pair.t :=
  let n := Nat.min (length x) (length y) in
  filter (fun d => negb (isNaN (Pair.x d)) && negb (isNaN (Pair.y d)))
         (mapi (fun xi i => Pair.mk xi (at_ y i)) (firstn n x)).

Definition calculateCorrelation (x y : list number) : number :=
  let pairedData := pairedData x y in
  if (length pairedData <? 2)%nat then Fin 0 else
  let meanX := or0 (d3_mean (map Pair.x pairedData)) in
  let meanY := or0 (d3_mean (map Pair.y pairedData)) in
  let numerator :=
    d3_sum (map (fun d => mul (sub (Pair.x d) meanX) (sub (Pair.y d) meanY))
                pairedData) in
  let denomX :=
    Math_sqrt (d3_sum (map (fun d => Math_pow2 (sub (Pair.x d) meanX))
                           pairedData)) in
  let denomY :=
    Math_sqrt (d3_sum (map (fun d => Math_pow2 (sub (Pair.y d) meanY))
                           pairedData)) in
  if strict_eq denomX (Fin 0) || strict_eq denomY (Fin 0) then Fin 0 else
  div numerator (mul denomX denomY).

(** The six columns of [initializeData]. *)
Inductive variable : Type :=
| SleepDuration
| QualityOfSleep
| PhysicalActivityLevel
| StressLevel
| HeartRate
| DailySteps.

Definition variables : list variable :=
  [SleepDuration; QualityOfSleep; PhysicalActivityLevel;
   StressLevel; HeartRate; DailySteps].

(** A parsed row of the CSV file, read through [+d[variable]]: the cell
    as a number, [NaN] when it does not hold one. *)
Definition row : Type := variable -> number.

(** [numericData[variable]] *)
Definition numericData (csvData : list row) (v : variable) : list number :=
  filter (fun c => negb (isNaN c)) (map (fun d => d v) csvData).

(** [this.correlationMatrix] after the two nested loops of
    [initializeData]. *)
Definition correlationMatrix (csvData : list row) : list (list number) :=
  map (fun vi =>
         map (fun vj =>
                calculateCorrelation (numericData csvData vi)
                                     (numericData csvData vj))
             variables)
      variables.

End CorrelationMatrix.

(** ** Scatter plot, [scatterPlot.ts] *)

Module ScatterData.
Record t : Type := mk { x : number; y : number; label : string }.
End ScatterData.

Module Regression.
(** The object [{ slope, intercept, r2 }]. *)
Record t : Type := mk { slope : number; intercept : number; r2 : number }.
End Regression.

Module ScatterPlot.

(** The filter of [loadData]: the rows kept in [this.data]. *)
Definition loadData (rows : list ScatterData.t) : list ScatterData.t :=
  filter (fun d => negb (isNaN (ScatterData.x d))
                   && negb (isNaN (ScatterData.y d))) rows.

Definition calculateCorrelation (data : list ScatterData.t) : number :=
  if (length data <? 2)%nat then Fin 0 else
  let meanX := or0 (d3_mean (map ScatterData.x data)) in
  let meanY := or0 (d3_mean (map ScatterData.y data)) in
  let numerator :=
    d3_sum (map (fun d => mul (sub (ScatterData.x d) meanX)
                              (sub (ScatterData.y d) meanY)) data) in
  let denomX :=
    Math_sqrt (d3_sum (map (fun d => Math_pow2 (sub (ScatterData.x d) meanX))
                           data)) in
  let denomY :=
    Math_sqrt (d3_sum (map (fun d => Math_pow2 (sub (ScatterData.y d) meanY))
                           data)) in
  if strict_eq denomX (Fin 0) || strict_eq denomY (Fin 0) then Fin 0 else
  div numerator (mul denomX denomY).

Definition calculateLinearRegression (data : list ScatterData.t)
  : Regression.t :=
  if (length data <? 2)%nat then Regression.mk (Fin 0) (Fin 0) (Fin 0) else
  let n := Fin (INR (length data)) in
  let sumX := d3_sum (map ScatterData.x data) in
  let sumY := d3_sum (map ScatterData.y data) in
  let sumXY :=
    d3_sum (map (fun d => mul (ScatterData.x d) (ScatterData.y d)) data) in
  let sumX2 :=
    d3_sum (map (fun d => mul (ScatterData.x d) (ScatterData.x d)) data) in
  let slope :=
    div (sub (mul n sumXY) (mul sumX sumY))
        (sub (mul n sumX2) (mul sumX sumX)) in
  let intercept := div (sub sumY (mul slope sumX)) n in
  let meanY := div sumY n in
  let totalSumSquares :=
    d3_sum (map (fun d => Math_pow2 (sub (ScatterData.y d) meanY)) data) in
  let residualSumSquares :=
    d3_sum (map (fun d =>
                   Math_pow2 (sub (ScatterData.y d)
                                  (add (mul slope (ScatterData.x d))
                                       intercept)))
                data) in
  let r2 := sub (Fin 1) (div residualSumSquares totalSumSquares) in
  Regression.mk slope intercept r2.

End ScatterPlot.

(** ** Category heat map, [categoryHeatmap.ts] *)

Module SleepData.
(** A row of the data set.  The heat map reads its two categories through
    the cast [d[category] as number]; the numeric columns are the ones of
    [key]. *)
Record t : Type := mk {
  PersonID : number;
  StressLevel : number;
  QualityOfSleep : number;
  DailySteps : number;
  SleepDuration : number;
  Age : number;
  Gender : string;
  Occupation : string;
  BMICategory : string;
  BloodPressure : string;
  HeartRate : number;
  SleepDisorder : string;
  PhysicalActivityLevel : number
}.

Inductive key : Type :=
| KPersonID
| KStressLevel
| KQualityOfSleep
| KDailySteps
| KSleepDuration
| KAge
| KHeartRate
| KPhysicalActivityLevel.

(** [d[k] as number] *)
Definition get (d : t) (k : key) : number :=
  match k with
  | KPersonID => PersonID d
  | KStressLevel => StressLevel d
  | KQualityOfSleep => QualityOfSleep d
  | KDailySteps => DailySteps d
  | KSleepDuration => SleepDuration d
  | KAge => Age d
  | KHeartRate => HeartRate d
  | KPhysicalActivityLevel => PhysicalActivityLevel d
  end.
End SleepData.

Module Bin.
(** The objects [{ min, max, label }] of [createBins]. *)
Record t : Type := mk { min : number; max : number; label : string }.
End Bin.

Module HeatmapData.
Record t : Type := mk {
  category1Value : number;
  category2Value : number;
  category1Bin : string;
  category2Bin : string;
  count : nat;
  correlation : number
}.
End HeatmapData.

(** Decimal digits of a natural number given as an integer. *)
Definition digits (n : Z) : string :=
  NilZero.string_of_uint (N.to_uint (Z.to_N n)).

(** The integer nearest to ten times [|a|], the larger one of two: the
    [n] of [toFixed(1)]. *)
Definition tenths (a : R) : Z := Zfloor (Rabs a * 10 + / 2).

(** The digits of [n] with a point before the last one, after padding
    with a zero to two digits: step 10 of [toFixed] for one fraction
    digit. *)
Definition decimal1 (n : Z) : string :=
  let m := digits n in
  let m := if (String.length m <=? 1)%nat then ("0" ++ m)%string else m in
  let k := String.length m in
  (substring 0 (k - 1) m ++ "." ++ substring (k - 1) 1 m)%string.

Module CategoryHeatmap.

Section Labels.

(** [Number.prototype.toString] on a finite value of magnitude [10^21] or
    more, to which [toFixed] hands over: exponent notation with the
    shortest digits that read back as the same double.  It has no
    counterpart over exact reals, so it is kept as a parameter. *)
Variable ToString : R -> string.

(** [x.toFixed(1)]: the sign, then the integer [n] nearest to [10 |x|]
    (the larger one of two), written with at least two digits and a point
    before the last. *)
Definition toFixed1 (x : number) : string :=
  match x with
  | NaN => "NaN"
  | PInf => "Infinity"
  | NInf => "-Infinity"
  | Fin a =>
      if Rle_dec (10 ^ 21) (Rabs a) then ToString a else
      let s := if Rlt_dec a 0 then "-" else "" in
      let n := tenths a in
      s ++ decimal1 n
  end%string.

(** [Math.floor] and [Math.ceil] of an entry of [d3.extent]'s result, which
    is [undefined] for an array without a comparable value. *)
Definition floor_entry (e : option number) : number :=
  match e with
  | Some v => Math_floor v
  | None => NaN
  end.

Definition ceil_entry (e : option number) : number :=
  match e with
  | Some v => Math_ceil v
  | None => NaN
  end.

Definition createBins (values : list number) (numBins : nat) : list Bin.t :=
  let extent := d3_extent values in
  let globalMin := floor_entry (option_map fst extent) in
  let globalMax := ceil_entry (option_map snd extent) in
  let binSize := div (sub globalMax globalMin) (Fin (INR numBins)) in
  map (fun i =>
         let min := add globalMin (mul (Fin (INR i)) binSize) in
         let max := add globalMin (mul (add (Fin (INR i)) (Fin 1)) binSize) in
         Bin.mk min max (toFixed1 min ++ "-" ++ toFixed1 max)%string)
      (seq 0 numBins).

Definition calculateCorrelation (x y : list number) : number :=
  let n := Nat.min (length x) (length y) in
  if (n <? 2)%nat then Fin 0 else
  let meanX := or0 (d3_mean x) in
  let meanY := or0 (d3_mean y) in
  let numerator :=
    d3_sum (mapi (fun xi i => mul (sub xi meanX) (sub (at_ y i) meanY)) x) in
  let denomX :=
    Math_sqrt (d3_sum (map (fun xi => Math_pow2 (sub xi meanX)) x)) in
  let denomY :=
    Math_sqrt (d3_sum (map (fun yi => Math_pow2 (sub yi meanY)) y)) in
  if strict_eq denomX (Fin 0) || strict_eq denomY (Fin 0) then Fin 0 else
  div numerator (mul denomX denomY).

(** The rows that [processData] keeps in [validData]. *)
Definition validData (category1 category2 : SleepData.key)
    (data : list SleepData.t) : list SleepData.t :=
  filter (fun d => negb (isNaN (SleepData.get d category1))
                   && negb (isNaN (SleepData.get d category2))) data.

(** The rows of [validData] that the cell of [bin1] and [bin2] keeps. *)
Definition pointsInBin (category1 category2 : SleepData.key)
    (validData : list SleepData.t) (bin1 bin2 : Bin.t) : list SleepData.t :=
  filter (fun d =>
            let val1 := SleepData.get d category1 in
            let val2 := SleepData.get d category2 in
            ge val1 (Bin.min bin1) && lt val1 (Bin.max bin1)
            && ge val2 (Bin.min bin2) && lt val2 (Bin.max bin2))
         validData.

(** [this.heatmapData] after [processData]; a category is [None] while it
    is the empty string. *)
Definition processData (category1 category2 : option SleepData.key)
    (data : list SleepData.t) : list HeatmapData.t :=
  match category1, category2 with
  | Some category1, Some category2 =>
      if (length data =? 0)%nat then [] else
      let validData := validData category1 category2 data in
      let category1Values :=
        map (fun d => SleepData.get d category1) validData in
      let category2Values :=
        map (fun d => SleepData.get d category2) validData in
      let category1Bins := createBins category1Values 6 in
      let category2Bins := createBins category2Values 6 in
      flat_map
        (fun bin1 =>
           map (fun bin2 =>
                  let pointsInBin :=
                    pointsInBin category1 category2 validData bin1 bin2 in
                  if (0 <? length pointsInBin)%nat then
                    let avgVal1 :=
                      or0 (d3_mean (map (fun d => SleepData.get d category1)
                                        pointsInBin)) in
                    let avgVal2 :=
                      or0 (d3_mean (map (fun d => SleepData.get d category2)
                                        pointsInBin)) in
                    let correlation :=
                      calculateCorrelation
                        (map (fun d => SleepData.get d category1)
                             pointsInBin)
                        (map (fun d => SleepData.get d category2)
                             pointsInBin) in
                    HeatmapData.mk avgVal1 avgVal2
                                   (Bin.label bin1) (Bin.label bin2)
                                   (length pointsInBin) correlation
                  else
                    HeatmapData.mk
                      (div (add (Bin.min bin1) (Bin.max bin1)) (Fin 2))
                      (div (add (Bin.min bin2) (Bin.max bin2)) (Fin 2))
                      (Bin.label bin1) (Bin.label bin2) 0%nat (Fin 0))
               category2Bins)
        category1Bins
  | _, _ => []
  end.

End Labels.

End CategoryHeatmap.

(** ** Shared bodies and views of the data

    The two [calculateCorrelation] methods over paired samples run the same
    statements, one on the objects of [pairedData], one on the points of
    the scatter plot; [pearson_on] is that body on the list of the pairs
    [(x, y)], and [regression_on] is the body of
    [calculateLinearRegression] on the same list. *)

Definition xy_of_pair (d : Pair.t) : number * number := (Pair.x d, Pair.y d).

Definition xy_of_point (d : ScatterData.t) : number * number :=
  (ScatterData.x d, ScatterData.y d).

Definition pearson_on (ps : list (number * number)) : number :=
  if (length ps <? 2)%nat then Fin 0 else
  let meanX := or0 (d3_mean (map fst ps)) in
  let meanY := or0 (d3_mean (map snd ps)) in
  let numerator :=
    d3_sum (map (fun d => mul (sub (fst d) meanX) (sub (snd d) meanY)) ps) in
  let denomX :=
    Math_sqrt (d3_sum (map (fun d => Math_pow2 (sub (fst d) meanX)) ps)) in
  let denomY :=
    Math_sqrt (d3_sum (map (fun d => Math_pow2 (sub (snd d) meanY)) ps)) in
  if strict_eq denomX (Fin 0) || strict_eq denomY (Fin 0) then Fin 0 else
  div numerator (mul denomX denomY).

Definition regression_on (ps : list (number * number)) : Regression.t :=
  if (length ps <? 2)%nat then Regression.mk (Fin 0) (Fin 0) (Fin 0) else
  let n := Fin (INR (length ps)) in
  let sumX := d3_sum (map fst ps) in
  let sumY := d3_sum (map snd ps) in
  let sumXY := d3_sum (map (fun d => mul (fst d) (snd d)) ps) in
  let sumX2 := d3_sum (map (fun d => mul (fst d) (fst d)) ps) in
  let slope :=
    div (sub (mul n sumXY) (mul sumX sumY))
        (sub (mul n sumX2) (mul sumX sumX)) in
  let intercept := div (sub sumY (mul slope sumX)) n in
  let meanY := div sumY n in
  let totalSumSquares :=
    d3_sum (map (fun d => Math_pow2 (sub (snd d) meanY)) ps) in
  let residualSumSquares :=
    d3_sum (map (fun d =>
                   Math_pow2 (sub (snd d) (add (mul slope (fst d)) intercept)))
                ps) in
  let r2 := sub (Fin 1) (div residualSumSquares totalSumSquares) in
  Regression.mk slope intercept r2.

(** The loop of [d3.sum] started from an accumulator. *)
Definition d3_sum_from (acc : number) (vs : list number) : number :=
  fold_left (fun s v => if truthy v then add s v else s) vs acc.

(** The object that [pairedData] builds from the two values at one index,
    and the test of its filter. *)
Definition mk_pair (p : number * number) : Pair.t := Pair.mk (fst p) (snd p).

Definition both_numbers (d : Pair.t) : bool :=
  negb (isNaN (Pair.x d)) && negb (isNaN (Pair.y d)).

Definition is_number (v : number) : bool := negb (isNaN v).

Definition swap (p : number * number) : number * number := (snd p, fst p).

Definition dup {A : Type} (a : A) : A * A := (a, a).

(** The test of [processData] for one category: [val >= bin.min && val <
    bin.max]. *)
Definition in_bin (v : number) (b : Bin.t) : bool :=
  ge v (Bin.min b) && lt v (Bin.max b).

(** Sum of the [count] fields of the cells of a heat map. *)
Definition total_count (cells : list HeatmapData.t) : nat :=
  list_sum (map HeatmapData.count cells).

(** ** Real-valued counterparts

    What the code computes when every number it meets is finite, written
    over the reals. *)

Definition to_R (v : number) : R :=
  match v with
  | Fin r => r
  | _ => 0
  end.

Definition fin_pair (p : R * R) : number * number := (Fin (fst p), Fin (snd p)).

(** The real values of a list of finite pairs. *)
Definition real_pairs (l : list (number * number)) : list (R * R) :=
  map (fun p => (to_R (fst p), to_R (snd p))) l.

Definition Rsum (rs : list R) : R := fold_right Rplus 0 rs.

Definition Rmean (rs : list R) : R := Rsum rs / INR (length rs).

(** Sum of the squared deviations from [m]. *)
Definition SSq (rs : list R) (m : R) : R :=
  Rsum (map (fun r => (r - m) * (r - m)) rs).

(** Sum of the products of the deviations from [mx] and [my]. *)
Definition SPr (ps : list (R * R)) (mx my : R) : R :=
  Rsum (map (fun p => (fst p - mx) * (snd p - my)) ps).

Definition Rpearson (ps : list (R * R)) : R :=
  let mx := Rmean (map fst ps) in
  let my := Rmean (map snd ps) in
  if (length ps <? 2)%nat then 0
  else if Req_dec_T (SSq (map fst ps) mx) 0 then 0
  else if Req_dec_T (SSq (map snd ps) my) 0 then 0
  else SPr ps mx my / (sqrt (SSq (map fst ps) mx) * sqrt (SSq (map snd ps) my)).

(** Least squares over the reals: [n * sum x^2 - (sum x)^2], the slope, the
    intercept and the two sums of squares of [r2]. *)
Definition Rdenominator (ps : list (R * R)) : R :=
  INR (length ps) * Rsum (map (fun p => fst p * fst p) ps)
  - Rsum (map fst ps) * Rsum (map fst ps).

Definition Rslope (ps : list (R * R)) : R :=
  (INR (length ps) * Rsum (map (fun p => fst p * snd p) ps)
   - Rsum (map fst ps) * Rsum (map snd ps))
  / Rdenominator ps.

Definition Rintercept (ps : list (R * R)) : R :=
  (Rsum (map snd ps) - Rslope ps * Rsum (map fst ps)) / INR (length ps).

Definition RtotalSS (ps : list (R * R)) : R :=
  Rsum (map (fun p => (snd p - Rsum (map snd ps) / INR (length ps))
                      * (snd p - Rsum (map snd ps) / INR (length ps))) ps).

Definition RresidualSS (ps : list (R * R)) : R :=
  Rsum (map (fun p => (snd p - (Rslope ps * fst p + Rintercept ps))
                      * (snd p - (Rslope ps * fst p + Rintercept ps))) ps).

(** The point of abscissa [r] on the line [y = k x + c]. *)
Definition on_line (k c : R) (r : R) : R * R := (r, k * r + c).

(** [lo] is the least and [hi] the greatest element of [rs]. *)
Definition least (lo : R) (rs : list R) : Prop :=
  In lo rs /\ forall r, In r rs -> lo <= r.

Definition greatest (hi : R) (rs : list R) : Prop :=
  In hi rs /\ forall r, In r rs -> r <= hi.

(** The bins with lower bound [g] and width [w] as [createBins] fills them,
    [label i] standing for the label of bin [i]. *)
Definition bins_of (g w : R) (label : nat -> string) (numBins : nat)
  : list Bin.t :=
  map (fun i => Bin.mk (Fin (g + INR i * w)) (Fin (g + (INR i + 1) * w))
                       (label i))
      (seq 0 numBins).

(** ** Sample data *)

(** A point of the scatter plot with finite coordinates. *)
Definition point (a b : R) : ScatterData.t :=
  ScatterData.mk (Fin a) (Fin b) EmptyString.

(** A row with the given sleep duration and quality of sleep. *)
Definition sleep_row (duration quality : R) : SleepData.t :=
  SleepData.mk (Fin 0) (Fin 0) (Fin quality) (Fin 0) (Fin duration) (Fin 0)
               EmptyString EmptyString EmptyString EmptyString
               (Fin 0) EmptyString (Fin 0).

(** ** The scatter plot opened from a cell of the matrix *)

(** The objects that [ScatterPlot.loadData] maps the rows of the CSV file
    to, before its filter; [label d] stands for [d['Person ID'] || '']. *)
Definition scatter_rows (label : CorrelationMatrix.row -> string)
    (csvData : list CorrelationMatrix.row)
    (xVariable yVariable : CorrelationMatrix.variable) : list ScatterData.t :=
  map (fun d => ScatterData.mk (d xVariable) (d yVariable) (label d)) csvData.

(** ** One cell of the heat map *)

(** The object that [processData] pushes for the pair [bin1], [bin2]. *)
Definition heatmap_cell (ToString : R -> string)
    (category1 category2 : SleepData.key) (validData : list SleepData.t)
    (bin1 bin2 : Bin.t) : HeatmapData.t :=
  let pointsInBin :=
    CategoryHeatmap.pointsInBin category1 category2 validData bin1 bin2 in
  if (0 <? length pointsInBin)%nat then
    HeatmapData.mk
      (or0 (d3_mean (map (fun d => SleepData.get d category1) pointsInBin)))
      (or0 (d3_mean (map (fun d => SleepData.get d category2) pointsInBin)))
      (Bin.label bin1) (Bin.label bin2) (length pointsInBin)
      (CategoryHeatmap.calculateCorrelation
         (map (fun d => SleepData.get d category1) pointsInBin)
         (map (fun d => SleepData.get d category2) pointsInBin))
  else
    HeatmapData.mk
      (div (add (Bin.min bin1) (Bin.max bin1)) (Fin 2))
      (div (add (Bin.min bin2) (Bin.max bin2)) (Fin 2))
      (Bin.label bin1) (Bin.label bin2) 0%nat (Fin 0).

(** The cell and the bin that stand for a missing entry of a list. *)
Definition no_cell : HeatmapData.t :=
  HeatmapData.mk NaN NaN EmptyString EmptyString 0 NaN.

Definition no_bin : Bin.t := Bin.mk NaN NaN EmptyString.

(** ** The heat map of sleep duration against quality

    [SleepDurationQualityHeatmap.initializeData] of [correlationMatrix.ts]:
    the rows are counted in a [Map] under the key
    [`${duration}-${quality}`] of their two rounded values, and the grid of
    the durations and qualities from 4 to 10 reads its counts back under
    the same keys. *)

(** [Math.round]: the nearest integer, the larger one of two. *)
Definition Math_round (x : number) : number :=
  match x with
  | Fin a => Fin (IZR (Zfloor (a + / 2)))
  | _ => x
  end.

(** [m.get(key)] and [m.set(key, value)] on a [Map] with string keys, kept
    as the list of its entries in insertion order. *)
Fixpoint Map_get {V : Type} (m : list (string * V)) (key : string)
  : option V :=
  match m with
  | [] => None
  | (k, v) :: m' => if String.eqb k key then Some v else Map_get m' key
  end.

Fixpoint Map_set {V : Type} (m : list (string * V)) (key : string) (value : V)
  : list (string * V) :=
  match m with
  | [] => [(key, value)]
  | (k, v) :: m' =>
      if String.eqb k key then (k, value) :: m'
      else (k, v) :: Map_set m' key value
  end.

(** [count || 0] on a count read from the map. *)
Definition count_or0 (c : option nat) : nat :=
  match c with
  | Some n => n
  | None => 0%nat
  end.

Module DurationQuality.
(** The objects [{ duration, quality, count }] of the grid. *)
Record t : Type := mk { duration : number; quality : number; count : nat }.
End DurationQuality.

Module SleepDurationQualityHeatmap.

Section Keys.

(** [Number.prototype.toString] on a finite value of magnitude [10^21] or
    more, as for [toFixed1]. *)
Variable ToString : R -> string.

(** [`${v}`] for a number [v] that is an integer or a special value, as
    [Math.round] returns: the decimal digits with a minus sign for a
    negative integer. *)
Definition toString (v : number) : string :=
  match v with
  | NaN => "NaN"
  | PInf => "Infinity"
  | NInf => "-Infinity"
  | Fin a =>
      if Rle_dec (10 ^ 21) (Rabs a) then ToString a else
      let s := if Rlt_dec a 0 then "-" else "" in
      s ++ digits (Zfloor (Rabs a))
  end%string.

(** [`${duration}-${quality}`] *)
Definition key (duration quality : number) : string :=
  (toString duration ++ "-" ++ toString quality)%string.

(** [durationQualityMap] after the [forEach] over the rows. *)
Definition durationQualityMap (csvData : list CorrelationMatrix.row)
  : list (string * nat) :=
  fold_left
    (fun m d =>
       let duration := Math_round (d CorrelationMatrix.SleepDuration) in
       let quality := Math_round (d CorrelationMatrix.QualityOfSleep) in
       let key := key duration quality in
       Map_set m key (count_or0 (Map_get m key) + 1)%nat)
    csvData [].

(** [this.data] after [initializeData] has read the rows [csvData]. *)
Definition initializeData (csvData : list CorrelationMatrix.row)
  : list DurationQuality.t :=
  let durationQualityMap := durationQualityMap csvData in
  flat_map
    (fun duration =>
       map (fun quality =>
              let key := key (Fin (INR duration)) (Fin (INR quality)) in
              let count := count_or0 (Map_get durationQualityMap key) in
              DurationQuality.mk (Fin (INR duration)) (Fin (INR quality))
                                 count)
           (seq 4 7))
    (seq 4 7).

End Keys.

End SleepDurationQualityHeatmap.

(** A decimal digit. *)
Definition is_digit (c : ascii) : bool :=
  ((48 <=? nat_of_ascii c) && (nat_of_ascii c <=? 57))%nat.

(** The characters of a string. *)
Definition chars (s : string) : list ascii := list_ascii_of_string s.

(** The row of the matrix data with the given sleep duration and quality
    of sleep, the other columns holding 0. *)
Definition csv_row (duration quality : number) : CorrelationMatrix.row :=
  fun v =>
    match v with
    | CorrelationMatrix.SleepDuration => duration
    | CorrelationMatrix.QualityOfSleep => quality
    | _ => Fin 0
    end.

Definition no_entry : DurationQuality.t := DurationQuality.mk NaN NaN 0.

(** ** Selecting the two categories of the heat map

    The click handler that [App.initializeCategorySelection] installs on the
    category buttons, and the call of [updateCategories] that ends
    [App.initializeApp].  The state is [this.selectedCategories] together
    with the fields [category1] and [category2] of the heat map, which only
    [updateCategories] writes. *)

Module App.

Record t : Type := mk {
  selectedCategories : list string;
  category1 : string;
  category2 : string
}.

(** The state when the handler is installed. *)
Definition initial : t := mk [] EmptyString EmptyString.

(** [this.categoryHeatmap.updateCategories(category1, category2)] *)
Definition updateCategories (category1 category2 : string) (app : t) : t :=
  mk (selectedCategories app) category1 category2.

(** A click on a button whose [dataset.category] is [category], [None]
    when the attribute is missing.  The entries read by index exist in the
    branch that reads them. *)
Definition click (category : option string) (app : t) : t :=
  match category with
  | None => app
  | Some category =>
      if String.eqb category EmptyString then app else
      if (length (selectedCategories app) =? 0)%nat then
        mk (selectedCategories app ++ [category])
           (category1 app) (category2 app)
      else if (length (selectedCategories app) =? 1)%nat then
        if String.eqb (nth 0 (selectedCategories app) EmptyString) category
        then app
        else
          let selectedCategories := selectedCategories app ++ [category] in
          updateCategories (nth 0 selectedCategories EmptyString)
                           (nth 1 selectedCategories EmptyString)
                           (mk selectedCategories
                               (category1 app) (category2 app))
      else
        mk [category] (category1 app) (category2 app)
  end.

(** What happens to the state: a click, or [initializeApp] reaching its
    call [updateCategories('Sleep Duration', 'Quality of Sleep')]. *)
Inductive event : Type :=
| Click (category : option string)
| Initialized.

Definition step (app : t) (e : event) : t :=
  match e with
  | Click category => click category app
  | Initialized => updateCategories "Sleep Duration" "Quality of Sleep" app
  end.

Definition run (events : list event) : t := fold_left step events initial.

End App.

(** * The same code over IEEE doubles

    The model above computes with exact reals.  Wherever a result depends
    on rounding, on overflow or on cancellation, the code is read again
    here with the numbers it runs on: [number] is the binary64 type of the
    kernel, every operation is the IEEE operation, and every definition
    evaluates.  The definitions follow the source statement by statement,
    as the ones above do. *)

Module Double.

Definition number : Type := float.

(** [isNaN(x)], [x === y], [x < y], [x > y], [x >= y] *)
Definition isNaN (x : number) : bool := PrimFloat.is_nan x.

Definition strict_eq (x y : number) : bool := PrimFloat.eqb x y.

Definition lt (x y : number) : bool := PrimFloat.ltb x y.

Definition gt (x y : number) : bool := PrimFloat.ltb y x.

Definition ge (x y : number) : bool := PrimFloat.leb y x.

(** Truthiness of a number: everything but [NaN] and the two zeros. *)
Definition truthy (x : number) : bool :=
  negb (isNaN x || strict_eq x 0%float).

(** [o || 0] for a possibly undefined number [o]. *)
Definition or0 (o : option number) : number :=
  match o with
  | Some v => if truthy v then v else 0%float
  | None => 0%float
  end.

(** [Math.sqrt(x)] and [Math.pow(x, 2)], the latter computed as [x * x]. *)
Definition Math_sqrt (x : number) : number := PrimFloat.sqrt x.

Definition Math_pow2 (x : number) : number := (x * x)%float.

(** A length or an index as a number. *)
Definition of_nat (n : nat) : number :=
  PrimFloat.of_uint63 (Uint63.of_Z (Z.of_nat n)).

(** An integer from 0 to [2^53] as a number. *)
Definition of_Z (z : Z) : number := PrimFloat.of_uint63 (Uint63.of_Z z).

(** [Math.floor(x)]: a double with a non-negative exponent is an integer;
    otherwise the integer part is read off the mantissa.  [Math.ceil(x)]
    is [-Math.floor(-x)]. *)
Definition Math_floor (x : number) : number :=
  match Prim2SF x with
  | S754_finite s m e =>
      if (0 <=? e)%Z then x else
      let q := (Z.pos m / 2 ^ (- e))%Z in
      let whole := (Z.pos m mod 2 ^ (- e) =? 0)%Z in
      if s then PrimFloat.opp (of_Z (if whole then q else q + 1)) else of_Z q
  | _ => x
  end.

Definition Math_ceil (x : number) : number :=
  PrimFloat.opp (Math_floor (PrimFloat.opp x)).

(** [d3.sum], [d3.mean] and [d3.extent], as above. *)
Definition d3_sum (vs : list number) : number :=
  fold_left (fun s v => if truthy v then (s + v)%float else s) vs 0%float.

Definition d3_mean (vs : list number) : option number :=
  let '(count, s) :=
    fold_left (fun '(c, s) v => if ge v v then (S c, (s + v)%float) else (c, s))
              vs (O, 0%float) in
  match count with
  | O => None
  | S _ => Some (s / of_nat count)%float
  end.

Definition d3_extent (vs : list number) : option (number * number) :=
  fold_left
    (fun st v =>
       match st with
       | None => if ge v v then Some (v, v) else None
       | Some (mn, mx) =>
           Some (if gt mn v then v else mn, if lt mx v then v else mx)
       end)
    vs None.

(** [a[i]] *)
Definition at_ (a : list number) (i : nat) : number := nth i a nan.

Module Pair.
Record t : Type := mk { x : number; y : number }.
End Pair.

Module CorrelationMatrix.

Definition pairedData (x y : list number) : list Pair.t :=
  let n := Nat.min (length x) (length y) in
  filter (fun d => negb (isNaN (Pair.x d)) && negb (isNaN (Pair.y d)))
         (mapi (fun xi i => Pair.mk xi (at_ y i)) (firstn n x)).

Definition calculateCorrelation (x y : list number) : number :=
  let pairedData := pairedData x y in
  if (length pairedData <? 2)%nat then 0%float else
  let meanX := or0 (d3_mean (map Pair.x pairedData)) in
  let meanY := or0 (d3_mean (map Pair.y pairedData)) in
  let numerator :=
    d3_sum (map (fun d => ((Pair.x d - meanX) * (Pair.y d - meanY))%float)
                pairedData) in
  let denomX :=
    Math_sqrt (d3_sum (map (fun d => Math_pow2 (Pair.x d - meanX)%float)
                           pairedData)) in
  let denomY :=
    Math_sqrt (d3_sum (map (fun d => Math_pow2 (Pair.y d - meanY)%float)
                           pairedData)) in
  if strict_eq denomX 0%float || strict_eq denomY 0%float then 0%float else
  (numerator / (denomX * denomY))%float.

Definition row : Type := CorrelationMatrix.variable -> number.

Definition numericData (csvData : list row) (v : CorrelationMatrix.variable)
  : list number :=
  filter (fun c => negb (isNaN c)) (map (fun d => d v) csvData).

Definition correlationMatrix (csvData : list row) : list (list number) :=
  map (fun vi =>
         map (fun vj =>
                calculateCorrelation (numericData csvData vi)
                                     (numericData csvData vj))
             CorrelationMatrix.variables)
      CorrelationMatrix.variables.

End CorrelationMatrix.

Module ScatterData.
Record t : Type := mk { x : number; y : number; label : string }.
End ScatterData.

Module Regression.
Record t : Type := mk { slope : number; intercept : number; r2 : number }.
End Regression.

Module ScatterPlot.

Definition loadData (rows : list ScatterData.t) : list ScatterData.t :=
  filter (fun d => negb (isNaN (ScatterData.x d))
                   && negb (isNaN (ScatterData.y d))) rows.

Definition calculateCorrelation (data : list ScatterData.t) : number :=
  if (length data <? 2)%nat then 0%float else
  let meanX := or0 (d3_mean (map ScatterData.x data)) in
  let meanY := or0 (d3_mean (map ScatterData.y data)) in
  let numerator :=
    d3_sum (map (fun d => ((ScatterData.x d - meanX)
                           * (ScatterData.y d - meanY))%float) data) in
  let denomX :=
    Math_sqrt (d3_sum (map (fun d => Math_pow2 (ScatterData.x d - meanX)%float)
                           data)) in
  let denomY :=
    Math_sqrt (d3_sum (map (fun d => Math_pow2 (ScatterData.y d - meanY)%float)
                           data)) in
  if strict_eq denomX 0%float || strict_eq denomY 0%float then 0%float else
  (numerator / (denomX * denomY))%float.

Definition calculateLinearRegression (data : list ScatterData.t)
  : Regression.t :=
  if (length data <? 2)%nat then Regression.mk 0%float 0%float 0%float else
  let n := of_nat (length data) in
  let sumX := d3_sum (map ScatterData.x data) in
  let sumY := d3_sum (map ScatterData.y data) in
  let sumXY :=
    d3_sum (map (fun d => (ScatterData.x d * ScatterData.y d)%float) data) in
  let sumX2 :=
    d3_sum (map (fun d => (ScatterData.x d * ScatterData.x d)%float) data) in
  let slope :=
    ((n * sumXY - sumX * sumY) / (n * sumX2 - sumX * sumX))%float in
  let intercept := ((sumY - slope * sumX) / n)%float in
  let meanY := (sumY / n)%float in
  let totalSumSquares :=
    d3_sum (map (fun d => Math_pow2 (ScatterData.y d - meanY)%float) data) in
  let residualSumSquares :=
    d3_sum (map (fun d =>
                   Math_pow2 (ScatterData.y d
                              - (slope * ScatterData.x d + intercept))%float)
                data) in
  let r2 := (1 - residualSumSquares / totalSumSquares)%float in
  Regression.mk slope intercept r2.

End ScatterPlot.

Module Bin.
Record t : Type := mk { min : number; max : number; label : string }.
End Bin.

(** The integer [n] for which [n / 10 - |x|] is closest to zero, the larger
    one of two, for a finite [x = m * 2^e]: the [n] of [toFixed(1)]. *)
Definition tenths (x : number) : Z :=
  match Prim2SF x with
  | S754_finite _ m e =>
      if (0 <=? e)%Z then (10 * Z.pos m * 2 ^ e)%Z
      else ((20 * Z.pos m + 2 ^ (- e)) / 2 ^ (1 - e))%Z
  | _ => 0%Z
  end.

Module CategoryHeatmap.

Section Labels.

(** [Number.prototype.toString] from [10^21] on, as above. *)
Variable ToString : number -> string.

Definition toFixed1 (x : number) : string :=
  (if isNaN x then "NaN"
   else if strict_eq x infinity then "Infinity"
   else if strict_eq x neg_infinity then "-Infinity"
   else if ge (PrimFloat.abs x) 1e21%float then ToString x
   else
     let s := if lt x 0%float then "-" else "" in
     let n := tenths x in
     s ++ decimal1 n)%string.

(** [Math.floor] and [Math.ceil] of an entry of the result of [d3.extent],
    [undefined] giving [NaN]. *)
Definition floor_entry (e : option number) : number :=
  match e with
  | Some v => Math_floor v
  | None => nan
  end.

Definition ceil_entry (e : option number) : number :=
  match e with
  | Some v => Math_ceil v
  | None => nan
  end.

Definition createBins (values : list number) (numBins : nat) : list Bin.t :=
  let extent := d3_extent values in
  let globalMin := floor_entry (option_map fst extent) in
  let globalMax := ceil_entry (option_map snd extent) in
  let binSize := ((globalMax - globalMin) / of_nat numBins)%float in
  map (fun i =>
         let min := (globalMin + of_nat i * binSize)%float in
         let max := (globalMin + (of_nat i + 1) * binSize)%float in
         Bin.mk min max (toFixed1 min ++ "-" ++ toFixed1 max)%string)
      (seq 0 numBins).

End Labels.

End CategoryHeatmap.

(** The test of [processData] for one category. *)
Definition in_bin (v : number) (b : Bin.t) : bool :=
  ge v (Bin.min b) && lt v (Bin.max b).

(** The paired samples of two arrays: the pairs [(x[i], y[i])] over the
    indices of both arrays, without the pairs that hold a [NaN]. *)
Definition pairs (x y : list number) : list (number * number) :=
  filter (fun p => negb (isNaN (fst p)) && negb (isNaN (snd p)))
         (combine x y).

(** The denominator of the correlation for one variable: the square root
    of the sum of the squared deviations from the mean, as the code
    computes it. *)
Definition denominator (vs : list number) : number :=
  let m := or0 (d3_mean vs) in
  Math_sqrt (d3_sum (map (fun v => Math_pow2 (v - m)%float) vs)).

(** The exact value of a finite double [m * 2^e]. *)
Definition real (x : number) : R :=
  match Prim2SF x with
  | S754_finite s m e =>
      let a := if s then (- IZR (Z.pos m))%R else IZR (Z.pos m) in
      if (0 <=? e)%Z then (a * IZR (2 ^ e))%R else (a / IZR (2 ^ (- e)))%R
  | _ => 0%R
  end.

Definition point (x y : number) : ScatterData.t :=
  ScatterData.mk x y EmptyString.

End Double.

(** ** The order of the doubles

    A double that is not [NaN] is ranked by its sign, then its exponent,
    then its mantissa, as the comparison of the IEEE standard reads
    them. *)
Definition rank (x : spec_float) : Z * Z * Z :=
  match x with
  | S754_zero _ => (0, 0, 0)%Z
  | S754_infinity s => (if s then (-2) else 2, 0, 0)%Z
  | S754_nan => (0, 0, 0)%Z
  | S754_finite s m e =>
      if s then (-1, - e, - Z.pos m)%Z else (1, e, Z.pos m)%Z
  end.

Definition rank_compare (a b : Z * Z * Z) : comparison :=
  let '(a1, a2, a3) := a in
  let '(b1, b2, b3) := b in
  match (a1 ?= b1)%Z with
  | Eq => match (a2 ?= b2)%Z with
          | Eq => (a3 ?= b3)%Z
          | c => c
          end
  | c => c
  end.

(** * Properties *)

(** ** Arithmetic on finite numbers *)

Lemma strict_eq_Fin (a b : R) : strict_eq (Fin a) (Fin b) = true <-> a = b.
Proof.
  unfold strict_eq; simpl.
  destruct (Rlt_dec a b); [split; [discriminate | lra] |].
  destruct (Rlt_dec b a); [split; [discriminate | lra] |].
  split; [lra | reflexivity].
Qed.

Lemma strict_eq_Fin_false (a b : R) :
  a <> b -> strict_eq (Fin a) (Fin b) = false.
Proof.
  intros H. destruct (strict_eq (Fin a) (Fin b)) eqn:E; [| reflexivity].
  apply strict_eq_Fin in E. contradiction.
Qed.

Lemma strict_eq_refl_Fin (a : R) : strict_eq (Fin a) (Fin a) = true.
Proof. apply strict_eq_Fin. reflexivity. Qed.

Lemma ge_refl_Fin (a : R) : ge (Fin a) (Fin a) = true.
Proof.
  unfold ge; simpl. destruct (Rlt_dec a a); [lra | reflexivity].
Qed.

Lemma ge_Fin (a b : R) : ge (Fin a) (Fin b) = true <-> b <= a.
Proof.
  unfold ge; simpl.
  destruct (Rlt_dec a b); [split; [discriminate | lra] |].
  destruct (Rlt_dec b a); split; auto; lra.
Qed.

Lemma lt_Fin (a b : R) : lt (Fin a) (Fin b) = true <-> a < b.
Proof.
  unfold lt; simpl.
  destruct (Rlt_dec a b); [split; auto |].
  destruct (Rlt_dec b a); split; try discriminate; lra.
Qed.

Lemma add_Fin_step (s r : R) :
  (if truthy (Fin r) then add (Fin s) (Fin r) else Fin s) = Fin (s + r).
Proof.
  unfold truthy; simpl.
  destruct (strict_eq (Fin r) (Fin 0)) eqn:E; simpl; [| reflexivity].
  apply strict_eq_Fin in E. subst. f_equal. lra.
Qed.

Lemma d3_sum_Fin_from (rs : list R) (s : R) :
  fold_left (fun s v => if truthy v then add s v else s) (map Fin rs) (Fin s)
  = Fin (s + Rsum rs).
Proof.
  revert s.
  induction rs as [| r rs IH]; intros s; cbn [map fold_left Rsum fold_right].
  - f_equal. lra.
  - rewrite add_Fin_step, IH. f_equal. unfold Rsum. lra.
Qed.

Lemma d3_sum_Fin (rs : list R) : d3_sum (map Fin rs) = Fin (Rsum rs).
Proof.
  unfold d3_sum. rewrite d3_sum_Fin_from. f_equal. lra.
Qed.

Lemma d3_mean_Fin_from (rs : list R) (c : nat) (s : R) :
  fold_left (fun '(c, s) v => if ge v v then (S c, add s v) else (c, s))
            (map Fin rs) (c, Fin s)
  = ((c + length rs)%nat, Fin (s + Rsum rs)).
Proof.
  revert c s.
  induction rs as [| r rs IH]; intros c s;
    cbn [map fold_left Rsum fold_right length].
  - f_equal; [lia | f_equal; lra].
  - rewrite ge_refl_Fin. cbn [add]. rewrite IH.
    f_equal; [lia | f_equal; unfold Rsum; lra].
Qed.

Lemma INR_S_neq_0 (n : nat) : INR (S n) <> 0.
Proof. apply not_0_INR. discriminate. Qed.

Lemma d3_mean_Fin (rs : list R) :
  rs <> [] -> d3_mean (map Fin rs) = Some (Fin (Rmean rs)).
Proof.
  intros Hne. unfold d3_mean. rewrite d3_mean_Fin_from.
  destruct rs as [| r rs]; [contradiction |].
  cbn [length Nat.add]. unfold div.
  destruct (Req_dec_T (INR (S (length rs))) 0) as [E | _].
  - exfalso. revert E. apply INR_S_neq_0.
  - unfold Rmean. cbn [length]. do 3 f_equal. lra.
Qed.

Lemma or0_Fin (r : R) : or0 (Some (Fin r)) = Fin r.
Proof.
  unfold or0, truthy; simpl.
  destruct (strict_eq (Fin r) (Fin 0)) eqn:E; simpl; [| reflexivity].
  apply strict_eq_Fin in E. now subst.
Qed.

Lemma mean_Fin (rs : list R) :
  rs <> [] -> or0 (d3_mean (map Fin rs)) = Fin (Rmean rs).
Proof. intros H. rewrite d3_mean_Fin by assumption. apply or0_Fin. Qed.

(** ** Sums of squares *)

Lemma SSq_nonneg (rs : list R) (m : R) : 0 <= SSq rs m.
Proof.
  unfold SSq, Rsum. induction rs as [| r rs IH]; cbn [map fold_right]; [lra |].
  pose proof (Rle_0_sqr (r - m)) as Hs. unfold Rsqr in Hs. lra.
Qed.

Lemma SSq_zero_all (rs : list R) (m : R) :
  SSq rs m = 0 -> forall r, In r rs -> r = m.
Proof.
  unfold SSq, Rsum. induction rs as [| a rs IH]; cbn [map fold_right In];
    [contradiction |].
  intros H r Hin.
  pose proof (SSq_nonneg rs m) as Hn. unfold SSq, Rsum in Hn.
  pose proof (Rle_0_sqr (a - m)) as Hs. unfold Rsqr in Hs.
  destruct Hin as [-> | Hin].
  - assert (E : (r - m) * (r - m) = 0) by lra.
    apply Rmult_integral in E. lra.
  - apply IH; [lra | assumption].
Qed.

Lemma SSq_all_zero (rs : list R) (m : R) :
  (forall r, In r rs -> r = m) -> SSq rs m = 0.
Proof.
  unfold SSq, Rsum.
  induction rs as [| a rs IH]; cbn [map fold_right]; intros H; [reflexivity |].
  rewrite IH by (intros; apply H; now right).
  rewrite (H a) by now left. lra.
Qed.

(** Two different values cannot both equal the mean. *)
Lemma SSq_pos_distinct (rs : list R) (m a b : R) :
  In a rs -> In b rs -> a <> b -> 0 < SSq rs m.
Proof.
  intros Ha Hb Hab.
  destruct (Req_dec_T (SSq rs m) 0) as [E | N].
  - exfalso. apply Hab.
    rewrite (SSq_zero_all rs m E a Ha), (SSq_zero_all rs m E b Hb). reflexivity.
  - pose proof (SSq_nonneg rs m). lra.
Qed.

(** Expansion of the squared deviations around any centre. *)
Lemma SSq_expand (rs : list R) (m : R) :
  SSq rs m
  = Rsum (map (fun r => r * r) rs) - 2 * m * Rsum rs + INR (length rs) * m * m.
Proof.
  unfold SSq. induction rs as [| r rs IH].
  - simpl. lra.
  - cbn [map Rsum fold_right length]. unfold Rsum in IH. rewrite IH.
    rewrite S_INR. unfold Rsum. ring.
Qed.

(** [n * sum x^2 - (sum x)^2] is [n] times the squared deviations from the
    mean. *)
Lemma denominator_as_SSq (rs : list R) :
  rs <> [] ->
  INR (length rs) * Rsum (map (fun r => r * r) rs) - Rsum rs * Rsum rs
  = INR (length rs) * SSq rs (Rmean rs).
Proof.
  intros Hne. rewrite SSq_expand. unfold Rmean.
  assert (INR (length rs) <> 0).
  { destruct rs; [contradiction | apply INR_S_neq_0]. }
  field. assumption.
Qed.

Lemma Rsum_const (rs : list R) (c : R) :
  (forall r, In r rs -> r = c) -> Rsum rs = INR (length rs) * c.
Proof.
  unfold Rsum. induction rs as [| a rs IH]; intros H.
  - cbn. lra.
  - cbn [fold_right length]. rewrite S_INR, IH by (intros; apply H; now right).
    rewrite (H a) by now left. ring.
Qed.

Lemma Rmean_const (rs : list R) (c : R) :
  rs <> [] -> (forall r, In r rs -> r = c) -> Rmean rs = c.
Proof.
  intros Hne H. unfold Rmean. rewrite (Rsum_const rs c H).
  field. destruct rs; [contradiction | apply INR_S_neq_0].
Qed.

(** The squared deviations of a constant list from its mean add up to 0. *)
Lemma SSq_constant (rs : list R) :
  (forall a b, In a rs -> In b rs -> a = b) -> SSq rs (Rmean rs) = 0.
Proof.
  intros H. destruct rs as [| c rs]; [reflexivity |].
  apply SSq_all_zero. intros r Hr.
  rewrite (Rmean_const (c :: rs) c); [| discriminate |].
  - apply H; [assumption | now left].
  - intros r' Hr'. apply H; [assumption | now left].
Qed.

Lemma Rpearson_constant_x (ps : list (R * R)) :
  (forall a b, In a (map fst ps) -> In b (map fst ps) -> a = b) ->
  Rpearson ps = 0.
Proof.
  intros H. unfold Rpearson.
  destruct (length ps <? 2)%nat; [reflexivity |].
  destruct (Req_dec_T (SSq (map fst ps) (Rmean (map fst ps))) 0) as [_ | N];
    [reflexivity |].
  exfalso. apply N. now apply SSq_constant.
Qed.

(** ** The correlation over finite pairs *)

Lemma Math_sqrt_Fin (a : R) : 0 <= a -> Math_sqrt (Fin a) = Fin (sqrt a).
Proof.
  intros H. unfold Math_sqrt. destruct (Rlt_dec a 0); [lra | reflexivity].
Qed.

Lemma sqrt_zero_iff (a : R) : 0 <= a -> (sqrt a = 0 <-> a = 0).
Proof.
  intros H. split.
  - intros E. now apply sqrt_eq_0.
  - intros ->. apply sqrt_0.
Qed.

Lemma div_Fin (a b : R) : b <> 0 -> div (Fin a) (Fin b) = Fin (a / b).
Proof.
  intros H. unfold div. destruct (Req_dec_T b 0); [contradiction | reflexivity].
Qed.

Lemma map_fst_fin_pair (ps : list (R * R)) :
  map fst (map fin_pair ps) = map Fin (map fst ps).
Proof. rewrite !map_map. reflexivity. Qed.

Lemma map_snd_fin_pair (ps : list (R * R)) :
  map snd (map fin_pair ps) = map Fin (map snd ps).
Proof. rewrite !map_map. reflexivity. Qed.


Lemma d3_sum_map_Fin {A : Type} (f : A -> R) (l : list A) :
  d3_sum (map (fun a => Fin (f a)) l) = Fin (Rsum (map f l)).
Proof. rewrite <- d3_sum_Fin, map_map. reflexivity. Qed.

Lemma pearson_on_Fin (ps : list (R * R)) :
  pearson_on (map fin_pair ps) = Fin (Rpearson ps).
Proof.
  unfold pearson_on, Rpearson. rewrite length_map.
  destruct (length ps <? 2)%nat eqn:Hlen; [reflexivity |].
  assert (Hne : ps <> []) by (destruct ps; [discriminate | discriminate]).
  assert (Hx : map fst ps <> [])
    by (destruct ps; [contradiction | discriminate]).
  assert (Hy : map snd ps <> [])
    by (destruct ps; [contradiction | discriminate]).
  rewrite map_fst_fin_pair, map_snd_fin_pair.
  rewrite (mean_Fin _ Hx), (mean_Fin _ Hy).
  set (mx := Rmean (map fst ps)). set (my := Rmean (map snd ps)).
  rewrite !map_map. cbn [fin_pair fst snd sub mul Math_pow2].
  rewrite (d3_sum_map_Fin (fun x => (fst x - mx) * (snd x - my))).
  rewrite (d3_sum_map_Fin (fun x => (fst x - mx) * (fst x - mx))).
  rewrite (d3_sum_map_Fin (fun x => (snd x - my) * (snd x - my))).
  replace (Rsum (map (fun x : R * R => (fst x - mx) * (fst x - mx)) ps))
    with (SSq (map fst ps) mx) by (unfold SSq; now rewrite map_map).
  replace (Rsum (map (fun x : R * R => (snd x - my) * (snd x - my)) ps))
    with (SSq (map snd ps) my) by (unfold SSq; now rewrite map_map).
  fold (SPr ps mx my).
  pose proof (SSq_nonneg (map fst ps) mx) as Hsx.
  pose proof (SSq_nonneg (map snd ps) my) as Hsy.
  rewrite !Math_sqrt_Fin by assumption.
  destruct (Req_dec_T (SSq (map fst ps) mx) 0) as [Ex | Nx].
  { rewrite Ex, sqrt_0, strict_eq_refl_Fin. reflexivity. }
  rewrite (strict_eq_Fin_false (sqrt (SSq (map fst ps) mx)) 0)
    by (rewrite sqrt_zero_iff; assumption).
  destruct (Req_dec_T (SSq (map snd ps) my) 0) as [Ey | Ny].
  { rewrite Ey, sqrt_0, strict_eq_refl_Fin. reflexivity. }
  rewrite (strict_eq_Fin_false (sqrt (SSq (map snd ps) my)) 0)
    by (rewrite sqrt_zero_iff; assumption).
  cbn [orb mul]. apply div_Fin.
  apply Rmult_integral_contrapositive_currified;
    rewrite sqrt_zero_iff; assumption.
Qed.

Lemma CorrelationMatrix_calculateCorrelation_pearson (x y : list number) :
  CorrelationMatrix.calculateCorrelation x y
  = pearson_on (map xy_of_pair (CorrelationMatrix.pairedData x y)).
Proof.
  unfold CorrelationMatrix.calculateCorrelation, pearson_on.
  rewrite length_map, !map_map. reflexivity.
Qed.

Lemma ScatterPlot_calculateCorrelation_pearson (data : list ScatterData.t) :
  ScatterPlot.calculateCorrelation data
  = pearson_on (map xy_of_point data).
Proof.
  unfold ScatterPlot.calculateCorrelation, pearson_on.
  rewrite length_map, !map_map. reflexivity.
Qed.

(** ** The pairs of [pairedData] *)

Lemma at_app_length (pre : list number) (b : number) (y : list number) :
  at_ (pre ++ b :: y) (length pre) = b.
Proof.
  unfold at_. rewrite app_nth2 by lia. now rewrite Nat.sub_diag.
Qed.

Lemma mapi_pairs_from (x y pre : list number) :
  let n := Nat.min (length x) (length y) in
  map (fun p => Pair.mk (snd p) (at_ (pre ++ y) (fst p)))
      (combine (seq (length pre) (length (firstn n x))) (firstn n x))
  = map mk_pair (combine x y).
Proof.
  revert y pre.
  induction x as [| a x IH]; intros [| b y] pre; cbn; try reflexivity.
  rewrite at_app_length. unfold mk_pair at 1. cbn [fst snd]. f_equal.
  specialize (IH y (pre ++ [b])). cbn zeta in IH.
  rewrite <- app_assoc, length_app in IH. cbn [app length] in IH.
  rewrite Nat.add_1_r in IH. exact IH.
Qed.

(** [pairedData] zips the two arrays up to the shorter one and keeps the
    pairs without a [NaN]. *)
Lemma pairedData_combine (x y : list number) :
  CorrelationMatrix.pairedData x y
  = filter both_numbers (map mk_pair (combine x y)).
Proof.
  unfold CorrelationMatrix.pairedData, mapi. cbn zeta.
  rewrite <- (mapi_pairs_from x y []). reflexivity.
Qed.

(** ** Columns without infinities *)

Lemma finite_of (v : number) : not_inf v -> isNaN v = false -> finite v.
Proof.
  intros [Hp Hn] H. destruct v; try discriminate; try contradiction.
  now exists r.
Qed.

Lemma fin_pair_real_pairs (l : list (number * number)) :
  Forall (fun p => finite (fst p) /\ finite (snd p)) l ->
  map fin_pair (real_pairs l) = l.
Proof.
  unfold real_pairs. induction 1 as [| [a b] l [Ha Hb] _ IH]; cbn [map].
  - reflexivity.
  - cbn [fst snd] in Ha, Hb. destruct Ha as [r ->], Hb as [s ->].
    rewrite IH. reflexivity.
Qed.

Lemma pearson_on_finite (l : list (number * number)) :
  Forall (fun p => finite (fst p) /\ finite (snd p)) l ->
  pearson_on l = Fin (Rpearson (real_pairs l)).
Proof.
  intros H. rewrite <- (fin_pair_real_pairs l H) at 1. apply pearson_on_Fin.
Qed.

Lemma pairedData_finite (x y : list number) :
  Forall not_inf x -> Forall not_inf y ->
  Forall (fun p => finite (fst p) /\ finite (snd p))
         (map xy_of_pair (CorrelationMatrix.pairedData x y)).
Proof.
  intros Hx Hy. rewrite pairedData_combine.
  apply Forall_forall. intros p Hp.
  apply in_map_iff in Hp. destruct Hp as [d [<- Hd]].
  apply filter_In in Hd. destruct Hd as [Hd Hnn].
  apply in_map_iff in Hd. destruct Hd as [[a b] [<- Hab]].
  unfold both_numbers in Hnn. cbn in Hnn |- *.
  apply andb_true_iff in Hnn. destruct Hnn as [Ha Hb].
  apply negb_true_iff in Ha, Hb.
  rewrite Forall_forall in Hx, Hy.
  split; apply finite_of; auto.
  - apply Hx. eapply in_combine_l; eassumption.
  - apply Hy. eapply in_combine_r; eassumption.
Qed.

(** ** Symmetry of the correlation (C7) *)

Lemma cmul_comm (a b : comparison) : cmul a b = cmul b a.
Proof. destruct a, b; reflexivity. Qed.

Lemma mul_comm (x y : number) : mul x y = mul y x.
Proof.
  destruct x as [| | | a], y as [| | | b]; cbn [mul sgn];
    try reflexivity; try (rewrite cmul_comm; reflexivity).
  f_equal. apply Rmult_comm.
Qed.

Lemma pearson_on_swap (ps : list (number * number)) :
  pearson_on (map swap ps) = pearson_on ps.
Proof.
  unfold pearson_on. rewrite length_map.
  destruct (length ps <? 2)%nat; [reflexivity |].
  rewrite !map_map. cbn [swap fst snd].
  rewrite (map_ext
             (fun x => mul (sub (snd x) (or0 (d3_mean (map (fun x => snd x) ps))))
                           (sub (fst x) (or0 (d3_mean (map (fun x => fst x) ps)))))
             (fun d => mul (sub (fst d) (or0 (d3_mean (map fst ps))))
                           (sub (snd d) (or0 (d3_mean (map snd ps))))))
    by (intros; apply mul_comm).
  rewrite orb_comm, (mul_comm (Math_sqrt _)). reflexivity.
Qed.

Lemma combine_swap (x y : list number) :
  combine y x = map swap (combine x y).
Proof.
  revert y. induction x as [| a x IH]; intros [| b y]; cbn; try reflexivity.
  now rewrite IH.
Qed.

Lemma filter_map_comm {A B : Type} (f : A -> B) (p : B -> bool) (l : list A) :
  filter p (map f l) = map f (filter (fun a => p (f a)) l).
Proof.
  induction l as [| a l IH]; cbn; [reflexivity |].
  destruct (p (f a)); cbn; now rewrite IH.
Qed.

Lemma pairedData_swap (x y : list number) :
  map xy_of_pair (CorrelationMatrix.pairedData y x)
  = map swap (map xy_of_pair (CorrelationMatrix.pairedData x y)).
Proof.
  rewrite !pairedData_combine, combine_swap.
  rewrite !filter_map_comm, !map_map.
  rewrite (filter_ext (fun a => both_numbers (mk_pair (swap a)))
                      (fun a => both_numbers (mk_pair a))).
  - reflexivity.
  - intros [a b]. unfold both_numbers. cbn. apply andb_comm.
Qed.

Lemma calculateCorrelation_sym (x y : list number) :
  CorrelationMatrix.calculateCorrelation x y
  = CorrelationMatrix.calculateCorrelation y x.
Proof.
  rewrite !CorrelationMatrix_calculateCorrelation_pearson.
  rewrite (pairedData_swap x y). symmetry. apply pearson_on_swap.
Qed.

Lemma calculateCorrelation_finite (x y : list number) :
  Forall not_inf x -> Forall not_inf y ->
  CorrelationMatrix.calculateCorrelation x y
  = Fin (Rpearson (real_pairs
                     (map xy_of_pair (CorrelationMatrix.pairedData x y)))).
Proof.
  intros Hx Hy. rewrite CorrelationMatrix_calculateCorrelation_pearson.
  apply pearson_on_finite, pairedData_finite; assumption.
Qed.

(** ** Entries of the matrix *)

Lemma length_variables : length CorrelationMatrix.variables = 6%nat.
Proof. reflexivity. Qed.

Lemma nth_map_lt {A B : Type} (f : A -> B) (l : list A) (i : nat) (d : A)
    (d' : B) :
  (i < length l)%nat -> nth i (map f l) d' = f (nth i l d).
Proof.
  intros H. rewrite (nth_indep _ d' (f d)) by now rewrite length_map.
  apply map_nth.
Qed.

Lemma matrix_entry (csvData : list CorrelationMatrix.row) (i j : nat) :
  (i < 6)%nat -> (j < 6)%nat ->
  nth j (nth i (CorrelationMatrix.correlationMatrix csvData) []) NaN
  = CorrelationMatrix.calculateCorrelation
      (CorrelationMatrix.numericData csvData
         (nth i CorrelationMatrix.variables CorrelationMatrix.SleepDuration))
      (CorrelationMatrix.numericData csvData
         (nth j CorrelationMatrix.variables CorrelationMatrix.SleepDuration)).
Proof.
  intros Hi Hj. unfold CorrelationMatrix.correlationMatrix.
  rewrite (nth_map_lt _ _ i CorrelationMatrix.SleepDuration) by assumption.
  rewrite (nth_map_lt _ _ j CorrelationMatrix.SleepDuration) by assumption.
  reflexivity.
Qed.

Lemma matrix_entry_outside (csvData : list CorrelationMatrix.row) (i j : nat) :
  (6 <= i)%nat \/ (6 <= j)%nat ->
  nth j (nth i (CorrelationMatrix.correlationMatrix csvData) []) NaN = NaN.
Proof.
  intros H. unfold CorrelationMatrix.correlationMatrix.
  destruct (Nat.lt_ge_cases i 6) as [Hi | Hi].
  - rewrite (nth_map_lt _ _ i CorrelationMatrix.SleepDuration) by assumption.
    apply nth_overflow. rewrite length_map, length_variables. lia.
  - rewrite (nth_overflow (map _ _))
      by (rewrite length_map, length_variables; lia).
    now destruct j.
Qed.

Lemma numericData_not_inf (csvData : list CorrelationMatrix.row)
    (v : CorrelationMatrix.variable) :
  (forall d w, In d csvData -> not_inf (d w)) ->
  Forall not_inf (CorrelationMatrix.numericData csvData v).
Proof.
  intros H. apply Forall_forall. intros c Hc.
  apply filter_In in Hc. destruct Hc as [Hc _].
  apply in_map_iff in Hc. destruct Hc as [d [<- Hd]]. now apply H.
Qed.



(** ** Self-correlation and the diagonal (C6) *)

Lemma combine_self (xs : list number) : combine xs xs = map dup xs.
Proof. induction xs as [| a xs IH]; cbn; [reflexivity | now rewrite IH]. Qed.

Lemma pairedData_self (xs : list number) :
  map xy_of_pair (CorrelationMatrix.pairedData xs xs)
  = map dup (filter is_number xs).
Proof.
  rewrite pairedData_combine, combine_self.
  rewrite !filter_map_comm, !map_map.
  rewrite (filter_ext (fun a => both_numbers (mk_pair (dup a))) is_number)
    by (intros a; unfold both_numbers, is_number; cbn; apply andb_diag).
  apply map_ext. reflexivity.
Qed.

Lemma real_pairs_dup (vs : list number) :
  real_pairs (map dup vs) = map dup (map to_R vs).
Proof. unfold real_pairs. rewrite !map_map. reflexivity. Qed.

Lemma two_distinct_length {A : Type} (l : list A) (a b : A) :
  In a l -> In b l -> a <> b -> (2 <= length l)%nat.
Proof.
  destruct l as [| u [| v l]]; cbn; intros Ha Hb Hab; try lia.
  destruct Ha as [<- | []], Hb as [<- | []]. contradiction.
Qed.

Lemma SPr_dup (rs : list R) (m : R) : SPr (map dup rs) m m = SSq rs m.
Proof. unfold SPr, SSq. rewrite map_map. reflexivity. Qed.

Lemma map_fst_dup {A : Type} (l : list A) : map fst (map dup l) = l.
Proof. rewrite map_map. apply map_id. Qed.

Lemma map_snd_dup {A : Type} (l : list A) : map snd (map dup l) = l.
Proof. rewrite map_map. apply map_id. Qed.

Lemma Rpearson_dup_distinct (rs : list R) (a b : R) :
  In a rs -> In b rs -> a <> b -> Rpearson (map dup rs) = 1.
Proof.
  intros Ha Hb Hab. unfold Rpearson.
  rewrite length_map, map_fst_dup, map_snd_dup.
  pose proof (two_distinct_length rs a b Ha Hb Hab) as Hlen.
  destruct (Nat.ltb_spec (length rs) 2) as [Hlt | _]; [lia |].
  pose proof (SSq_pos_distinct rs (Rmean rs) a b Ha Hb Hab) as Hpos.
  destruct (Req_dec_T (SSq rs (Rmean rs)) 0) as [E | _]; [lra |].
  rewrite SPr_dup, sqrt_sqrt by lra. field. lra.
Qed.

Lemma Rpearson_dup_constant (rs : list R) :
  (forall a b, In a rs -> In b rs -> a = b) -> Rpearson (map dup rs) = 0.
Proof.
  intros H. apply Rpearson_constant_x. now rewrite map_fst_dup.
Qed.

Lemma to_R_inj (a b : number) :
  finite a -> finite b -> to_R a = to_R b -> a = b.
Proof. intros [r ->] [s ->]. cbn. now intros ->. Qed.

Lemma is_number_finite (xs : list number) :
  Forall not_inf xs -> Forall finite (filter is_number xs).
Proof.
  intros H. apply Forall_forall. intros v Hv.
  apply filter_In in Hv. destruct Hv as [Hv Hn].
  rewrite Forall_forall in H. apply finite_of; [now apply H |].
  unfold is_number in Hn. now apply negb_true_iff in Hn.
Qed.

Lemma calculateCorrelation_self (xs : list number) :
  Forall not_inf xs ->
  CorrelationMatrix.calculateCorrelation xs xs
  = Fin (Rpearson (map dup (map to_R (filter is_number xs)))).
Proof.
  intros H. rewrite (calculateCorrelation_finite xs xs H H).
  now rewrite pairedData_self, real_pairs_dup.
Qed.

Lemma self_correlation_distinct (xs : list number) (a b : number) :
  Forall not_inf xs ->
  In a (filter is_number xs) -> In b (filter is_number xs) -> a <> b ->
  CorrelationMatrix.calculateCorrelation xs xs = Fin 1.
Proof.
  intros H Ha Hb Hab. rewrite (calculateCorrelation_self xs H). f_equal.
  pose proof (is_number_finite xs H) as Hf. rewrite Forall_forall in Hf.
  apply (Rpearson_dup_distinct _ (to_R a) (to_R b)).
  - now apply in_map.
  - now apply in_map.
  - intros E. apply Hab. apply to_R_inj; auto.
Qed.

Lemma self_correlation_constant (xs : list number) :
  Forall not_inf xs ->
  (forall a b,
      In a (filter is_number xs) -> In b (filter is_number xs) -> a = b) ->
  CorrelationMatrix.calculateCorrelation xs xs = Fin 0.
Proof.
  intros H Hc. rewrite (calculateCorrelation_self xs H). f_equal.
  apply Rpearson_dup_constant. intros r s Hr Hs.
  apply in_map_iff in Hr, Hs.
  destruct Hr as [a [<- Ha]], Hs as [b [<- Hb]]. f_equal. now apply Hc.
Qed.

Lemma Fin_neq (a b : R) : a <> b -> Fin a <> Fin b.
Proof. intros H E. apply H. now injection E. Qed.

(** ** Evaluation on concrete arrays *)

Lemma d3_sum_start (vs : list number) : d3_sum vs = d3_sum_from (Fin 0) vs.
Proof. reflexivity. Qed.

Lemma d3_sum_from_Fin (l : list number) (s r : R) :
  d3_sum_from (Fin s) (Fin r :: l) = d3_sum_from (Fin (s + r)) l.
Proof. unfold d3_sum_from. cbn [fold_left]. now rewrite add_Fin_step. Qed.

Lemma d3_sum_from_NaN (l : list number) (acc : number) :
  d3_sum_from acc (NaN :: l) = d3_sum_from acc l.
Proof. reflexivity. Qed.

Lemma d3_sum_from_nil (acc : number) : d3_sum_from acc [] = acc.
Proof. reflexivity. Qed.

(** Runs [d3.sum] over the explicit lists of finite numbers and [NaN]s of
    the goal. *)
Ltac d3_sum_eval :=
  repeat first
    [ rewrite d3_sum_from_Fin
    | rewrite d3_sum_from_NaN
    | rewrite d3_sum_from_nil
    | match goal with
      | |- context [d3_sum (?a :: ?l)] => rewrite (d3_sum_start (a :: l))
      | |- context [d3_sum []] => rewrite (d3_sum_start [])
      end ].

(** Replaces one real expression under [Fin] by its value [v]. *)
Ltac set_fin v :=
  match goal with
  | |- context [Fin ?e] =>
      lazymatch e with v => fail | _ => idtac end;
      replace e with v by lra
  end.

(** ** Arrays of unequal length (C10) *)

Lemma combine_app_r (x y extra : list number) :
  (length x <= length y)%nat -> combine x (y ++ extra) = combine x y.
Proof.
  revert y. induction x as [| a x IH]; intros [| b y] H; cbn in *;
    try reflexivity; try lia.
  rewrite IH by lia. reflexivity.
Qed.

Lemma combine_app_l (x y extra : list number) :
  (length y <= length x)%nat -> combine (x ++ extra) y = combine x y.
Proof.
  intros H. rewrite (combine_swap y (x ++ extra)), (combine_swap y x).
  now rewrite combine_app_r.
Qed.

Lemma combine_firstn_min (x y : list number) :
  let n := Nat.min (length x) (length y) in
  combine (firstn n x) (firstn n y) = combine x y.
Proof.
  cbn zeta. rewrite <- combine_firstn.
  apply firstn_all2. rewrite length_combine. lia.
Qed.

Lemma calculateCorrelation_combine (x y x' y' : list number) :
  combine x y = combine x' y' ->
  CorrelationMatrix.calculateCorrelation x y
  = CorrelationMatrix.calculateCorrelation x' y'.
Proof.
  intros H. rewrite !CorrelationMatrix_calculateCorrelation_pearson.
  now rewrite !pairedData_combine, H.
Qed.

Lemma mapi_at_from (g : number -> number -> number) (x y pre : list number) :
  (length x <= length y)%nat ->
  map (fun p => g (snd p) (at_ (pre ++ y) (fst p)))
      (combine (seq (length pre) (length x)) x)
  = map (fun d => g (fst d) (snd d)) (combine x y).
Proof.
  revert y pre. induction x as [| a x IH]; intros [| b y] pre H; cbn in *;
    try reflexivity; try lia.
  rewrite at_app_length. f_equal.
  specialize (IH y (pre ++ [b])).
  rewrite <- app_assoc, length_app in IH. cbn [app length] in IH.
  rewrite Nat.add_1_r in IH. apply IH. lia.
Qed.

Lemma map_fst_combine_eq (x y : list number) :
  length x = length y -> map fst (combine x y) = x.
Proof.
  revert y. induction x as [| a x IH]; intros [| b y] H; cbn in *;
    try reflexivity; try discriminate.
  f_equal. apply IH. lia.
Qed.

Lemma map_snd_combine_eq (x y : list number) :
  length x = length y -> map snd (combine x y) = y.
Proof.
  revert y. induction x as [| a x IH]; intros [| b y] H; cbn in *;
    try reflexivity; try discriminate.
  f_equal. apply IH. lia.
Qed.

Lemma map_xy_mk_pair (l : list (number * number)) :
  map xy_of_pair (map mk_pair l) = l.
Proof.
  rewrite map_map. rewrite <- (map_id l) at 2.
  apply map_ext. now intros [a b].
Qed.

(** On arrays of one length without [NaN] the method of the heat map, which
    reduces each array on its own, computes what the paired method does. *)
Lemma CategoryHeatmap_calculateCorrelation_paired (x y : list number) :
  length x = length y ->
  forallb is_number x = true -> forallb is_number y = true ->
  CategoryHeatmap.calculateCorrelation x y
  = CorrelationMatrix.calculateCorrelation x y.
Proof.
  intros Hlen Hx Hy.
  rewrite CorrelationMatrix_calculateCorrelation_pearson, pairedData_combine.
  rewrite forallb_filter_id.
  2:{ apply forallb_forall. intros d Hd.
      apply in_map_iff in Hd. destruct Hd as [[a b] [<- Hab]].
      rewrite forallb_forall in Hx, Hy. unfold both_numbers. cbn.
      apply andb_true_iff. split.
      - apply Hx. eapply in_combine_l; eassumption.
      - apply Hy. eapply in_combine_r; eassumption. }
  rewrite map_xy_mk_pair.
  unfold CategoryHeatmap.calculateCorrelation, pearson_on, mapi.
  rewrite length_combine, <- Hlen.
  rewrite (map_fst_combine_eq x y Hlen), (map_snd_combine_eq x y Hlen).
  destruct (Nat.min (length x) (length x) <? 2)%nat; [reflexivity |].
  pose proof (mapi_at_from (fun xi yi => mul (sub xi (or0 (d3_mean x)))
                                            (sub yi (or0 (d3_mean y))))
                           x y [] (Nat.eq_le_incl _ _ Hlen)) as E.
  cbn [app length] in E. rewrite E. clear E.
  rewrite <- (map_map fst (fun xi => Math_pow2 (sub xi (or0 (d3_mean x))))).
  rewrite <- (map_map snd (fun yi => Math_pow2 (sub yi (or0 (d3_mean y))))).
  rewrite (map_fst_combine_eq x y Hlen), (map_snd_combine_eq x y Hlen).
  reflexivity.
Qed.

(** C10 (as amended).  The paired method of the correlation matrix reads
    only the first [min(|x|, |y|)] elements of each array: extra trailing
    elements of the longer array never change its result.  The method of
    the heat map agrees with it on arrays of one length without [NaN], the
    only ones [processData] passes to it. *)
Theorem C10_only_paired_prefix :
  (forall x y extra : list number,
      (length x <= length y)%nat ->
      CorrelationMatrix.calculateCorrelation x (y ++ extra)
      = CorrelationMatrix.calculateCorrelation x y)
  /\ (forall x y extra : list number,
         (length y <= length x)%nat ->
         CorrelationMatrix.calculateCorrelation (x ++ extra) y
         = CorrelationMatrix.calculateCorrelation x y)
  /\ (forall x y : list number,
         let n := Nat.min (length x) (length y) in
         CorrelationMatrix.calculateCorrelation x y
         = CorrelationMatrix.calculateCorrelation (firstn n x) (firstn n y))
  /\ (forall x y : list number,
         length x = length y ->
         forallb is_number x = true -> forallb is_number y = true ->
         CategoryHeatmap.calculateCorrelation x y
         = CorrelationMatrix.calculateCorrelation x y).
Proof.
  repeat split.
  - intros x y extra H. apply calculateCorrelation_combine.
    now apply combine_app_r.
  - intros x y extra H. apply calculateCorrelation_combine.
    now apply combine_app_l.
  - intros x y n. apply calculateCorrelation_combine.
    symmetry. apply combine_firstn_min.
  - apply CategoryHeatmap_calculateCorrelation_paired.
Qed.

Lemma C10_only_paired_prefix_witness :
  CorrelationMatrix.calculateCorrelation [Fin 1; Fin 2] ([Fin 1; Fin 2] ++ [Fin 3])
  = CorrelationMatrix.calculateCorrelation [Fin 1; Fin 2] [Fin 1; Fin 2].
Proof.
  apply (proj1 C10_only_paired_prefix [Fin 1; Fin 2] [Fin 1; Fin 2] [Fin 3]).
  cbn. lia.
Defined.

Lemma CategoryHeatmap_correlation_123_12 :
  CategoryHeatmap.calculateCorrelation [Fin 1; Fin 2; Fin 3] [Fin 1; Fin 2]
  = Fin (1 / 2).
Proof.
  unfold CategoryHeatmap.calculateCorrelation.
  cbn [length Nat.min Nat.ltb Nat.leb].
  change [Fin 1; Fin 2; Fin 3] with (map Fin [1; 2; 3]).
  change [Fin 1; Fin 2] with (map Fin [1; 2]).
  rewrite !mean_Fin by discriminate.
  unfold Rmean, Rsum, mapi, at_.
  cbn [length fold_right INR map seq combine fst snd nth sub mul Math_pow2].
  d3_sum_eval.
  set_fin 2. set_fin (1 / 2). set_fin (1 / 2).
  rewrite !Math_sqrt_Fin by lra.
  rewrite !strict_eq_Fin_false by (rewrite sqrt_zero_iff; lra).
  cbn [orb mul].
  rewrite <- sqrt_mult_alt by lra.
  replace (2 * (1 / 2)) with 1 by lra. rewrite sqrt_1.
  rewrite div_Fin by lra. f_equal. lra.
Qed.

Lemma CategoryHeatmap_correlation_12_12 :
  CategoryHeatmap.calculateCorrelation [Fin 1; Fin 2] [Fin 1; Fin 2] = Fin 1.
Proof.
  unfold CategoryHeatmap.calculateCorrelation.
  cbn [length Nat.min Nat.ltb Nat.leb].
  change [Fin 1; Fin 2] with (map Fin [1; 2]).
  rewrite !mean_Fin by discriminate.
  unfold Rmean, Rsum, mapi, at_.
  cbn [length fold_right INR map seq combine fst snd nth sub mul Math_pow2].
  d3_sum_eval.
  set_fin (1 / 2).
  rewrite !Math_sqrt_Fin by lra.
  rewrite !strict_eq_Fin_false by (rewrite sqrt_zero_iff; lra).
  cbn [orb mul]. rewrite sqrt_sqrt by lra.
  rewrite div_Fin by lra. f_equal. lra.
Qed.

(** C10, as stated, fails for the method of the heat map: with [x] the
    longer array, the extra trailing element [3] of [x] changes the result
    from [1] to [1/2], because the mean and the sum of squares of [x] run
    over the whole of [x]. *)
Lemma C10_heatmap_counterexample :
  CategoryHeatmap.calculateCorrelation ([Fin 1; Fin 2] ++ [Fin 3]) [Fin 1; Fin 2]
  <> CategoryHeatmap.calculateCorrelation [Fin 1; Fin 2] [Fin 1; Fin 2].
Proof.
  cbn [app].
  rewrite CategoryHeatmap_correlation_123_12, CategoryHeatmap_correlation_12_12.
  apply Fin_neq. lra.
Qed.

(** ** Least-squares regression over finite points *)

Lemma calculateLinearRegression_on (data : list ScatterData.t) :
  ScatterPlot.calculateLinearRegression data
  = regression_on (map xy_of_point data).
Proof.
  unfold ScatterPlot.calculateLinearRegression, regression_on.
  rewrite length_map, !map_map. reflexivity.
Qed.

Lemma regression_on_Fin (ps : list (R * R)) :
  (2 <= length ps)%nat -> Rdenominator ps <> 0 ->
  regression_on (map fin_pair ps)
  = Regression.mk (Fin (Rslope ps)) (Fin (Rintercept ps))
                  (sub (Fin 1) (div (Fin (RresidualSS ps)) (Fin (RtotalSS ps)))).
Proof.
  intros Hlen HD. unfold regression_on. rewrite length_map.
  destruct (Nat.ltb_spec (length ps) 2) as [Hlt | _]; [lia |].
  assert (Hn : INR (length ps) <> 0) by (apply not_0_INR; lia).
  rewrite map_fst_fin_pair, map_snd_fin_pair, !d3_sum_Fin.
  rewrite !map_map. cbn [fin_pair fst snd mul sub].
  rewrite (d3_sum_map_Fin (fun x => fst x * snd x)).
  rewrite (d3_sum_map_Fin (fun x => fst x * fst x)).
  cbn [mul sub].
  rewrite (div_Fin _ _ HD). fold (Rdenominator ps). fold (Rslope ps).
  cbn [mul sub]. rewrite !(div_Fin _ _ Hn). fold (Rintercept ps).
  cbn [mul add sub Math_pow2].
  rewrite (d3_sum_map_Fin
             (fun x => (snd x - Rsum (map snd ps) / INR (length ps))
                       * (snd x - Rsum (map snd ps) / INR (length ps)))).
  rewrite (d3_sum_map_Fin
             (fun x => (snd x - (Rslope ps * fst x + Rintercept ps))
                       * (snd x - (Rslope ps * fst x + Rintercept ps)))).
  reflexivity.
Qed.

(** *** Points on a line [y = k x + c] *)

Lemma line_fst (k c : R) (rs : list R) : map fst (map (on_line k c) rs) = rs.
Proof. rewrite map_map. apply map_id. Qed.

Lemma line_sum_y (k c : R) (rs : list R) :
  Rsum (map snd (map (on_line k c) rs)) = k * Rsum rs + c * INR (length rs).
Proof.
  unfold Rsum. induction rs as [| r rs IH].
  - cbn. lra.
  - cbn [map fold_right length on_line snd]. rewrite S_INR.
    cbn [map] in IH. rewrite IH. ring.
Qed.

Lemma line_sum_xy (k c : R) (rs : list R) :
  Rsum (map (fun p => fst p * snd p) (map (on_line k c) rs))
  = k * Rsum (map (fun r => r * r) rs) + c * Rsum rs.
Proof.
  unfold Rsum. induction rs as [| r rs IH].
  - cbn. lra.
  - cbn [map fold_right on_line fst snd]. cbn [map] in IH. rewrite IH. ring.
Qed.

Lemma line_sum_xx (k c : R) (rs : list R) :
  Rsum (map (fun p => fst p * fst p) (map (on_line k c) rs))
  = Rsum (map (fun r => r * r) rs).
Proof. rewrite map_map. reflexivity. Qed.

Lemma Rdenominator_SSq (ps : list (R * R)) :
  ps <> [] ->
  Rdenominator ps
  = INR (length ps) * SSq (map fst ps) (Rmean (map fst ps)).
Proof.
  intros Hne. unfold Rdenominator.
  rewrite <- (length_map fst ps).
  rewrite <- denominator_as_SSq
    by (destruct ps; [contradiction | discriminate]).
  now rewrite map_map.
Qed.

Lemma Rdenominator_pos (ps : list (R * R)) (a b : R) :
  In a (map fst ps) -> In b (map fst ps) -> a <> b -> 0 < Rdenominator ps.
Proof.
  intros Ha Hb Hab.
  assert (Hne : ps <> []) by (destruct ps; [contradiction | discriminate]).
  rewrite (Rdenominator_SSq ps Hne).
  apply Rmult_lt_0_compat.
  - apply lt_0_INR. destruct ps; [contradiction | cbn; lia].
  - exact (SSq_pos_distinct _ _ a b Ha Hb Hab).
Qed.

Lemma Rsum_zero {A : Type} (f : A -> R) (l : list A) :
  (forall a, In a l -> f a = 0) -> Rsum (map f l) = 0.
Proof.
  unfold Rsum. induction l as [| a l IH]; intros H; cbn [map fold_right].
  - reflexivity.
  - rewrite IH by (intros; apply H; now right).
    rewrite (H a) by now left. lra.
Qed.

Section Line.

Variables (k c : R) (rs : list R) (a b : R).
Hypothesis Ha : In a rs.
Hypothesis Hb : In b rs.
Hypothesis Hab : a <> b.

Let ps := map (on_line k c) rs.

Lemma line_length : (2 <= length ps)%nat.
Proof.
  unfold ps. rewrite length_map. exact (two_distinct_length rs a b Ha Hb Hab).
Qed.

Lemma line_denominator : 0 < Rdenominator ps.
Proof.
  apply (Rdenominator_pos ps a b); unfold ps; rewrite ?line_fst; assumption.
Qed.

Lemma line_slope : Rslope ps = k.
Proof.
  pose proof line_denominator as HD. unfold Rslope.
  apply Rmult_eq_reg_r with (Rdenominator ps); [| lra].
  unfold Rdiv. rewrite Rmult_assoc, Rinv_l, Rmult_1_r by lra.
  unfold Rdenominator, ps.
  rewrite line_sum_xy, line_sum_y, line_sum_xx, line_fst, length_map. ring.
Qed.

Lemma line_intercept : Rintercept ps = c.
Proof.
  unfold Rintercept. rewrite line_slope. unfold ps.
  rewrite line_sum_y, line_fst, length_map.
  pose proof line_length as Hl. unfold ps in Hl. rewrite length_map in Hl.
  field. apply not_0_INR. lia.
Qed.

Lemma line_residual : RresidualSS ps = 0.
Proof.
  unfold RresidualSS. rewrite line_slope, line_intercept.
  apply Rsum_zero. intros p Hp. unfold ps in Hp.
  apply in_map_iff in Hp. destruct Hp as [r [<- _]]. cbn. ring.
Qed.

Lemma line_total : k <> 0 -> 0 < RtotalSS ps.
Proof.
  intros Hk.
  assert (E : RtotalSS ps = SSq (map snd ps) (Rmean (map snd ps))).
  { unfold RtotalSS, SSq, Rmean. now rewrite map_map, length_map. }
  rewrite E.
  apply (SSq_pos_distinct _ _ (k * a + c) (k * b + c)).
  - unfold ps. rewrite map_map. cbn. apply (in_map (fun r => k * r + c)), Ha.
  - unfold ps. rewrite map_map. cbn. apply (in_map (fun r => k * r + c)), Hb.
  - intros H. apply Hab. apply Rmult_eq_reg_l with k; lra.
Qed.

Lemma regression_on_line :
  k <> 0 ->
  regression_on (map fin_pair ps) = Regression.mk (Fin k) (Fin c) (Fin 1).
Proof.
  intros Hk.
  pose proof line_denominator as HD. pose proof (line_total Hk) as HT.
  rewrite regression_on_Fin by (try apply line_length; lra).
  rewrite line_slope, line_intercept, line_residual.
  rewrite div_Fin by lra. cbn [sub]. do 2 f_equal. field. lra.
Qed.

End Line.

Lemma line_data (k c : R) (data : list ScatterData.t) :
  Forall (fun d => finite (ScatterData.x d)
                   /\ ScatterData.y d
                      = add (mul (Fin k) (ScatterData.x d)) (Fin c)) data ->
  map xy_of_point data
  = map fin_pair
        (map (on_line k c) (map (fun d => to_R (ScatterData.x d)) data)).
Proof.
  induction 1 as [| d data [[r Hx] Hy] _ IH]; cbn [map].
  - reflexivity.
  - rewrite <- IH. f_equal.
    unfold xy_of_point, fin_pair, on_line. rewrite Hy, Hx. reflexivity.
Qed.



(** ** Degenerate regressions (C2, C9) *)

Lemma div_Fin_0_0 (a b : R) : a = 0 -> b = 0 -> div (Fin a) (Fin b) = NaN.
Proof.
  intros -> ->. unfold div, Rsgn.
  destruct (Req_dec_T 0 0) as [_ | N]; [| contradiction].
  destruct (Rlt_dec 0 0); [lra | reflexivity].
Qed.

Lemma div_NaN_l (y : number) : div NaN y = NaN.
Proof. reflexivity. Qed.

(** Evaluates the divisions of the goal between explicit finite numbers. *)
Ltac div_eval :=
  repeat match goal with
    | |- context [div (Fin ?a) (Fin ?b)] =>
        first [ rewrite (div_Fin a b) by lra
              | rewrite (div_Fin_0_0 a b) by lra ]
    end.

(** Evaluates the arithmetic of the goal on explicit numbers. *)
Ltac js_eval :=
  repeat (progress (cbn [mul sub add Math_pow2 map orb]; d3_sum_eval; div_eval;
                    rewrite ?div_NaN_l)).

Lemma regression_all_x_equal :
  ScatterPlot.calculateLinearRegression [point 1 1; point 1 2]
  = Regression.mk NaN NaN (Fin 1).
Proof.
  unfold ScatterPlot.calculateLinearRegression.
  cbn [length Nat.ltb Nat.leb map point ScatterData.x ScatterData.y INR].
  js_eval. do 2 f_equal. lra.
Qed.

Lemma regression_all_y_equal :
  ScatterPlot.calculateLinearRegression [point 1 5; point 2 5]
  = Regression.mk (Fin 0) (Fin 5) NaN.
Proof.
  unfold ScatterPlot.calculateLinearRegression.
  cbn [length Nat.ltb Nat.leb map point ScatterData.x ScatterData.y INR].
  js_eval. f_equal; f_equal; lra.
Qed.

(** C2.  What [calculateLinearRegression] returns on degenerate data.  With
    fewer than two points it returns zeros.  With all [x] equal the slope is
    [0 / 0]: slope and intercept are [NaN] (and [r2] is [1], since [d3.sum]
    skips the [NaN] residuals).  With all [y] equal the total sum of squares
    is [0] and [r2] is [0 / 0 = NaN].  Neither division is guarded. *)
Theorem C2_regression_degenerate :
  ScatterPlot.calculateLinearRegression [] = Regression.mk (Fin 0) (Fin 0) (Fin 0)
  /\ ScatterPlot.calculateLinearRegression [point 1 1]
     = Regression.mk (Fin 0) (Fin 0) (Fin 0)
  /\ ScatterPlot.calculateLinearRegression [point 1 1; point 1 2]
     = Regression.mk NaN NaN (Fin 1)
  /\ ScatterPlot.calculateLinearRegression [point 1 5; point 2 5]
     = Regression.mk (Fin 0) (Fin 5) NaN.
Proof.
  split; [reflexivity |]. split; [reflexivity |].
  split; [exact regression_all_x_equal | exact regression_all_y_equal].
Qed.

(** C9.  On the two points [(1, 1)] and [(1, 2)], whose [x] are equal, slope
    and intercept are [NaN]: the centroid [(1, 3/2)] is not on the fitted
    line, [3/2 === slope * 1 + intercept] is false. *)
Theorem C9_centroid_constant_x :
  let r := ScatterPlot.calculateLinearRegression [point 1 1; point 1 2] in
  Regression.slope r = NaN
  /\ Regression.intercept r = NaN
  /\ strict_eq (Fin (3 / 2))
               (add (mul (Regression.slope r) (Fin 1)) (Regression.intercept r))
     = false.
Proof.
  cbn zeta. rewrite regression_all_x_equal. cbn. auto.
Qed.

(** ** Extent of an array of finite numbers *)

Lemma gt_Fin_min (a r : R) :
  (if gt (Fin a) (Fin r) then Fin r else Fin a) = Fin (Rmin a r).
Proof.
  unfold gt. destruct (lt (Fin r) (Fin a)) eqn:E.
  - apply lt_Fin in E. now rewrite Rmin_right by lra.
  - rewrite Rmin_left; [reflexivity |].
    destruct (Rle_dec a r); [assumption |].
    assert (H : lt (Fin r) (Fin a) = true) by (apply lt_Fin; lra).
    congruence.
Qed.

Lemma lt_Fin_max (b r : R) :
  (if lt (Fin b) (Fin r) then Fin r else Fin b) = Fin (Rmax b r).
Proof.
  destruct (lt (Fin b) (Fin r)) eqn:E.
  - apply lt_Fin in E. now rewrite Rmax_right by lra.
  - rewrite Rmax_left; [reflexivity |].
    destruct (Rle_dec r b); [assumption |].
    assert (H : lt (Fin b) (Fin r) = true) by (apply lt_Fin; lra).
    congruence.
Qed.

Lemma d3_extent_from (rs : list R) (a b : R) :
  fold_left
    (fun st v =>
       match st with
       | None => if ge v v then Some (v, v) else None
       | Some (mn, mx) =>
           Some (if gt mn v then v else mn, if lt mx v then v else mx)
       end)
    (map Fin rs) (Some (Fin a, Fin b))
  = Some (Fin (fold_left Rmin rs a), Fin (fold_left Rmax rs b)).
Proof.
  revert a b. induction rs as [| r rs IH]; intros a b; cbn [map fold_left].
  - reflexivity.
  - rewrite gt_Fin_min, lt_Fin_max. apply IH.
Qed.

Lemma fold_Rmin_least (rs : list R) (a : R) :
  least (fold_left Rmin rs a) (a :: rs).
Proof.
  revert a. induction rs as [| r rs IH]; intros a; cbn [fold_left].
  - split; [now left |]. intros r [<- | []]. lra.
  - destruct (IH (Rmin a r)) as [Hin Hle]. split.
    + destruct Hin as [E | Hin].
      * rewrite <- E. unfold Rmin. destruct (Rle_dec a r).
        -- now left.
        -- right. now left.
      * right. now right.
    + intros r' Hr'.
      assert (Hm : fold_left Rmin rs (Rmin a r) <= Rmin a r)
        by (apply Hle; now left).
      destruct Hr' as [<- | [<- | Hr']].
      * pose proof (Rmin_l a r). lra.
      * pose proof (Rmin_r a r). lra.
      * apply Hle. now right.
Qed.

Lemma fold_Rmax_greatest (rs : list R) (b : R) :
  greatest (fold_left Rmax rs b) (b :: rs).
Proof.
  revert b. induction rs as [| r rs IH]; intros b; cbn [fold_left].
  - split; [now left |]. intros r [<- | []]. lra.
  - destruct (IH (Rmax b r)) as [Hin Hle]. split.
    + destruct Hin as [E | Hin].
      * rewrite <- E. unfold Rmax. destruct (Rle_dec b r).
        -- right. now left.
        -- now left.
      * right. now right.
    + intros r' Hr'.
      assert (Hm : Rmax b r <= fold_left Rmax rs (Rmax b r))
        by (apply Hle; now left).
      destruct Hr' as [<- | [<- | Hr']].
      * pose proof (Rmax_l b r). lra.
      * pose proof (Rmax_r b r). lra.
      * apply Hle. now right.
Qed.

Lemma least_unique (rs : list R) (a b : R) : least a rs -> least b rs -> a = b.
Proof.
  intros [Ha La] [Hb Lb]. apply Rle_antisym; auto.
Qed.

Lemma greatest_unique (rs : list R) (a b : R) :
  greatest a rs -> greatest b rs -> a = b.
Proof.
  intros [Ha La] [Hb Lb]. apply Rle_antisym; auto.
Qed.

Lemma d3_extent_Fin (rs : list R) (lo hi : R) :
  least lo rs -> greatest hi rs ->
  d3_extent (map Fin rs) = Some (Fin lo, Fin hi).
Proof.
  intros Hlo Hhi. destruct rs as [| r rs]; [destruct Hlo as [[] _] |].
  unfold d3_extent. cbn [map fold_left]. rewrite ge_refl_Fin.
  rewrite d3_extent_from.
  rewrite (least_unique _ _ _ Hlo (fold_Rmin_least rs r)).
  rewrite (greatest_unique _ _ _ Hhi (fold_Rmax_greatest rs r)).
  reflexivity.
Qed.

(** ** The bins of [createBins] *)

Lemma createBins_Fin (ToString : R -> string) (rs : list R) (lo hi : R)
    (numBins : nat) :
  least lo rs -> greatest hi rs -> (0 < numBins)%nat ->
  let globalMin := IZR (Zfloor lo) in
  let globalMax := IZR (Zceil hi) in
  let binSize := (globalMax - globalMin) / INR numBins in
  CategoryHeatmap.createBins ToString (map Fin rs) numBins
  = map (fun i =>
           let min := Fin (globalMin + INR i * binSize) in
           let max := Fin (globalMin + (INR i + 1) * binSize) in
           Bin.mk min max
                  (CategoryHeatmap.toFixed1 ToString min ++ "-"
                   ++ CategoryHeatmap.toFixed1 ToString max)%string)
        (seq 0 numBins).
Proof.
  intros Hlo Hhi Hn globalMin globalMax binSize.
  unfold CategoryHeatmap.createBins.
  rewrite (d3_extent_Fin rs lo hi Hlo Hhi).
  cbn [option_map fst snd CategoryHeatmap.floor_entry CategoryHeatmap.ceil_entry
       Math_floor Math_ceil sub].
  rewrite div_Fin by (apply not_0_INR; lia).
  reflexivity.
Qed.

(** ** The test of a bin *)

Lemma small_below_switch (a : R) : a <= 1000 -> a < 10 ^ 21.
Proof. intros H. simpl. lra. Qed.

Lemma in_bin_Fin (v a b : R) (l : string) :
  in_bin (Fin v) (Bin.mk (Fin a) (Fin b) l) = true <-> a <= v < b.
Proof.
  unfold in_bin. cbn [Bin.min Bin.max].
  rewrite andb_true_iff, ge_Fin, lt_Fin. tauto.
Qed.

(** ** How many bins hold a value *)

Lemma bins_of_S (g w : R) (label : nat -> string) (k : nat) :
  bins_of g w label (S k)
  = bins_of g w label k
    ++ [Bin.mk (Fin (g + INR k * w)) (Fin (g + (INR k + 1) * w)) (label k)].
Proof.
  unfold bins_of. rewrite seq_S, map_app. reflexivity.
Qed.

(** Of the first [k] bins, exactly one holds a value between [g] and
    [g + k * w], and none holds any other value. *)
Lemma bins_holding (g w : R) (label : nat -> string) (k : nat) (v : R) :
  0 <= w ->
  length (filter (in_bin (Fin v)) (bins_of g w label k))
  = if Rle_dec g v then if Rlt_dec v (g + INR k * w) then 1%nat else 0%nat
    else 0%nat.
Proof.
  intros Hw. induction k as [| k IH].
  - cbn. destruct (Rle_dec g v); [| reflexivity].
    destruct (Rlt_dec v (g + 0 * w)); [lra | reflexivity].
  - rewrite bins_of_S, filter_app, length_app, IH. clear IH.
    rewrite S_INR. cbn [filter].
    assert (Hk : 0 <= INR k * w) by (apply Rmult_le_pos; [apply pos_INR | lra]).
    destruct (in_bin (Fin v) _) eqn:E.
    + apply in_bin_Fin in E.
      destruct (Rle_dec g v); [| lra].
      destruct (Rlt_dec v (g + INR k * w)); [lra |].
      destruct (Rlt_dec v (g + (INR k + 1) * w)); [reflexivity | lra].
    + assert (N : ~ (g + INR k * w <= v < g + (INR k + 1) * w)).
      { intros H. apply (in_bin_Fin v _ _ (label k)) in H. congruence. }
      destruct (Rle_dec g v); [| reflexivity].
      destruct (Rlt_dec v (g + INR k * w));
        destruct (Rlt_dec v (g + (INR k + 1) * w)); cbn; try reflexivity; lra.
Qed.

(** ** Sum of the counts of the cells *)

Lemma pointsInBin_filter (c1 c2 : SleepData.key) (rows : list SleepData.t)
    (b1 b2 : Bin.t) :
  CategoryHeatmap.pointsInBin c1 c2 rows b1 b2
  = filter (fun d => in_bin (SleepData.get d c1) b1
                     && in_bin (SleepData.get d c2) b2) rows.
Proof.
  unfold CategoryHeatmap.pointsInBin, in_bin.
  apply filter_ext. intros d. now rewrite <- !andb_assoc.
Qed.

Lemma list_sum_cons (a : nat) (l : list nat) :
  list_sum (a :: l) = (a + list_sum l)%nat.
Proof. reflexivity. Qed.

(** Sum over the cells of the number of rows they keep. *)
Lemma cells_row_cons (c1 c2 : SleepData.key) (d : SleepData.t)
    (rows : list SleepData.t) (bins1 bins2 : list Bin.t) :
  list_sum
    (flat_map (fun b1 =>
                 map (fun b2 =>
                        length (CategoryHeatmap.pointsInBin c1 c2 (d :: rows)
                                                            b1 b2))
                     bins2)
              bins1)
  = (length (filter (in_bin (SleepData.get d c1)) bins1)
     * length (filter (in_bin (SleepData.get d c2)) bins2)
     + list_sum
         (flat_map (fun b1 =>
                      map (fun b2 =>
                             length (CategoryHeatmap.pointsInBin c1 c2 rows
                                                                 b1 b2))
                          bins2)
                   bins1))%nat.
Proof.
  assert (Inner : forall b1,
             list_sum (map (fun b2 =>
                              length (CategoryHeatmap.pointsInBin
                                        c1 c2 (d :: rows) b1 b2)) bins2)
             = ((if in_bin (SleepData.get d c1) b1
                 then length (filter (in_bin (SleepData.get d c2)) bins2)
                 else 0)
                + list_sum (map (fun b2 =>
                                   length (CategoryHeatmap.pointsInBin
                                             c1 c2 rows b1 b2)) bins2))%nat).
  { intros b1. induction bins2 as [| b2 bins2 IH].
    - cbn. now destruct (in_bin _ b1).
    - cbn [map filter]. rewrite !list_sum_cons, IH.
      rewrite !pointsInBin_filter. cbn [filter].
      destruct (in_bin (SleepData.get d c1) b1);
        destruct (in_bin (SleepData.get d c2) b2); cbn [andb length]; lia. }
  induction bins1 as [| b1 bins1 IH].
  - reflexivity.
  - cbn [flat_map filter]. rewrite !list_sum_app, IH, Inner.
    destruct (in_bin (SleepData.get d c1) b1); cbn [length]; lia.
Qed.

Lemma cells_no_row (c1 c2 : SleepData.key) (bins1 bins2 : list Bin.t) :
  list_sum
    (flat_map (fun b1 =>
                 map (fun b2 =>
                        length (CategoryHeatmap.pointsInBin c1 c2 [] b1 b2))
                     bins2)
              bins1)
  = 0%nat.
Proof.
  induction bins1 as [| b1 bins1 IH]; [reflexivity |].
  cbn [flat_map]. rewrite list_sum_app, IH, Nat.add_0_r. clear IH.
  induction bins2 as [| b2 bins2 IH2]; [reflexivity | exact IH2].
Qed.

(** Each row is counted once for every pair of a bin that holds its first
    value and a bin that holds its second value. *)
Lemma cells_total (c1 c2 : SleepData.key) (rows : list SleepData.t)
    (bins1 bins2 : list Bin.t) :
  list_sum
    (flat_map (fun b1 =>
                 map (fun b2 =>
                        length (CategoryHeatmap.pointsInBin c1 c2 rows b1 b2))
                     bins2)
              bins1)
  = list_sum
      (map (fun d => (length (filter (in_bin (SleepData.get d c1)) bins1)
                      * length (filter (in_bin (SleepData.get d c2)) bins2))%nat)
           rows).
Proof.
  induction rows as [| d rows IH].
  - apply cells_no_row.
  - rewrite cells_row_cons, IH. reflexivity.
Qed.

Lemma processData_counts (ToString : R -> string) (c1 c2 : SleepData.key)
    (data : list SleepData.t) :
  data <> [] ->
  let rows := CategoryHeatmap.validData c1 c2 data in
  let bins1 :=
    CategoryHeatmap.createBins ToString
      (map (fun d => SleepData.get d c1) rows) 6 in
  let bins2 :=
    CategoryHeatmap.createBins ToString
      (map (fun d => SleepData.get d c2) rows) 6 in
  total_count (CategoryHeatmap.processData ToString (Some c1) (Some c2) data)
  = list_sum
      (flat_map (fun b1 =>
                   map (fun b2 =>
                          length (CategoryHeatmap.pointsInBin c1 c2 rows b1 b2))
                       bins2)
                bins1).
Proof.
  intros Hne rows bins1 bins2.
  unfold total_count, CategoryHeatmap.processData.
  destruct data as [| d0 data]; [contradiction |].
  cbn [length Nat.eqb]. fold rows.
  fold bins1 bins2. f_equal.
  rewrite flat_map_concat_map, concat_map, map_map, <- flat_map_concat_map.
  apply flat_map_ext. intros b1. rewrite map_map.
  apply map_ext. intros b2.
  destruct (0 <? length (CategoryHeatmap.pointsInBin c1 c2 rows b1 b2))%nat
    eqn:E.
  - reflexivity.
  - apply Nat.ltb_ge in E. cbn [HeatmapData.count]. lia.
Qed.

(** ** Rows counted by the heat map (C3) *)

Lemma lt_Fin_true (a b : R) : a < b -> lt (Fin a) (Fin b) = true.
Proof. apply lt_Fin. Qed.

Lemma lt_Fin_false (a b : R) : b <= a -> lt (Fin a) (Fin b) = false.
Proof.
  intros H. destruct (lt (Fin a) (Fin b)) eqn:E; [| reflexivity].
  apply lt_Fin in E. lra.
Qed.

Lemma list_sum_indicator {A : Type} (p q : A -> bool) (l : list A) :
  list_sum (map (fun a => ((if p a then 1 else 0)
                           * (if q a then 1 else 0))%nat) l)
  = length (filter (fun a => p a && q a) l).
Proof.
  induction l as [| a l IH]; [reflexivity |].
  cbn [map filter]. rewrite list_sum_cons, IH.
  destruct (p a), (q a); reflexivity.
Qed.

Lemma validData_finite (c1 c2 : SleepData.key) (data : list SleepData.t) :
  (forall d, In d data ->
             not_inf (SleepData.get d c1) /\ not_inf (SleepData.get d c2)) ->
  forall d, In d (CategoryHeatmap.validData c1 c2 data) ->
            finite (SleepData.get d c1) /\ finite (SleepData.get d c2).
Proof.
  intros H d Hd. apply filter_In in Hd. destruct Hd as [Hd Hnn].
  apply andb_true_iff in Hnn. destruct Hnn as [H1 H2].
  apply negb_true_iff in H1, H2.
  destruct (H d Hd). split; apply finite_of; assumption.
Qed.

Lemma map_finite_values {A : Type} (f : A -> number) (l : list A) :
  (forall a, In a l -> finite (f a)) ->
  map f l = map Fin (map (fun a => to_R (f a)) l).
Proof.
  intros H. rewrite map_map. apply map_ext_in.
  intros a Ha. destruct (H a Ha) as [r ->]. reflexivity.
Qed.

Lemma createBins_bins_of (ToString : R -> string) (rs : list R) (lo hi : R) :
  least lo rs -> greatest hi rs ->
  exists label,
    CategoryHeatmap.createBins ToString (map Fin rs) 6
    = bins_of (IZR (Zfloor lo)) ((IZR (Zceil hi) - IZR (Zfloor lo)) / INR 6)
              label 6.
Proof.
  intros Hlo Hhi. eexists.
  rewrite (createBins_Fin ToString rs lo hi 6 Hlo Hhi) by lia.
  cbn zeta. unfold bins_of.
  exact (eq_refl
           (map (fun i =>
                   Bin.mk _ _
                     ((fun i =>
                         (CategoryHeatmap.toFixed1 ToString
                            (Fin (IZR (Zfloor lo)
                                  + INR i * ((IZR (Zceil hi) - IZR (Zfloor lo))
                                             / INR 6)))
                          ++ "-"
                          ++ CategoryHeatmap.toFixed1 ToString
                               (Fin (IZR (Zfloor lo)
                                     + (INR i + 1)
                                       * ((IZR (Zceil hi) - IZR (Zfloor lo))
                                          / INR 6))))%string) i))
                (seq 0 6))).
Qed.

(** Of the six bins of a category, one holds a value of the category that
    is below [ceil] of the greatest value, and none holds the others. *)
Lemma bins_holding_value (g G v : R) (label : nat -> string) :
  g <= v -> g <= G ->
  length (filter (in_bin (Fin v)) (bins_of g ((G - g) / INR 6) label 6))
  = if lt (Fin v) (Fin G) then 1%nat else 0%nat.
Proof.
  intros Hv HG.
  assert (H6 : INR 6 = 6) by (simpl; lra).
  rewrite bins_holding by (rewrite H6; lra).
  replace (g + INR 6 * ((G - g) / INR 6)) with G by (rewrite H6; field).
  destruct (Rle_dec g v); [| lra].
  destruct (Rlt_dec v G).
  - now rewrite lt_Fin_true.
  - rewrite lt_Fin_false by lra. reflexivity.
Qed.

Lemma floor_le_ceil (lo hi : R) : lo <= hi -> IZR (Zfloor lo) <= IZR (Zceil hi).
Proof.
  intros H. pose proof (Zfloor_bound lo). pose proof (Zceil_bound hi). lra.
Qed.

(** The counts of all cells add up to the number of valid rows whose two
    values are both below [ceil] of the greatest value of their category. *)
Lemma heatmap_counts (ToString : R -> string) (c1 c2 : SleepData.key)
    (data : list SleepData.t) (lo1 hi1 lo2 hi2 : R) :
  (forall d, In d data ->
             not_inf (SleepData.get d c1) /\ not_inf (SleepData.get d c2)) ->
  let rows := CategoryHeatmap.validData c1 c2 data in
  least lo1 (map (fun d => to_R (SleepData.get d c1)) rows) ->
  greatest hi1 (map (fun d => to_R (SleepData.get d c1)) rows) ->
  least lo2 (map (fun d => to_R (SleepData.get d c2)) rows) ->
  greatest hi2 (map (fun d => to_R (SleepData.get d c2)) rows) ->
  total_count (CategoryHeatmap.processData ToString (Some c1) (Some c2) data)
  = length (filter (fun d =>
                      lt (SleepData.get d c1) (Fin (IZR (Zceil hi1)))
                      && lt (SleepData.get d c2) (Fin (IZR (Zceil hi2))))
                   rows).
Proof.
  intros Hinf rows Hlo1 Hhi1 Hlo2 Hhi2.
  pose proof (validData_finite c1 c2 data Hinf) as Hfin. fold rows in Hfin.
  assert (Hne : data <> []).
  { intros ->. destruct Hlo1 as [[] _]. }
  rewrite (processData_counts ToString c1 c2 data Hne). cbn zeta. fold rows.
  rewrite (map_finite_values (fun d => SleepData.get d c1) rows)
    by (intros d Hd; apply (Hfin d Hd)).
  rewrite (map_finite_values (fun d => SleepData.get d c2) rows)
    by (intros d Hd; apply (Hfin d Hd)).
  destruct (createBins_bins_of ToString _ lo1 hi1 Hlo1 Hhi1) as [l1 ->].
  destruct (createBins_bins_of ToString _ lo2 hi2 Hlo2 Hhi2) as [l2 ->].
  rewrite cells_total, <- list_sum_indicator. f_equal.
  apply map_ext_in. intros d Hd.
  destruct (Hfin d Hd) as [[v1 E1] [v2 E2]]. rewrite E1, E2.
  assert (Hv1 : In v1 (map (fun d => to_R (SleepData.get d c1)) rows)).
  { apply in_map_iff. exists d. now rewrite E1. }
  assert (Hv2 : In v2 (map (fun d => to_R (SleepData.get d c2)) rows)).
  { apply in_map_iff. exists d. now rewrite E2. }
  pose proof (proj2 Hlo1 v1 Hv1). pose proof (proj2 Hhi1 v1 Hv1).
  pose proof (proj2 Hlo2 v2 Hv2). pose proof (proj2 Hhi2 v2 Hv2).
  pose proof (Zfloor_bound lo1). pose proof (Zfloor_bound lo2).
  rewrite !bins_holding_value
    by (try (apply floor_le_ceil); lra).
  reflexivity.
Qed.

(** Evaluates the comparisons [<] of the goal between explicit numbers. *)
Ltac lt_eval :=
  repeat match goal with
    | |- context [lt (Fin ?a) (Fin ?b)] =>
        first [ rewrite (lt_Fin_true a b) by lra
              | rewrite (lt_Fin_false a b) by lra ]
    end.

Lemma least_4_to_10 : least 4 [4; 5; 6; 7; 8; 9; 10].
Proof. split; cbn; [tauto | intros r H; decompose [or] H; lra]. Qed.

Lemma greatest_4_to_10 : greatest 10 [4; 5; 6; 7; 8; 9; 10].
Proof. split; cbn; [tauto | intros r H; decompose [or] H; lra]. Qed.

(** C3.  Seven rows whose sleep duration and quality of sleep run through
    [4, 5, ..., 10] are all valid, yet the counts of the cells add up to
    six: the greatest value [10] equals [ceil(10)], the upper bound of the
    last bin, and the test [val < bin.max] keeps it out of every bin. *)
Theorem C3_integer_maximum_dropped (ToString : R -> string) :
  let data := map (fun v => sleep_row v v) [4; 5; 6; 7; 8; 9; 10] in
  length (CategoryHeatmap.validData SleepData.KSleepDuration
                                    SleepData.KQualityOfSleep data)
  = 7%nat
  /\ total_count
       (CategoryHeatmap.processData ToString
          (Some SleepData.KSleepDuration) (Some SleepData.KQualityOfSleep) data)
     = 6%nat.
Proof.
  cbn zeta. split; [reflexivity |].
  rewrite (heatmap_counts ToString _ _ _ 4 10 4 10).
  - rewrite (Zceil_eq 10 10) by lra.
    cbn [map CategoryHeatmap.validData filter sleep_row SleepData.get
         SleepData.SleepDuration
         SleepData.QualityOfSleep isNaN negb andb].
    lt_eval. reflexivity.
  - intros d Hd. apply in_map_iff in Hd. destruct Hd as [v [<- _]].
    repeat split; discriminate.
  - exact least_4_to_10.
  - exact greatest_4_to_10.
  - exact least_4_to_10.
  - exact greatest_4_to_10.
Qed.



(** ** The matrix and the scatter plot of one pair of variables *)

Lemma combine_filtered_columns {A : Type} (f g : A -> number) (l : list A) :
  (forall d, In d l -> isNaN (f d) = isNaN (g d)) ->
  combine (filter is_number (map f l)) (filter is_number (map g l))
  = map (fun d => (f d, g d)) (filter (fun d => is_number (f d)) l).
Proof.
  induction l as [| d l IH]; intros H; [reflexivity |].
  assert (IH' := IH (fun d' Hd' => H d' (or_intror Hd'))). clear IH.
  assert (Eg : isNaN (g d) = isNaN (f d)) by (symmetry; apply H; now left).
  cbn [map filter].
  replace (is_number (g d)) with (is_number (f d))
    by (unfold is_number; now rewrite Eg).
  destruct (is_number (f d)); cbn [combine map]; now rewrite IH'.
Qed.

Lemma filter_twice {A : Type} (p q : A -> bool) (l : list A) :
  filter p (filter q l) = filter (fun a => p a && q a) l.
Proof.
  induction l as [| a l IH]; [reflexivity |].
  cbn [filter]. destruct (q a); cbn [filter]; rewrite IH.
  - now rewrite andb_true_r.
  - now rewrite andb_false_r.
Qed.

Lemma numericData_filter (csvData : list CorrelationMatrix.row)
    (v : CorrelationMatrix.variable) :
  CorrelationMatrix.numericData csvData v
  = filter is_number (map (fun d => d v) csvData).
Proof. reflexivity. Qed.

Lemma aligned_pairs (label : CorrelationMatrix.row -> string)
    (csvData : list CorrelationMatrix.row) (vx vy : CorrelationMatrix.variable) :
  (forall d, In d csvData -> isNaN (d vx) = isNaN (d vy)) ->
  map xy_of_pair
      (CorrelationMatrix.pairedData (CorrelationMatrix.numericData csvData vx)
                                    (CorrelationMatrix.numericData csvData vy))
  = map xy_of_point (ScatterPlot.loadData (scatter_rows label csvData vx vy)).
Proof.
  intros H. rewrite pairedData_combine, !numericData_filter.
  rewrite (combine_filtered_columns (fun d => d vx) (fun d => d vy) csvData H).
  unfold ScatterPlot.loadData, scatter_rows.
  rewrite !filter_map_comm, !map_map. cbn [ScatterData.x ScatterData.y].
  rewrite filter_twice.
  rewrite (filter_ext_in
             (fun d => (both_numbers (mk_pair (d vx, d vy))
                        && is_number (d vx))%bool)
             (fun d => negb (isNaN (d vx)) && negb (isNaN (d vy)))).
  - reflexivity.
  - intros d Hd. unfold both_numbers, is_number. cbn.
    rewrite (H d Hd). now destruct (isNaN (d vy)).
Qed.

(** X7.  When every row of the CSV file has its two cells either both readable
    or both unreadable, the correlation in the scatter plot that a click on
    cell [i], [j] opens is the entry [i], [j] of the matrix. *)
Theorem scatter_plot_agrees_with_matrix
    (label : CorrelationMatrix.row -> string)
    (csvData : list CorrelationMatrix.row) (i j : nat) :
  (i < 6)%nat -> (j < 6)%nat ->
  let vx := nth i CorrelationMatrix.variables CorrelationMatrix.SleepDuration in
  let vy := nth j CorrelationMatrix.variables CorrelationMatrix.SleepDuration in
  (forall d, In d csvData -> isNaN (d vx) = isNaN (d vy)) ->
  ScatterPlot.calculateCorrelation
    (ScatterPlot.loadData (scatter_rows label csvData vx vy))
  = nth j (nth i (CorrelationMatrix.correlationMatrix csvData) []) NaN.
Proof.
  intros Hi Hj vx vy H. rewrite matrix_entry by assumption. fold vx vy.
  rewrite ScatterPlot_calculateCorrelation_pearson.
  rewrite CorrelationMatrix_calculateCorrelation_pearson.
  now rewrite (aligned_pairs label csvData vx vy H).
Qed.

Lemma scatter_plot_agrees_with_matrix_witness :
  let csvData : list CorrelationMatrix.row :=
    [fun _ => Fin 1; fun _ => NaN; fun _ => Fin 3] in
  ScatterPlot.calculateCorrelation
    (ScatterPlot.loadData
       (scatter_rows (fun _ => EmptyString) csvData
                     CorrelationMatrix.SleepDuration
                     CorrelationMatrix.QualityOfSleep))
  = nth 1 (nth 0 (CorrelationMatrix.correlationMatrix csvData) []) NaN.
Proof.
  apply (scatter_plot_agrees_with_matrix (fun _ => EmptyString)
           [fun _ => Fin 1; fun _ => NaN; fun _ => Fin 3] 0 1).
  - lia.
  - lia.
  - intros d [<- | [<- | [<- | []]]]; reflexivity.
Defined.

(** ** Bins as a partition *)

Lemma least_le_greatest (rs : list R) (lo hi : R) :
  least lo rs -> greatest hi rs -> lo <= hi.
Proof. intros [Hin _] [_ Hle]. now apply Hle. Qed.



(** ** The grid of the heat map *)

Lemma nth_flat_map_uniform {A B : Type} (f : A -> list B) (l : list A)
    (m i j : nat) (da : A) (db : B) :
  (forall a, length (f a) = m) -> (i < length l)%nat -> (j < m)%nat ->
  nth (m * i + j) (flat_map f l) db = nth j (f (nth i l da)) db.
Proof.
  intros Hm. revert i. induction l as [| a l IH]; intros i Hi Hj.
  - cbn in Hi. lia.
  - cbn [flat_map]. destruct i as [| i].
    + rewrite Nat.mul_0_r, Nat.add_0_l.
      rewrite app_nth1 by (rewrite Hm; assumption). reflexivity.
    + rewrite app_nth2 by (rewrite Hm; lia).
      rewrite Hm. replace (m * S i + j - m)%nat with (m * i + j)%nat by lia.
      cbn [nth]. apply IH; [cbn in Hi; lia | assumption].
Qed.

Lemma length_flat_map_uniform {A B : Type} (f : A -> list B) (l : list A)
    (m : nat) :
  (forall a, length (f a) = m) -> length (flat_map f l) = (length l * m)%nat.
Proof.
  intros Hm. induction l as [| a l IH]; [reflexivity |].
  cbn [flat_map length]. rewrite length_app, Hm, IH. lia.
Qed.

Lemma length_createBins (ToString : R -> string) (values : list number)
    (numBins : nat) :
  length (CategoryHeatmap.createBins ToString values numBins) = numBins.
Proof.
  unfold CategoryHeatmap.createBins. now rewrite length_map, length_seq.
Qed.

Lemma processData_cells (ToString : R -> string) (c1 c2 : SleepData.key)
    (data : list SleepData.t) :
  data <> [] ->
  let rows := CategoryHeatmap.validData c1 c2 data in
  CategoryHeatmap.processData ToString (Some c1) (Some c2) data
  = flat_map
      (fun bin1 =>
         map (heatmap_cell ToString c1 c2 rows bin1)
             (CategoryHeatmap.createBins ToString
                (map (fun d => SleepData.get d c2) rows) 6))
      (CategoryHeatmap.createBins ToString
         (map (fun d => SleepData.get d c1) rows) 6).
Proof.
  intros Hne rows. unfold CategoryHeatmap.processData.
  destruct data as [| d data]; [contradiction |].
  cbn [length Nat.eqb]. reflexivity.
Qed.

Lemma processData_nth (ToString : R -> string) (c1 c2 : SleepData.key)
    (data : list SleepData.t) (i j : nat) :
  data <> [] -> (i < 6)%nat -> (j < 6)%nat ->
  let rows := CategoryHeatmap.validData c1 c2 data in
  nth (6 * i + j)
      (CategoryHeatmap.processData ToString (Some c1) (Some c2) data) no_cell
  = heatmap_cell ToString c1 c2 rows
      (nth i (CategoryHeatmap.createBins ToString
                (map (fun d => SleepData.get d c1) rows) 6) no_bin)
      (nth j (CategoryHeatmap.createBins ToString
                (map (fun d => SleepData.get d c2) rows) 6) no_bin).
Proof.
  intros Hne Hi Hj rows. rewrite processData_cells by assumption.
  fold rows.
  rewrite (nth_flat_map_uniform _ _ 6 i j no_bin no_cell).
  - apply nth_map_lt. now rewrite length_createBins.
  - intros a. now rewrite length_map, length_createBins.
  - now rewrite length_createBins.
  - assumption.
Qed.

Lemma heatmap_cell_fields (ToString : R -> string) (c1 c2 : SleepData.key)
    (rows : list SleepData.t) (b1 b2 : Bin.t) :
  let cell := heatmap_cell ToString c1 c2 rows b1 b2 in
  HeatmapData.category1Bin cell = Bin.label b1
  /\ HeatmapData.category2Bin cell = Bin.label b2
  /\ HeatmapData.count cell
     = length (CategoryHeatmap.pointsInBin c1 c2 rows b1 b2).
Proof.
  unfold heatmap_cell.
  destruct (CategoryHeatmap.pointsInBin c1 c2 rows b1 b2) as [| p pts];
    cbn; auto.
Qed.

(** X9.  Whenever both categories are set and the data are not empty,
    [processData] fills a complete grid of 36 cells, also when no row is
    valid; the cell at position [6 * i + j] belongs to bin [i] of the first
    category and bin [j] of the second: it carries their labels and counts
    the valid rows that pass the test of both bins. *)
Theorem heatmap_grid (ToString : R -> string) (c1 c2 : SleepData.key)
    (data : list SleepData.t) (i j : nat) :
  data <> [] -> (i < 6)%nat -> (j < 6)%nat ->
  let rows := CategoryHeatmap.validData c1 c2 data in
  let bin1 :=
    nth i (CategoryHeatmap.createBins ToString
             (map (fun d => SleepData.get d c1) rows) 6) no_bin in
  let bin2 :=
    nth j (CategoryHeatmap.createBins ToString
             (map (fun d => SleepData.get d c2) rows) 6) no_bin in
  let cells :=
    CategoryHeatmap.processData ToString (Some c1) (Some c2) data in
  let cell := nth (6 * i + j) cells no_cell in
  length cells = 36%nat
  /\ HeatmapData.category1Bin cell = Bin.label bin1
  /\ HeatmapData.category2Bin cell = Bin.label bin2
  /\ HeatmapData.count cell
     = length (filter (fun d => in_bin (SleepData.get d c1) bin1
                                && in_bin (SleepData.get d c2) bin2) rows).
Proof.
  intros Hne Hi Hj rows bin1 bin2 cells cell. split.
  - subst cells. rewrite processData_cells by assumption.
    rewrite (length_flat_map_uniform _ _ 6)
      by (intros a; now rewrite length_map, length_createBins).
    now rewrite length_createBins.
  - subst cell cells. rewrite processData_nth by assumption.
    fold rows. fold bin1. fold bin2.
    destruct (heatmap_cell_fields ToString c1 c2 rows bin1 bin2)
      as [H1 [H2 H3]].
    repeat split; try assumption.
    rewrite H3. unfold CategoryHeatmap.pointsInBin. f_equal.
    apply filter_ext. intros d. unfold in_bin.
    now rewrite !andb_assoc.
Qed.

Lemma heatmap_grid_witness :
  let data := [sleep_row 6.1 5.5; sleep_row 7.5 8.5] in
  let rows :=
    CategoryHeatmap.validData SleepData.KSleepDuration
                              SleepData.KQualityOfSleep data in
  let cells :=
    CategoryHeatmap.processData (fun _ => EmptyString)
      (Some SleepData.KSleepDuration) (Some SleepData.KQualityOfSleep) data in
  length cells = 36%nat
  /\ HeatmapData.category1Bin (nth (6 * 2 + 3) cells no_cell)
     = Bin.label
         (nth 2 (CategoryHeatmap.createBins (fun _ => EmptyString)
                   (map (fun d => SleepData.get d SleepData.KSleepDuration)
                        rows) 6) no_bin).
Proof.
  intros data rows cells.
  pose proof (heatmap_grid (fun _ => EmptyString) SleepData.KSleepDuration
                SleepData.KQualityOfSleep data 2 3) as H.
  destruct H as [H1 [H2 _]]; [discriminate | lia | lia |].
  split; [exact H1 | exact H2].
Defined.

(** ** Least and greatest values *)

Lemma least_exists (rs : list R) : rs <> [] -> exists lo, least lo rs.
Proof.
  destruct rs as [| r rs]; [contradiction |]. intros _.
  exists (fold_left Rmin rs r). apply fold_Rmin_least.
Qed.

Lemma greatest_exists (rs : list R) : rs <> [] -> exists hi, greatest hi rs.
Proof.
  destruct rs as [| r rs]; [contradiction |]. intros _.
  exists (fold_left Rmax rs r). apply fold_Rmax_greatest.
Qed.

(** ** No row is counted twice *)

(** X11.  On data whose values are real numbers or [NaN], the counts of the cells
    of the heat map never add up to more than the number of valid rows: the
    bins of a category do not overlap, so no row is counted in two
    cells. *)
Theorem heatmap_counts_bounded (ToString : R -> string)
    (c1 c2 : SleepData.key) (data : list SleepData.t) :
  (forall d, In d data ->
             not_inf (SleepData.get d c1) /\ not_inf (SleepData.get d c2)) ->
  (total_count (CategoryHeatmap.processData ToString (Some c1) (Some c2) data)
   <= length (CategoryHeatmap.validData c1 c2 data))%nat.
Proof.
  intros Hfin.
  destruct data as [| d0 data']; [cbn; lia |].
  set (data := d0 :: data') in *.
  assert (Hne : data <> []) by discriminate.
  set (rows := CategoryHeatmap.validData c1 c2 data).
  destruct rows as [| r0 rows'] eqn:Erows.
  - rewrite processData_counts by assumption. fold rows. rewrite Erows.
    rewrite cells_total. cbn. lia.
  - assert (H1 : map (fun d => to_R (SleepData.get d c1)) rows <> [])
      by (rewrite Erows; discriminate).
    assert (H2 : map (fun d => to_R (SleepData.get d c2)) rows <> [])
      by (rewrite Erows; discriminate).
    destruct (least_exists _ H1) as [lo1 Hlo1].
    destruct (greatest_exists _ H1) as [hi1 Hhi1].
    destruct (least_exists _ H2) as [lo2 Hlo2].
    destruct (greatest_exists _ H2) as [hi2 Hhi2].
    rewrite (heatmap_counts ToString c1 c2 data lo1 hi1 lo2 hi2 Hfin
               Hlo1 Hhi1 Hlo2 Hhi2).
    fold rows. rewrite <- Erows. apply filter_length_le.
Qed.

Lemma heatmap_counts_bounded_witness :
  (total_count
     (CategoryHeatmap.processData (fun _ => EmptyString)
        (Some SleepData.KSleepDuration) (Some SleepData.KQualityOfSleep)
        (map (fun v => sleep_row v v) [4; 5; 6; 7; 8; 9; 10]%R))
   <= length (CategoryHeatmap.validData SleepData.KSleepDuration
                SleepData.KQualityOfSleep
                (map (fun v => sleep_row v v) [4; 5; 6; 7; 8; 9; 10]%R)))%nat.
Proof.
  apply (heatmap_counts_bounded (fun _ => EmptyString)).
  intros d Hd. apply in_map_iff in Hd. destruct Hd as [v [<- _]].
  repeat split; discriminate.
Defined.

(** ** Counting under string keys *)

Lemma Map_get_set {V : Type} (m : list (string * V)) (k k' : string) (v : V) :
  Map_get (Map_set m k v) k'
  = if String.eqb k k' then Some v else Map_get m k'.
Proof.
  induction m as [| [k0 v0] m IH]; cbn [Map_set Map_get].
  - reflexivity.
  - destruct (String.eqb k0 k) eqn:E0; cbn [Map_get].
    + apply String.eqb_eq in E0. subst k0.
      destruct (String.eqb k k'); reflexivity.
    + destruct (String.eqb k0 k') eqn:E1.
      * apply String.eqb_eq in E1. subst k'.
        rewrite String.eqb_sym, E0. reflexivity.
      * apply IH.
Qed.

Lemma counts_fold {A : Type} (keyof : A -> string) (rows : list A)
    (m : list (string * nat)) (k : string) :
  count_or0
    (Map_get
       (fold_left (fun m d =>
                     Map_set m (keyof d)
                             (count_or0 (Map_get m (keyof d)) + 1)%nat)
                  rows m)
       k)
  = (count_or0 (Map_get m k)
     + length (filter (fun d => String.eqb (keyof d) k) rows))%nat.
Proof.
  revert m. induction rows as [| d rows IH]; intros m; cbn [fold_left filter].
  - cbn. lia.
  - rewrite IH, Map_get_set.
    destruct (String.eqb (keyof d) k) eqn:E; cbn [length count_or0].
    + apply String.eqb_eq in E. subst k. lia.
    + lia.
Qed.

(** ** Decimal digits *)

Lemma chars_app (s t : string) : chars (s ++ t) = (chars s ++ chars t)%list.
Proof.
  unfold chars. induction s as [| c s IH]; cbn; [reflexivity |].
  now rewrite IH.
Qed.

Lemma chars_inj (s t : string) : chars s = chars t -> s = t.
Proof.
  unfold chars. intros H.
  rewrite <- (string_of_list_ascii_of_string s),
          <- (string_of_list_ascii_of_string t).
  now rewrite H.
Qed.

Lemma string_of_uint_digits (d : Decimal.uint) :
  forallb is_digit (chars (NilEmpty.string_of_uint d)) = true.
Proof.
  unfold chars. induction d; simpl; auto.
Qed.

Lemma to_uint_nonnil (n : N) : N.to_uint n <> Decimal.Nil.
Proof.
  destruct n as [| p]; cbn; [discriminate |].
  apply DecimalPos.Unsigned.to_uint_nonnil.
Qed.

Lemma digits_are_digits (n : Z) : forallb is_digit (chars (digits n)) = true.
Proof.
  unfold digits, NilZero.string_of_uint.
  destruct (N.to_uint (Z.to_N n)) eqn:E; [reflexivity | ..];
    apply string_of_uint_digits.
Qed.

Lemma digits_nonempty (n : Z) : exists c s, digits n = String c s.
Proof.
  unfold digits, NilZero.string_of_uint.
  pose proof (to_uint_nonnil (Z.to_N n)) as H.
  destruct (N.to_uint (Z.to_N n)); cbn; eauto.
Qed.

Lemma digits_inj (n m : Z) :
  (0 <= n)%Z -> (0 <= m)%Z -> digits n = digits m -> n = m.
Proof.
  unfold digits. intros Hn Hm H.
  apply (f_equal NilZero.uint_of_string) in H.
  rewrite !NilZero.usu in H by apply to_uint_nonnil.
  injection H as H. apply DecimalN.Unsigned.to_uint_inj in H.
  now apply Z2N.inj.
Qed.

(** Two strings of digits joined by a hyphen are read apart in one way
    only. *)
Lemma split_at_hyphen (l1 r1 l2 r2 : list ascii) :
  forallb is_digit l2 = true -> forallb is_digit r2 = true ->
  (l1 ++ "-"%char :: r1 = l2 ++ "-"%char :: r2)%list ->
  l1 = l2 /\ r1 = r2.
Proof.
  revert l1. induction l2 as [| c2 l2 IH]; intros l1 H2 Hr E.
  - destruct l1 as [| c l1]; cbn in E.
    + injection E as E. now split.
    + injection E as Ec E. subst c.
      assert (Hin : In "-"%char r2) by (rewrite <- E; apply in_elt).
      rewrite forallb_forall in Hr. apply Hr in Hin. discriminate.
  - cbn [forallb] in H2. apply andb_true_iff in H2. destruct H2 as [Hc H2].
    destruct l1 as [| c l1]; cbn in E.
    + injection E as Ec E. subst c2. discriminate.
    + injection E as Ec E. subst c2.
      destruct (IH l1 H2 Hr E) as [-> ->]. now split.
Qed.

(** ** Keys of the duration and quality grid *)

Lemma not_digits (s : string) (n : Z) :
  forallb is_digit (chars s) = false -> s <> digits n.
Proof.
  intros H E. rewrite E, digits_are_digits in H. discriminate.
Qed.

Lemma toString_grid (ToString : R -> string) (n : nat) :
  (n <= 10)%nat ->
  SleepDurationQualityHeatmap.toString ToString (Fin (INR n))
  = digits (Z.of_nat n).
Proof.
  intros Hn. unfold SleepDurationQualityHeatmap.toString.
  pose proof (pos_INR n) as H0.
  assert (H10 : INR n <= 10).
  { replace 10 with (INR 10) by (simpl; lra). now apply le_INR. }
  rewrite Rabs_pos_eq by assumption.
  destruct (Rle_dec (10 ^ 21) (INR n)) as [Hbig | _].
  - pose proof (small_below_switch (INR n)). lra.
  - destruct (Rlt_dec (INR n) 0); [lra |].
    rewrite INR_IZR_INZ, ZfloorZ. reflexivity.
Qed.

Section RoundedKeys.

Variable ToString : R -> string.

(** Exponent notation, which [Number.prototype.toString] uses from [10^21]
    on, writes the letter [e]. *)
Hypothesis exponent_notation : forall a, In "e"%char (chars (ToString a)).

Lemma toString_round_digits (u : number) (n : nat) :
  SleepDurationQualityHeatmap.toString ToString (Math_round u)
  = digits (Z.of_nat n) ->
  Math_round u = Fin (INR n).
Proof.
  destruct u as [| | | a]; cbn [Math_round SleepDurationQualityHeatmap.toString].
  - intros H. exfalso. revert H. now apply not_digits.
  - intros H. exfalso. revert H. now apply not_digits.
  - intros H. exfalso. revert H. now apply not_digits.
  - set (z := Zfloor (a + / 2)).
    destruct (Rle_dec (10 ^ 21) (Rabs (IZR z))) as [_ | _].
    + intros H. exfalso. revert H. apply not_digits.
      destruct (forallb is_digit (chars (ToString (IZR z)))) eqn:E;
        [| reflexivity].
      rewrite forallb_forall in E.
      specialize (E _ (exponent_notation (IZR z))). discriminate.
    + destruct (Rlt_dec (IZR z) 0) as [Hneg | Hpos].
      * intros H. exfalso. revert H. now apply not_digits.
      * cbn [append]. intros H.
        rewrite Rabs_pos_eq, ZfloorZ in H by lra.
        apply digits_inj in H; [| apply le_IZR; lra | lia].
        rewrite H, <- INR_IZR_INZ. reflexivity.
Qed.

Lemma strict_eq_Fin_r (x : number) (r : R) :
  strict_eq x (Fin r) = true <-> x = Fin r.
Proof.
  destruct x as [| | | a].
  - split; discriminate.
  - split; discriminate.
  - split; discriminate.
  - rewrite strict_eq_Fin. split; [now intros -> | now intros [= ->]].
Qed.

Lemma key_of_grid (u v : number) (d q : nat) :
  (d <= 10)%nat -> (q <= 10)%nat ->
  String.eqb
    (SleepDurationQualityHeatmap.key ToString (Math_round u) (Math_round v))
    (SleepDurationQualityHeatmap.key ToString (Fin (INR d)) (Fin (INR q)))
  = strict_eq (Math_round u) (Fin (INR d))
    && strict_eq (Math_round v) (Fin (INR q)).
Proof.
  intros Hd Hq. unfold SleepDurationQualityHeatmap.key.
  rewrite !toString_grid by assumption.
  apply eq_true_iff_eq. rewrite String.eqb_eq, andb_true_iff.
  rewrite !strict_eq_Fin_r. split.
  - intros H. apply (f_equal chars) in H. rewrite !chars_app in H.
    cbn [chars list_ascii_of_string app] in H.
    fold (chars (SleepDurationQualityHeatmap.toString ToString (Math_round v)))
      in H.
    fold (chars (digits (Z.of_nat q))) in H.
    apply split_at_hyphen in H; try apply digits_are_digits.
    destruct H as [H1 H2]. apply chars_inj in H1, H2.
    split; now apply toString_round_digits.
  - intros [-> ->]. now rewrite !toString_grid.
Qed.

Lemma durationQualityMap_counts (csvData : list CorrelationMatrix.row)
    (d q : nat) :
  (d <= 10)%nat -> (q <= 10)%nat ->
  count_or0
    (Map_get (SleepDurationQualityHeatmap.durationQualityMap ToString csvData)
             (SleepDurationQualityHeatmap.key ToString
                (Fin (INR d)) (Fin (INR q))))
  = length
      (filter (fun row =>
                 strict_eq (Math_round (row CorrelationMatrix.SleepDuration))
                           (Fin (INR d))
                 && strict_eq
                      (Math_round (row CorrelationMatrix.QualityOfSleep))
                      (Fin (INR q)))
              csvData).
Proof.
  intros Hd Hq. unfold SleepDurationQualityHeatmap.durationQualityMap.
  rewrite (counts_fold
             (fun row =>
                SleepDurationQualityHeatmap.key ToString
                  (Math_round (row CorrelationMatrix.SleepDuration))
                  (Math_round (row CorrelationMatrix.QualityOfSleep)))).
  cbn [Map_get count_or0 Nat.add]. f_equal.
  apply filter_ext. intros row. now apply key_of_grid.
Qed.

End RoundedKeys.

Lemma nth_seq_lt (start len i : nat) :
  (i < len)%nat -> nth i (seq start len) 0%nat = (start + i)%nat.
Proof. intros H. now apply seq_nth. Qed.

(** X12.  The grid of [initializeData] has 49 cells, the one of duration [d] and
    quality [q] at position [7 * (d - 4) + (q - 4)]; its count is the number
    of rows whose sleep duration rounds to [d] and whose quality of sleep
    rounds to [q]: no two pairs of rounded values share a key. *)
Theorem duration_quality_counts (ToString : R -> string)
    (csvData : list CorrelationMatrix.row) (d q : nat) :
  (forall a, In "e"%char (chars (ToString a))) ->
  (4 <= d <= 10)%nat -> (4 <= q <= 10)%nat ->
  let cells := SleepDurationQualityHeatmap.initializeData ToString csvData in
  let cell := nth (7 * (d - 4) + (q - 4)) cells no_entry in
  length cells = 49%nat
  /\ DurationQuality.duration cell = Fin (INR d)
  /\ DurationQuality.quality cell = Fin (INR q)
  /\ DurationQuality.count cell
     = length
         (filter (fun row =>
                    strict_eq
                      (Math_round (row CorrelationMatrix.SleepDuration))
                      (Fin (INR d))
                    && strict_eq
                         (Math_round (row CorrelationMatrix.QualityOfSleep))
                         (Fin (INR q)))
                 csvData).
Proof.
  intros He Hd Hq cells cell. split.
  - subst cells. unfold SleepDurationQualityHeatmap.initializeData.
    rewrite (length_flat_map_uniform _ _ 7)
      by (intros a; now rewrite length_map, length_seq).
    now rewrite length_seq.
  - subst cell cells. unfold SleepDurationQualityHeatmap.initializeData.
    rewrite (nth_flat_map_uniform _ _ 7 (d - 4) (q - 4) 0%nat no_entry);
      [| intros a; now rewrite length_map, length_seq
       | rewrite length_seq; lia | lia].
    rewrite (nth_map_lt _ _ _ 0%nat) by (rewrite length_seq; lia).
    rewrite !nth_seq_lt by lia.
    replace (4 + (d - 4))%nat with d by lia.
    replace (4 + (q - 4))%nat with q by lia.
    cbn [DurationQuality.duration DurationQuality.quality
         DurationQuality.count].
    repeat split.
    apply durationQualityMap_counts; try assumption; lia.
Qed.

Lemma duration_quality_counts_witness :
  let cells :=
    SleepDurationQualityHeatmap.initializeData (fun _ => "e"%string)
      [csv_row (Fin 7.4) (Fin 6.5); csv_row (Fin 6.6) (Fin 7);
       csv_row NaN (Fin 7)] in
  length cells = 49%nat
  /\ DurationQuality.duration (nth (7 * (7 - 4) + (7 - 4)) cells no_entry)
     = Fin (INR 7).
Proof.
  intros cells.
  pose proof (duration_quality_counts (fun _ => "e"%string)
                [csv_row (Fin 7.4) (Fin 6.5); csv_row (Fin 6.6) (Fin 7);
                 csv_row NaN (Fin 7)] 7 7) as H.
  destruct H as [H1 [H2 _]].
  - intros a. cbn. now left.
  - lia.
  - lia.
  - split; [exact H1 | exact H2].
Defined.

(** ** Rows that the grid counts *)

Lemma list_sum_map_add {C : Type} (g h : C -> nat) (cs : list C) :
  list_sum (map (fun c => (g c + h c)%nat) cs)
  = (list_sum (map g cs) + list_sum (map h cs))%nat.
Proof.
  induction cs as [| c cs IH]; cbn [map]; [reflexivity |].
  rewrite !list_sum_cons, IH. lia.
Qed.

Lemma list_sum_map_zero {C : Type} (cs : list C) :
  list_sum (map (fun _ : C => 0%nat) cs) = 0%nat.
Proof.
  induction cs as [| c cs IH]; cbn [map]; [reflexivity |].
  now rewrite list_sum_cons, IH.
Qed.

Lemma list_sum_map_if {C : Type} (t : bool) (q : C -> bool) (cs : list C) :
  list_sum (map (fun c => if t && q c then 1%nat else 0%nat) cs)
  = if t then length (filter q cs) else 0%nat.
Proof.
  induction cs as [| c cs IH]; cbn [map filter].
  - now destruct t.
  - rewrite list_sum_cons, IH. destruct t, (q c); cbn [andb length]; lia.
Qed.

Lemma list_sum_flat_map_add {B C : Type} (g h : B -> C -> nat)
    (bs : list B) (cs : list C) :
  list_sum (flat_map (fun b => map (fun c => (g b c + h b c)%nat) cs) bs)
  = (list_sum (flat_map (fun b => map (g b) cs) bs)
     + list_sum (flat_map (fun b => map (h b) cs) bs))%nat.
Proof.
  induction bs as [| b bs IH]; cbn [flat_map]; [reflexivity |].
  rewrite !list_sum_app, IH, list_sum_map_add. lia.
Qed.

Lemma list_sum_products {B C : Type} (p : B -> bool) (q : C -> bool)
    (bs : list B) (cs : list C) :
  list_sum (flat_map (fun b => map (fun c => if p b && q c then 1%nat else 0%nat)
                                   cs) bs)
  = (length (filter p bs) * length (filter q cs))%nat.
Proof.
  induction bs as [| b bs IH]; cbn [flat_map filter]; [reflexivity |].
  rewrite list_sum_app, IH, list_sum_map_if.
  destruct (p b); cbn [length]; lia.
Qed.

Lemma grid_total {A B C : Type} (p : B -> A -> bool) (q : C -> A -> bool)
    (rows : list A) (bs : list B) (cs : list C) :
  list_sum
    (flat_map (fun b =>
                 map (fun c => length (filter (fun a => p b a && q c a) rows))
                     cs)
              bs)
  = list_sum
      (map (fun a => (length (filter (fun b => p b a) bs)
                      * length (filter (fun c => q c a) cs))%nat)
           rows).
Proof.
  induction rows as [| a rows IH].
  - cbn [filter length map list_sum fold_right].
    induction bs as [| b bs IHb]; cbn [flat_map]; [reflexivity |].
    now rewrite list_sum_app, IHb, list_sum_map_zero.
  - cbn [map]. rewrite list_sum_cons, <- IH.
    rewrite <- (list_sum_products (fun b => p b a) (fun c => q c a) bs cs).
    rewrite <- list_sum_flat_map_add. f_equal.
    apply flat_map_ext. intros b. apply map_ext. intros c.
    cbn [filter]. destruct (p b a && q c a); cbn [length]; lia.
Qed.

Lemma strict_eq_integers (z : Z) (k : nat) :
  strict_eq (Fin (IZR z)) (Fin (INR k)) = Z.eqb z (Z.of_nat k).
Proof.
  apply eq_true_iff_eq. rewrite strict_eq_Fin, Z.eqb_eq, INR_IZR_INZ.
  split; [apply eq_IZR | now intros ->].
Qed.

Lemma one_of_the_grid (z : Z) :
  length (filter (fun k => Z.eqb z (Z.of_nat k)) (seq 4 7))
  = if ((4 <=? z) && (z <=? 10))%Z then 1%nat else 0%nat.
Proof.
  destruct ((4 <=? z) && (z <=? 10))%Z eqn:E.
  - apply andb_true_iff in E. destruct E as [E1 E2].
    apply Z.leb_le in E1, E2.
    assert (H : (z = 4 \/ z = 5 \/ z = 6 \/ z = 7 \/ z = 8 \/ z = 9
                \/ z = 10)%Z) by lia.
    decompose [or] H; subst z; reflexivity.
  - assert (H : (z < 4 \/ 10 < z)%Z).
    { apply andb_false_iff in E. destruct E as [E | E];
        apply Z.leb_gt in E; lia. }
    cbn [seq filter].
    rewrite !(proj2 (Z.eqb_neq _ _)) by lia. reflexivity.
Qed.

Lemma round_in_grid (v : number) :
  length (filter (fun k => strict_eq (Math_round v) (Fin (INR k))) (seq 4 7))
  = if ge v (Fin 3.5) && lt v (Fin 10.5) then 1%nat else 0%nat.
Proof.
  destruct v as [| | | a]; cbn [Math_round]; try reflexivity.
  rewrite (filter_ext _ (fun k => Z.eqb (Zfloor (a + / 2)) (Z.of_nat k)))
    by (intros k; apply strict_eq_integers).
  rewrite one_of_the_grid.
  pose proof (Zfloor_bound (a + / 2)) as [Hl Hu].
  set (z := Zfloor (a + / 2)) in *.
  destruct (ge (Fin a) (Fin 3.5) && lt (Fin a) (Fin 10.5)) eqn:E.
  - apply andb_true_iff in E. destruct E as [E1 E2].
    apply ge_Fin in E1. apply lt_Fin in E2.
    assert (H4 : (4 <= z)%Z) by (apply Zfloor_lub; lra).
    assert (H10 : (z <= 10)%Z).
    { apply Z.lt_succ_r. apply lt_IZR. simpl. lra. }
    apply Z.leb_le in H4, H10. now rewrite H4, H10.
  - destruct ((4 <=? z) && (z <=? 10))%Z eqn:Ez; [| reflexivity].
    exfalso. apply andb_true_iff in Ez. destruct Ez as [E1 E2].
    apply Z.leb_le in E1, E2. apply IZR_le in E1, E2.
    assert (H1 : ge (Fin a) (Fin 3.5) = true) by (apply ge_Fin; lra).
    assert (H2 : lt (Fin a) (Fin 10.5) = true) by (apply lt_Fin; lra).
    rewrite H1, H2 in E. discriminate.
Qed.

Lemma list_sum_indicators {A : Type} (p q : A -> bool) (l : list A) :
  list_sum (map (fun a => ((if p a then 1 else 0) * (if q a then 1 else 0))%nat)
                l)
  = length (filter (fun a => p a && q a) l).
Proof.
  induction l as [| a l IH]; cbn [map filter]; [reflexivity |].
  rewrite list_sum_cons, IH. destruct (p a), (q a); cbn [andb length]; lia.
Qed.

(** X13.  The counts of the grid add up to the number of rows whose sleep
    duration and quality of sleep both lie in the interval from 3.5 up to,
    but not including, 10.5; every other row, one with a missing value
    included, is in no cell. *)
Theorem duration_quality_total (ToString : R -> string)
    (csvData : list CorrelationMatrix.row) :
  (forall a, In "e"%char (chars (ToString a))) ->
  list_sum (map DurationQuality.count
                (SleepDurationQualityHeatmap.initializeData ToString csvData))
  = length
      (filter (fun row =>
                 (ge (row CorrelationMatrix.SleepDuration) (Fin 3.5)
                  && lt (row CorrelationMatrix.SleepDuration) (Fin 10.5))
                 && (ge (row CorrelationMatrix.QualityOfSleep) (Fin 3.5)
                     && lt (row CorrelationMatrix.QualityOfSleep) (Fin 10.5)))
              csvData).
Proof.
  intros He.
  rewrite <- list_sum_indicators.
  rewrite (map_ext _ _
             (fun row =>
                eq_sym
                  (f_equal2 Nat.mul
                     (round_in_grid (row CorrelationMatrix.SleepDuration))
                     (round_in_grid (row CorrelationMatrix.QualityOfSleep))))).
  rewrite <- (grid_total
                (fun d row =>
                   strict_eq
                     (Math_round (row CorrelationMatrix.SleepDuration))
                     (Fin (INR d)))
                (fun q row =>
                   strict_eq
                     (Math_round (row CorrelationMatrix.QualityOfSleep))
                     (Fin (INR q)))).
  unfold SleepDurationQualityHeatmap.initializeData.
  rewrite !flat_map_concat_map, concat_map, map_map.
  do 2 f_equal. apply map_ext_in. intros d Hd.
  rewrite map_map. apply map_ext_in. intros q Hq.
  cbn [DurationQuality.count]. apply in_seq in Hd, Hq.
  apply durationQualityMap_counts; [assumption | lia | lia].
Qed.

Lemma duration_quality_total_witness :
  list_sum
    (map DurationQuality.count
         (SleepDurationQualityHeatmap.initializeData (fun _ => "e"%string)
            [csv_row (Fin 7.4) (Fin 6.5); csv_row (Fin 6.6) (Fin 7);
             csv_row NaN (Fin 7); csv_row (Fin 10.5) (Fin 7)]))
  = 2%nat.
Proof.
  rewrite (duration_quality_total (fun _ => "e"%string))
    by (intros a; cbn; now left).
  cbn [filter csv_row].
  rewrite !(proj2 (ge_Fin _ _)) by lra.
  rewrite !lt_Fin_true by lra.
  rewrite (lt_Fin_false 10.5 10.5) by lra.
  reflexivity.
Defined.

(** ** The selection of categories *)

Lemma step_keeps_selection (app : App.t) (e : App.event) :
  let ok app :=
    (length (App.selectedCategories app) <= 2)%nat
    /\ NoDup (App.selectedCategories app)
    /\ ~ In EmptyString (App.selectedCategories app)
    /\ (App.category1 app = EmptyString /\ App.category2 app = EmptyString
        \/ App.category1 app <> App.category2 app)
    /\ (forall a b, App.selectedCategories app = [a; b] ->
                    App.category1 app = a /\ App.category2 app = b
                    \/ App.category1 app = "Sleep Duration"%string
                       /\ App.category2 app = "Quality of Sleep"%string) in
  ok app -> ok (App.step app e).
Proof.
  intros ok (Hlen & Hnd & Hne & Hcat & Hsel). subst ok. cbv beta.
  destruct app as [sel c1 c2]. cbn [App.selectedCategories App.category1
                                    App.category2] in *.
  destruct e as [[category |] |]; cbn [App.step App.click];
    [| repeat split; assumption |].
  - destruct (String.eqb category EmptyString) eqn:Eempty;
      [repeat split; assumption |].
    apply String.eqb_neq in Eempty.
    cbn [App.selectedCategories App.category1 App.category2].
    destruct sel as [| a [| b sel]]; cbn [length Nat.eqb app nth].
    + cbn [App.selectedCategories App.category1 App.category2 app length].
      repeat split; try assumption.
      * lia.
      * constructor; [intros [] | constructor].
      * intros [E | []]. now apply Eempty.
      * intros x y [=].
    + destruct (String.eqb a category) eqn:Esame;
        [repeat split; assumption |].
      apply String.eqb_neq in Esame.
      cbn [App.updateCategories App.selectedCategories App.category1
           App.category2 app length nth].
      repeat split.
      * lia.
      * constructor; [intros [E | []]; now apply Esame |].
        constructor; [intros [] | constructor].
      * intros [E | [E | []]]; [apply Hne; now left | now apply Eempty].
      * now right.
      * intros x y [= -> ->]. now left.
    + cbn [App.selectedCategories App.category1 App.category2 app length].
      repeat split; try assumption.
      * lia.
      * constructor; [intros [] | constructor].
      * intros [E | []]. now apply Eempty.
      * intros x y [=].
  - cbn [App.updateCategories App.selectedCategories App.category1
         App.category2].
    repeat split; try assumption.
    + right. discriminate.
    + intros a b _. now right.
Qed.

(** X14.  Whatever the buttons clicked, and whenever [initializeApp] makes its
    call in between, the selection holds at most two categories, none of
    them empty and none twice; the heat map is never set to a category
    against itself; and while two categories are selected the heat map
    shows that pair or the pair [Sleep Duration], [Quality of Sleep] of
    [initializeApp]. *)
Theorem selection_invariant (events : list App.event) :
  let app := App.run events in
  (length (App.selectedCategories app) <= 2)%nat
  /\ NoDup (App.selectedCategories app)
  /\ ~ In EmptyString (App.selectedCategories app)
  /\ (App.category1 app = EmptyString /\ App.category2 app = EmptyString
      \/ App.category1 app <> App.category2 app)
  /\ (forall a b, App.selectedCategories app = [a; b] ->
                  App.category1 app = a /\ App.category2 app = b
                  \/ App.category1 app = "Sleep Duration"%string
                     /\ App.category2 app = "Quality of Sleep"%string).
Proof.
  unfold App.run. induction events as [| e events IH] using rev_ind.
  - cbn. repeat split.
    + lia.
    + constructor.
    + intros [].
    + now left.
    + intros a b [=].
  - rewrite fold_left_app. cbn [fold_left].
    apply (step_keeps_selection _ e). exact IH.
Qed.

(** A third click starts a new selection and leaves the heat map on the
    pair it showed: it calls [render], not [updateCategories]. *)
Lemma third_click_keeps_the_heat_map :
  let app :=
    App.run [App.Click (Some "Age"%string);
             App.Click (Some "Heart Rate"%string);
             App.Click (Some "Daily Steps"%string)] in
  App.selectedCategories app = ["Daily Steps"%string]
  /\ App.category1 app = "Age"%string
  /\ App.category2 app = "Heart Rate"%string.
Proof. cbn. repeat split. Qed.

(** * The code over doubles *)

(** ** Pairing *)

Lemma Double_at_app_length (pre : list Double.number) (b : Double.number)
    (y : list Double.number) :
  Double.at_ (pre ++ b :: y) (length pre) = b.
Proof.
  unfold Double.at_. rewrite app_nth2 by lia. now rewrite Nat.sub_diag.
Qed.

Lemma Double_mapi_pairs_from (x y pre : list Double.number) :
  let n := Nat.min (length x) (length y) in
  map (fun p => Double.Pair.mk (snd p) (Double.at_ (pre ++ y) (fst p)))
      (combine (seq (length pre) (length (firstn n x))) (firstn n x))
  = map (fun p => Double.Pair.mk (fst p) (snd p)) (combine x y).
Proof.
  revert y pre.
  induction x as [| a x IH]; intros [| b y] pre; cbn; try reflexivity.
  rewrite Double_at_app_length. f_equal.
  specialize (IH y (pre ++ [b])). cbn zeta in IH.
  rewrite <- app_assoc, length_app in IH. cbn [app length] in IH.
  rewrite Nat.add_1_r in IH. exact IH.
Qed.

(** [pairedData] holds the paired samples, in their order. *)
Lemma Double_pairedData_pairs (x y : list Double.number) :
  Double.CorrelationMatrix.pairedData x y
  = map (fun p => Double.Pair.mk (fst p) (snd p)) (Double.pairs x y).
Proof.
  unfold Double.CorrelationMatrix.pairedData, Double.pairs, mapi. cbn zeta.
  rewrite <- (filter_map_comm
                (fun p : Double.number * Double.number =>
                   Double.Pair.mk (fst p) (snd p))
                (fun d => negb (Double.isNaN (Double.Pair.x d))
                          && negb (Double.isNaN (Double.Pair.y d)))).
  f_equal. exact (Double_mapi_pairs_from x y []).
Qed.

Lemma Double_loadData_pairs (rows : list Double.ScatterData.t) :
  map (fun d => (Double.ScatterData.x d, Double.ScatterData.y d))
      (Double.ScatterPlot.loadData rows)
  = Double.pairs (map Double.ScatterData.x rows)
                 (map Double.ScatterData.y rows).
Proof.
  unfold Double.ScatterPlot.loadData, Double.pairs.
  induction rows as [| d rows IH]; cbn [map combine filter fst snd];
    [reflexivity |].
  destruct (negb (Double.isNaN (Double.ScatterData.x d))
            && negb (Double.isNaN (Double.ScatterData.y d)));
    cbn [map]; now rewrite IH.
Qed.

(** The body that the two [calculateCorrelation] methods over paired
    samples share, on the list of the pairs. *)
Lemma Double_correlation_of_pairs (x y : list Double.number) :
  let ps := Double.pairs x y in
  Double.CorrelationMatrix.calculateCorrelation x y
  = if (length ps <? 2)%nat then 0%float
    else if Double.strict_eq (Double.denominator (map fst ps)) 0%float
            || Double.strict_eq (Double.denominator (map snd ps)) 0%float
         then 0%float
         else (Double.d3_sum
                 (map (fun p =>
                         ((fst p - Double.or0 (Double.d3_mean (map fst ps)))
                          * (snd p - Double.or0 (Double.d3_mean (map snd ps))))
                        %float) ps)
               / (Double.denominator (map fst ps)
                  * Double.denominator (map snd ps)))%float.
Proof.
  intros ps. unfold Double.CorrelationMatrix.calculateCorrelation.
  rewrite Double_pairedData_pairs. fold ps.
  rewrite length_map, !map_map. cbn [Double.Pair.x Double.Pair.y].
  unfold Double.denominator. rewrite !map_map. reflexivity.
Qed.

Lemma Double_scatter_correlation_of_pairs (rows : list Double.ScatterData.t) :
  let ps := Double.pairs (map Double.ScatterData.x rows)
                         (map Double.ScatterData.y rows) in
  Double.ScatterPlot.calculateCorrelation (Double.ScatterPlot.loadData rows)
  = if (length ps <? 2)%nat then 0%float
    else if Double.strict_eq (Double.denominator (map fst ps)) 0%float
            || Double.strict_eq (Double.denominator (map snd ps)) 0%float
         then 0%float
         else (Double.d3_sum
                 (map (fun p =>
                         ((fst p - Double.or0 (Double.d3_mean (map fst ps)))
                          * (snd p - Double.or0 (Double.d3_mean (map snd ps))))
                        %float) ps)
               / (Double.denominator (map fst ps)
                  * Double.denominator (map snd ps)))%float.
Proof.
  intros ps. subst ps. rewrite <- Double_loadData_pairs.
  set (data := Double.ScatterPlot.loadData rows).
  unfold Double.ScatterPlot.calculateCorrelation.
  rewrite length_map. unfold Double.denominator. rewrite !map_map.
  cbn [fst snd]. reflexivity.
Qed.

(** C1 (as amended).  Over doubles.  The paired samples of [x] and [y] are
    the pairs [(x[i], y[i])], [i] an index of both arrays, that hold no
    [NaN]; for the scatter plot they are the rows that [loadData] keeps.
    Both [calculateCorrelation] methods return 0 when fewer than two paired
    samples remain, and when the denominator of either variable, the
    square root of its sum of squared deviations from the mean, is exactly
    0; in every other case they return the sum of the products of the
    deviations divided by the product of the two denominators. *)
Theorem C1_correlation_fallback :
  (forall x y : list Double.number,
      let ps := Double.pairs x y in
      let dx := Double.denominator (map fst ps) in
      let dy := Double.denominator (map snd ps) in
      ((length ps < 2)%nat ->
       Double.CorrelationMatrix.calculateCorrelation x y = 0%float)
      /\ (Double.strict_eq dx 0%float = true
          \/ Double.strict_eq dy 0%float = true ->
          Double.CorrelationMatrix.calculateCorrelation x y = 0%float)
      /\ ((2 <= length ps)%nat ->
          Double.strict_eq dx 0%float = false ->
          Double.strict_eq dy 0%float = false ->
          Double.CorrelationMatrix.calculateCorrelation x y
          = (Double.d3_sum
               (map (fun p =>
                       ((fst p - Double.or0 (Double.d3_mean (map fst ps)))
                        * (snd p - Double.or0 (Double.d3_mean (map snd ps))))
                      %float) ps)
             / (dx * dy))%float))
  /\ (forall rows : list Double.ScatterData.t,
         let ps := Double.pairs (map Double.ScatterData.x rows)
                                (map Double.ScatterData.y rows) in
         let dx := Double.denominator (map fst ps) in
         let dy := Double.denominator (map snd ps) in
         ((length ps < 2)%nat ->
          Double.ScatterPlot.calculateCorrelation
            (Double.ScatterPlot.loadData rows) = 0%float)
         /\ (Double.strict_eq dx 0%float = true
             \/ Double.strict_eq dy 0%float = true ->
             Double.ScatterPlot.calculateCorrelation
               (Double.ScatterPlot.loadData rows) = 0%float)
         /\ ((2 <= length ps)%nat ->
             Double.strict_eq dx 0%float = false ->
             Double.strict_eq dy 0%float = false ->
             Double.ScatterPlot.calculateCorrelation
               (Double.ScatterPlot.loadData rows)
             = (Double.d3_sum
                  (map (fun p =>
                          ((fst p - Double.or0 (Double.d3_mean (map fst ps)))
                           * (snd p
                              - Double.or0 (Double.d3_mean (map snd ps))))
                         %float) ps)
                / (dx * dy))%float)).
Proof.
  split.
  - intros x y ps dx dy. rewrite Double_correlation_of_pairs.
    fold ps. fold dx. fold dy. split; [| split].
    + intros H. apply Nat.ltb_lt in H. now rewrite H.
    + intros H. destruct (length ps <? 2)%nat; [reflexivity |].
      destruct H as [H | H]; rewrite H; [reflexivity |].
      now rewrite orb_true_r.
    + intros H Hx Hy. apply Nat.ltb_ge in H. now rewrite H, Hx, Hy.
  - intros rows ps dx dy. rewrite Double_scatter_correlation_of_pairs.
    fold ps. fold dx. fold dy. split; [| split].
    + intros H. apply Nat.ltb_lt in H. now rewrite H.
    + intros H. destruct (length ps <? 2)%nat; [reflexivity |].
      destruct H as [H | H]; rewrite H; [reflexivity |].
      now rewrite orb_true_r.
    + intros H Hx Hy. apply Nat.ltb_ge in H. now rewrite H, Hx, Hy.
Qed.

(** One pair is left of [[1, NaN, 3]] and [[1, 2, NaN]]; the column
    [[3, 3, 3]] has the denominator 0. *)
Lemma C1_correlation_fallback_witness :
  Double.CorrelationMatrix.calculateCorrelation [1; nan; 3]%float
                                                [1; 2; nan]%float
  = 0%float
  /\ Double.ScatterPlot.calculateCorrelation
       (Double.ScatterPlot.loadData
          [Double.point 3 1; Double.point 3 2; Double.point 3 4]%float)
     = 0%float.
Proof.
  split.
  - apply (proj1 (proj1 C1_correlation_fallback [1; nan; 3]%float
                        [1; 2; nan]%float)).
    vm_compute. lia.
  - apply (proj1 (proj2 (proj2 C1_correlation_fallback
                               [Double.point 3 1; Double.point 3 2;
                                Double.point 3 4]%float))).
    left. vm_compute. reflexivity.
Defined.

(** The code returns [NaN] when a column holds an infinite value, and when
    the squares of the deviations overflow. *)
Lemma C1_counterexample :
  Double.isNaN
    (Double.CorrelationMatrix.calculateCorrelation [infinity; 1; 2]%float
                                                   [1; 2; 3]%float)
  = true
  /\ Double.isNaN
       (Double.CorrelationMatrix.calculateCorrelation [1e200; -1e200]%float
                                                      [1e200; -1e200]%float)
     = true
  /\ Double.isNaN
       (Double.ScatterPlot.calculateCorrelation
          (Double.ScatterPlot.loadData
             [Double.point infinity 1; Double.point 1 2; Double.point 2 3]
             %float))
     = true.
Proof. vm_compute. repeat split. Qed.

(** ** The diagonal of the matrix *)

Lemma Double_pairs_self (xs : list Double.number) :
  Double.pairs xs xs
  = map (fun v => (v, v)) (filter (fun v => negb (Double.isNaN v)) xs).
Proof.
  unfold Double.pairs.
  induction xs as [| v xs IH]; cbn [combine filter map fst snd];
    [reflexivity |].
  rewrite andb_diag.
  destruct (negb (Double.isNaN v)); cbn [map]; now rewrite IH.
Qed.

Lemma Double_filter_numbers_twice (xs : list Double.number) :
  filter (fun v => negb (Double.isNaN v))
         (filter (fun v => negb (Double.isNaN v)) xs)
  = filter (fun v => negb (Double.isNaN v)) xs.
Proof.
  induction xs as [| v xs IH]; cbn [filter]; [reflexivity |].
  destruct (negb (Double.isNaN v)) eqn:E; cbn [filter]; [| exact IH].
  now rewrite E, IH.
Qed.

Lemma Double_self_correlation (xs : list Double.number) :
  let vs := filter (fun v => negb (Double.isNaN v)) xs in
  let m := Double.or0 (Double.d3_mean vs) in
  let ss := Double.d3_sum (map (fun v => ((v - m) * (v - m))%float) vs) in
  Double.CorrelationMatrix.calculateCorrelation xs xs
  = if (length vs <? 2)%nat then 0%float
    else if Double.strict_eq (Double.Math_sqrt ss) 0%float then 0%float
         else (ss / (Double.Math_sqrt ss * Double.Math_sqrt ss))%float.
Proof.
  intros vs m ss. rewrite Double_correlation_of_pairs, Double_pairs_self.
  fold vs. rewrite length_map, !map_map. cbn [fst snd]. rewrite map_id.
  unfold Double.denominator, Double.Math_pow2. fold m. fold ss.
  rewrite orb_diag. reflexivity.
Qed.

Lemma Double_matrix_entry (csvData : list Double.CorrelationMatrix.row)
    (i j : nat) :
  (i < 6)%nat -> (j < 6)%nat ->
  nth j (nth i (Double.CorrelationMatrix.correlationMatrix csvData) []) nan
  = Double.CorrelationMatrix.calculateCorrelation
      (Double.CorrelationMatrix.numericData csvData
         (nth i CorrelationMatrix.variables CorrelationMatrix.SleepDuration))
      (Double.CorrelationMatrix.numericData csvData
         (nth j CorrelationMatrix.variables CorrelationMatrix.SleepDuration)).
Proof.
  intros Hi Hj. unfold Double.CorrelationMatrix.correlationMatrix.
  rewrite (nth_map_lt _ _ i CorrelationMatrix.SleepDuration) by assumption.
  rewrite (nth_map_lt _ _ j CorrelationMatrix.SleepDuration) by assumption.
  reflexivity.
Qed.

(** C6.  A diagonal entry of the matrix is the correlation of a column
    with itself.  Over doubles, with [vs] the numbers of the column and
    [ss] the sum of their squared deviations from the mean as the code
    computes it, the entry is 0 when [vs] has fewer than two values or
    [sqrt ss] is exactly 0, and [ss / (sqrt ss * sqrt ss)] otherwise.  Over
    exact arithmetic, for finite values, that is 1 when two values of the
    column differ and 0 when they are all equal. *)
Theorem C6_diagonal :
  (forall (csvData : list Double.CorrelationMatrix.row) (i : nat),
      (i < 6)%nat ->
      let vs :=
        Double.CorrelationMatrix.numericData csvData
          (nth i CorrelationMatrix.variables CorrelationMatrix.SleepDuration) in
      let m := Double.or0 (Double.d3_mean vs) in
      let ss := Double.d3_sum (map (fun v => ((v - m) * (v - m))%float) vs) in
      nth i (nth i (Double.CorrelationMatrix.correlationMatrix csvData) []) nan
      = if (length vs <? 2)%nat then 0%float
        else if Double.strict_eq (Double.Math_sqrt ss) 0%float then 0%float
             else (ss / (Double.Math_sqrt ss * Double.Math_sqrt ss))%float)
  /\ (forall xs : list Double.number,
         let vs := filter (fun v => negb (Double.isNaN v)) xs in
         let m := Double.or0 (Double.d3_mean vs) in
         let ss :=
           Double.d3_sum (map (fun v => ((v - m) * (v - m))%float) vs) in
         Double.CorrelationMatrix.calculateCorrelation xs xs
         = if (length vs <? 2)%nat then 0%float
           else if Double.strict_eq (Double.Math_sqrt ss) 0%float then 0%float
                else (ss / (Double.Math_sqrt ss * Double.Math_sqrt ss))%float)
  /\ (forall xs : list number,
         Forall not_inf xs ->
         ((exists a b, In a (filter is_number xs) /\ In b (filter is_number xs)
                       /\ a <> b) ->
          CorrelationMatrix.calculateCorrelation xs xs = Fin 1)
         /\ ((forall a b, In a (filter is_number xs) ->
                          In b (filter is_number xs) -> a = b) ->
             CorrelationMatrix.calculateCorrelation xs xs = Fin 0)).
Proof.
  split; [| split].
  - intros csvData i Hi vs m ss.
    rewrite (Double_matrix_entry csvData i i Hi Hi). fold vs.
    rewrite Double_self_correlation.
    assert (E : filter (fun v => negb (Double.isNaN v)) vs = vs)
      by apply Double_filter_numbers_twice.
    rewrite E. reflexivity.
  - intros xs. apply Double_self_correlation.
  - intros xs H. split.
    + intros [a [b [Ha [Hb Hab]]]].
      now apply (self_correlation_distinct xs a b).
    + intros Hc. now apply self_correlation_constant.
Qed.

(** The column [[1, 2]]: [ss] is 0.5 and the entry is
    [0.5 / (sqrt 0.5 * sqrt 0.5)]. *)
Lemma C6_diagonal_witness :
  Double.CorrelationMatrix.calculateCorrelation [1; nan; 2]%float
                                                [1; nan; 2]%float
  = (0.5 / (PrimFloat.sqrt 0.5 * PrimFloat.sqrt 0.5))%float.
Proof.
  rewrite (proj1 (proj2 C6_diagonal) [1; nan; 2]%float).
  vm_compute. reflexivity.
Defined.

(** In the code the self-correlation of [[1, 2]] is
    [0.9999999999999998], the one of the constant column
    [[0.1, 0.1, 0.1]] is [1.0000000000000002], and the one of
    [[Infinity, 1]] is [NaN]. *)
Lemma C6_counterexample :
  Double.CorrelationMatrix.calculateCorrelation [1; 2]%float [1; 2]%float
  = 0x1.ffffffffffffep-1%float
  /\ Double.strict_eq
       (Double.CorrelationMatrix.calculateCorrelation [1; 2]%float
                                                      [1; 2]%float)
       1%float
     = false
  /\ Double.CorrelationMatrix.calculateCorrelation
       [0.1; 0.1; 0.1]%float [0.1; 0.1; 0.1]%float
     = 0x1.0000000000001p+0%float
  /\ Double.isNaN
       (Double.CorrelationMatrix.calculateCorrelation [infinity; 1]%float
                                                      [infinity; 1]%float)
     = true.
Proof. vm_compute. repeat split. Qed.

(** ** A line far from the origin *)


(** ** Comparison of doubles *)

Lemma SFcompare_rank (x y : spec_float) :
  x <> S754_nan -> y <> S754_nan ->
  SFcompare x y = Some (rank_compare (rank x) (rank y)).
Proof.
  intros Hx Hy.
  destruct x as [sx | sx | | sx mx ex]; try contradiction;
    destruct y as [sy | sy | | sy my ey]; try contradiction;
    cbn [SFcompare rank rank_compare];
    try (destruct sx; reflexivity);
    try (destruct sy; reflexivity);
    try (destruct sx, sy; reflexivity).
  destruct sx, sy; cbn [rank_compare]; try reflexivity.
  - change (-1 ?= -1)%Z with Eq. cbv iota.
    destruct (Z.compare_spec ex ey) as [E | L | G].
    + subst ey. rewrite Z.compare_refl. reflexivity.
    + assert (H : (- ex ?= - ey)%Z = Gt) by (apply Z.compare_gt_iff; lia).
      now rewrite H.
    + assert (H : (- ex ?= - ey)%Z = Lt) by (apply Z.compare_lt_iff; lia).
      now rewrite H.
Qed.

Ltac rank_cases :=
  repeat match goal with
         | a : (Z * Z * Z)%type |- _ => destruct a as [[? ?] ?]
         end;
  cbn [rank_compare] in *;
  repeat match goal with
         | |- context [(?x ?= ?y)%Z] => destruct (Z.compare_spec x y)
         | H : context [(?x ?= ?y)%Z] |- _ => destruct (Z.compare_spec x y)
         end;
  subst; try reflexivity; try discriminate; try congruence;
  try (exfalso; lia).

Lemma rank_compare_refl (a : Z * Z * Z) : rank_compare a a = Eq.
Proof. rank_cases. Qed.

Lemma rank_compare_antisym (a b : Z * Z * Z) :
  rank_compare b a = CompOpp (rank_compare a b).
Proof. rank_cases. Qed.

Lemma rank_lt_le_trans (a b c : Z * Z * Z) :
  rank_compare a b = Lt -> rank_compare b c <> Gt -> rank_compare a c = Lt.
Proof. intros H1 H2. rank_cases. Qed.

Lemma rank_le_lt_trans (a b c : Z * Z * Z) :
  rank_compare a b <> Gt -> rank_compare b c = Lt -> rank_compare a c = Lt.
Proof. intros H1 H2. rank_cases. Qed.

Lemma Double_isNaN_spec (x : Double.number) :
  Double.isNaN x = false <-> Prim2SF x <> S754_nan.
Proof.
  unfold Double.isNaN, is_nan. rewrite FloatAxioms.eqb_spec. unfold SFeqb.
  split.
  - intros H E. rewrite E in H. discriminate.
  - intros H. rewrite SFcompare_rank, rank_compare_refl by assumption.
    reflexivity.
Qed.

Lemma Double_ge_refl (v : Double.number) :
  Double.isNaN v = false -> Double.ge v v = true.
Proof.
  intros H. apply Double_isNaN_spec in H.
  unfold Double.ge. rewrite leb_spec. unfold SFleb.
  now rewrite SFcompare_rank, rank_compare_refl.
Qed.

Lemma Double_lt_numbers (a b : Double.number) :
  Double.lt a b = true -> Double.isNaN a = false /\ Double.isNaN b = false.
Proof.
  unfold Double.lt. rewrite ltb_spec. unfold SFltb. intros H.
  split; apply Double_isNaN_spec; intros E; rewrite E in H;
    [| destruct (Prim2SF a)]; discriminate.
Qed.

(** [a < b] and [b <= c] give [a <= c]; so do [a <= b] and [b < c]. *)
Lemma Double_lt_le_trans (a b c : Double.number) :
  Double.lt a b = true -> Double.ge c b = true -> Double.ge c a = true.
Proof.
  intros Hab Hbc. destruct (Double_lt_numbers a b Hab) as [Na Nb].
  assert (Nc : Prim2SF c <> S754_nan).
  { intros E. unfold Double.ge in Hbc. rewrite leb_spec, E in Hbc.
    unfold SFleb in Hbc. destruct (Prim2SF b); discriminate. }
  apply Double_isNaN_spec in Na, Nb.
  unfold Double.lt, Double.ge in *. rewrite ltb_spec in Hab.
  rewrite leb_spec in *. unfold SFltb, SFleb in *.
  rewrite SFcompare_rank in * by assumption.
  rewrite (rank_lt_le_trans (rank (Prim2SF a)) (rank (Prim2SF b))
                            (rank (Prim2SF c))).
  - reflexivity.
  - destruct (rank_compare (rank (Prim2SF a)) (rank (Prim2SF b)));
      [discriminate | reflexivity | discriminate].
  - intros E. rewrite E in Hbc. discriminate.
Qed.

Lemma Double_le_lt_trans (a b c : Double.number) :
  Double.ge b a = true -> Double.lt b c = true -> Double.ge c a = true.
Proof.
  intros Hab Hbc. destruct (Double_lt_numbers b c Hbc) as [Nb Nc].
  assert (Na : Prim2SF a <> S754_nan).
  { intros E. unfold Double.ge in Hab. rewrite leb_spec, E in Hab.
    discriminate. }
  apply Double_isNaN_spec in Nb, Nc.
  unfold Double.lt, Double.ge in *. rewrite ltb_spec in Hbc.
  rewrite leb_spec in *. unfold SFltb, SFleb in *.
  rewrite SFcompare_rank in * by assumption.
  rewrite (rank_le_lt_trans (rank (Prim2SF a)) (rank (Prim2SF b))
                            (rank (Prim2SF c))).
  - reflexivity.
  - intros E. rewrite E in Hab. discriminate.
  - destruct (rank_compare (rank (Prim2SF b)) (rank (Prim2SF c)));
      [discriminate | reflexivity | discriminate].
Qed.

(** Two numbers are comparable: when [a < b] fails, [a >= b] holds. *)
Lemma Double_not_lt_ge (a b : Double.number) :
  Double.isNaN a = false -> Double.isNaN b = false ->
  Double.lt a b = false -> Double.ge a b = true.
Proof.
  intros Na Nb H. apply Double_isNaN_spec in Na, Nb.
  unfold Double.lt, Double.ge in *. rewrite ltb_spec in H.
  rewrite leb_spec. unfold SFltb, SFleb in *.
  rewrite SFcompare_rank in * by assumption.
  rewrite rank_compare_antisym.
  destruct (rank_compare (rank (Prim2SF a)) (rank (Prim2SF b)));
    [reflexivity | discriminate | reflexivity].
Qed.

(** ** The extent of an array of doubles *)

Lemma Double_extent_from (vs seen : list Double.number)
    (mn mx : Double.number) :
  (forall v, In v vs -> Double.isNaN v = false) ->
  Double.isNaN mn = false -> Double.isNaN mx = false ->
  In mn seen -> In mx seen ->
  (forall u, In u seen -> Double.ge u mn = true /\ Double.ge mx u = true) ->
  exists lo hi,
    fold_left
      (fun st v =>
         match st with
         | None => if Double.ge v v then Some (v, v) else None
         | Some (mn, mx) =>
             Some (if Double.gt mn v then v else mn,
                   if Double.lt mx v then v else mx)
         end)
      vs (Some (mn, mx))
    = Some (lo, hi)
    /\ In lo (seen ++ vs) /\ In hi (seen ++ vs)
    /\ forall u, In u (seen ++ vs) ->
                 Double.ge u lo = true /\ Double.ge hi u = true.
Proof.
  revert seen mn mx.
  induction vs as [| v vs IH]; intros seen mn mx Hvs Nmn Nmx Imn Imx Hall.
  - exists mn, mx. rewrite app_nil_r. cbn [fold_left]. auto.
  - cbn [fold_left].
    assert (Nv : Double.isNaN v = false) by (apply Hvs; now left).
    replace (seen ++ v :: vs) with ((seen ++ [v]) ++ vs)
      by (now rewrite <- app_assoc).
    apply IH.
    + intros u Hu. apply Hvs. now right.
    + destruct (Double.gt mn v); assumption.
    + destruct (Double.lt mx v); assumption.
    + apply in_or_app. destruct (Double.gt mn v); [right; now left | now left].
    + apply in_or_app. destruct (Double.lt mx v); [right; now left | now left].
    + intros u Hu. apply in_app_or in Hu. unfold Double.gt.
      destruct Hu as [Hu | [<- | []]].
      * destruct (Hall u Hu) as [H1 H2]. split.
        -- destruct (PrimFloat.ltb v mn) eqn:E; [| assumption].
           now apply (Double_lt_le_trans v mn u).
        -- destruct (Double.lt mx v) eqn:E; [| assumption].
           now apply (Double_le_lt_trans u mx v).
      * split.
        -- destruct (PrimFloat.ltb v mn) eqn:E.
           ++ now apply Double_ge_refl.
           ++ now apply Double_not_lt_ge.
        -- destruct (Double.lt mx v) eqn:E.
           ++ now apply Double_ge_refl.
           ++ now apply Double_not_lt_ge.
Qed.

(** [d3.extent] of an array of numbers returns a least and a greatest
    element of it. *)
Lemma Double_extent_least_greatest (values : list Double.number) :
  values <> [] -> (forall v, In v values -> Double.isNaN v = false) ->
  exists lo hi,
    Double.d3_extent values = Some (lo, hi)
    /\ In lo values /\ In hi values
    /\ forall u, In u values -> Double.ge u lo = true /\ Double.ge hi u = true.
Proof.
  destruct values as [| v vs]; [contradiction |]. intros _ H.
  assert (Nv : Double.isNaN v = false) by (apply H; now left).
  unfold Double.d3_extent. cbn [fold_left].
  rewrite (Double_ge_refl v Nv).
  apply (Double_extent_from vs [v] v v); auto.
  - intros u Hu. apply H. now right.
  - now left.
  - now left.
  - intros u [<- | []]. split; now apply Double_ge_refl.
Qed.

Lemma Double_ge_self_number (v : Double.number) :
  Double.ge v v = true -> Double.isNaN v = false.
Proof.
  intros H. apply Double_isNaN_spec. intros E.
  unfold Double.ge in H. rewrite leb_spec, E in H. discriminate.
Qed.

Lemma Double_extent_skips_NaN (vs : list Double.number)
    (st : option (Double.number * Double.number)) :
  fold_left
    (fun st v =>
       match st with
       | None => if Double.ge v v then Some (v, v) else None
       | Some (mn, mx) =>
           Some (if Double.gt mn v then v else mn,
                 if Double.lt mx v then v else mx)
       end)
    vs st
  = fold_left
      (fun st v =>
         match st with
         | None => if Double.ge v v then Some (v, v) else None
         | Some (mn, mx) =>
             Some (if Double.gt mn v then v else mn,
                   if Double.lt mx v then v else mx)
         end)
      (filter (fun v => negb (Double.isNaN v)) vs) st.
Proof.
  revert st. induction vs as [| v vs IH]; intros st; [reflexivity |].
  cbn [fold_left filter].
  destruct (Double.isNaN v) eqn:N; cbn [negb fold_left]; [| apply IH].
  rewrite <- IH. f_equal.
  destruct st as [[mn mx] |].
  - unfold Double.gt.
    destruct (PrimFloat.ltb v mn) eqn:E1.
    { destruct (Double_lt_numbers v mn E1). congruence. }
    destruct (Double.lt mx v) eqn:E2; [| reflexivity].
    destruct (Double_lt_numbers mx v E2). congruence.
  - destruct (Double.ge v v) eqn:E; [| reflexivity].
    apply Double_ge_self_number in E. congruence.
Qed.

(** [d3.extent] returns a least and a greatest of the numbers of the
    array, whatever [NaN] it holds beside them. *)
Lemma Double_extent_of_numbers (values : list Double.number) :
  (exists v, In v values /\ Double.isNaN v = false) ->
  exists lo hi,
    Double.d3_extent values = Some (lo, hi)
    /\ (In lo values /\ Double.isNaN lo = false)
    /\ (In hi values /\ Double.isNaN hi = false)
    /\ forall u, In u values -> Double.isNaN u = false ->
                 Double.ge u lo = true /\ Double.ge hi u = true.
Proof.
  intros [v0 [I0 N0]].
  set (ns := filter (fun v => negb (Double.isNaN v)) values).
  assert (Hin : forall u, In u ns <-> In u values /\ Double.isNaN u = false).
  { intros u. unfold ns. rewrite filter_In, negb_true_iff. tauto. }
  destruct (Double_extent_least_greatest ns) as [lo [hi [E [Ilo [Ihi Hall]]]]].
  - intros E. assert (H : In v0 ns) by (apply Hin; auto).
    rewrite E in H. destruct H.
  - intros u Hu. now apply Hin.
  - exists lo, hi. split; [| split; [| split]].
    + unfold Double.d3_extent. rewrite Double_extent_skips_NaN. exact E.
    + now apply Hin.
    + now apply Hin.
    + intros u Hu Nu. apply Hall. apply Hin. auto.
Qed.

(** ** One decimal place *)

Lemma Zfloor_quotient (a b : Z) :
  (0 < b)%Z -> Zfloor (IZR a / IZR b) = (a / b)%Z.
Proof.
  intros Hb. apply Zfloor_eq.
  pose proof (Z.div_mod a b ltac:(lia)) as E.
  pose proof (Z.mod_pos_bound a b Hb) as [H0 H1].
  assert (Hb' : 0 < IZR b) by (apply IZR_lt; assumption).
  assert (Ea : IZR a = IZR b * IZR (a / b) + IZR (a mod b))
    by (rewrite <- mult_IZR, <- plus_IZR; now f_equal).
  apply IZR_le in H0. apply IZR_lt in H1.
  rewrite Ea. split.
  - apply Rmult_le_reg_l with (IZR b); [assumption |].
    replace (IZR b * ((IZR b * IZR (a / b) + IZR (a mod b)) / IZR b))
      with (IZR b * IZR (a / b) + IZR (a mod b)) by (field; lra).
    lra.
  - apply Rmult_lt_reg_l with (IZR b); [assumption |].
    replace (IZR b * ((IZR b * IZR (a / b) + IZR (a mod b)) / IZR b))
      with (IZR b * IZR (a / b) + IZR (a mod b)) by (field; lra).
    lra.
Qed.

(** The [n] of [toFixed(1)] is the integer nearest to ten times the
    magnitude of the exact value, the larger one of two. *)
Lemma Double_tenths_nearest (x : Double.number) :
  Double.tenths x = Zfloor (Rabs (Double.real x) * 10 + / 2).
Proof.
  unfold Double.tenths, Double.real.
  destruct (Prim2SF x) as [s | s | | s m e].
  - rewrite Rabs_R0. symmetry. apply Zfloor_eq. simpl. lra.
  - rewrite Rabs_R0. symmetry. apply Zfloor_eq. simpl. lra.
  - rewrite Rabs_R0. symmetry. apply Zfloor_eq. simpl. lra.
  - assert (Hm : 0 < IZR (Z.pos m)) by (apply IZR_lt; lia).
    destruct (0 <=? e)%Z eqn:He.
    + apply Z.leb_le in He.
      assert (Hp : (0 < 2 ^ e)%Z) by (apply Z.pow_pos_nonneg; lia).
      assert (Hp' : 0 < IZR (2 ^ e)) by (apply IZR_lt; assumption).
      assert (E : Rabs ((if s then - IZR (Z.pos m) else IZR (Z.pos m))
                        * IZR (2 ^ e))
                  = IZR (Z.pos m * 2 ^ e)).
      { rewrite Rabs_mult, (Rabs_pos_eq (IZR (2 ^ e))) by lra.
        rewrite mult_IZR. f_equal.
        destruct s; [rewrite Rabs_Ropp |]; apply Rabs_pos_eq; lra. }
      rewrite E. symmetry. apply Zfloor_eq.
      rewrite !mult_IZR. lra.
    + apply Z.leb_gt in He.
      assert (Hp : (0 < 2 ^ (- e))%Z) by (apply Z.pow_pos_nonneg; lia).
      assert (Hp' : 0 < IZR (2 ^ (- e))) by (apply IZR_lt; assumption).
      assert (E2 : (2 ^ (1 - e) = 2 * 2 ^ (- e))%Z).
      { replace (1 - e)%Z with (Z.succ (- e)) by lia.
        rewrite Z.pow_succ_r by lia. reflexivity. }
      assert (E : Rabs ((if s then - IZR (Z.pos m) else IZR (Z.pos m))
                        / IZR (2 ^ (- e)))
                  = IZR (Z.pos m) / IZR (2 ^ (- e))).
      { unfold Rdiv. rewrite Rabs_mult, (Rabs_pos_eq (/ IZR (2 ^ (- e)))).
        - f_equal.
          destruct s; [rewrite Rabs_Ropp |]; apply Rabs_pos_eq; lra.
        - left. now apply Rinv_0_lt_compat. }
      rewrite E, E2.
      rewrite <- (Zfloor_quotient (20 * Z.pos m + 2 ^ (- e)) (2 * 2 ^ (- e)))
        by lia.
      f_equal. rewrite plus_IZR, !mult_IZR. field. lra.
Qed.

Lemma string_append_assoc (s t u : string) :
  ((s ++ t) ++ u = s ++ (t ++ u))%string.
Proof. induction s as [| c s IH]; cbn; [reflexivity | now rewrite IH]. Qed.

Lemma digit_in (r : Z) :
  (0 <= r <= 9)%Z -> In r [0; 1; 2; 3; 4; 5; 6; 7; 8; 9]%Z.
Proof. intros H. cbn. lia. Qed.

(** The decimal digits of [10 q + r] are the digits of [q] followed by the
    digit [r]. *)
Lemma string_of_revapp (d acc : Decimal.uint) :
  NilEmpty.string_of_uint (Decimal.revapp d acc)
  = (NilEmpty.string_of_uint (Decimal.revapp d Decimal.Nil)
     ++ NilEmpty.string_of_uint acc)%string.
Proof.
  revert acc.
  induction d as [| d IH | d IH | d IH | d IH | d IH | d IH | d IH | d IH
                  | d IH | d IH];
    intros acc; cbn [Decimal.revapp]; [reflexivity | ..];
    rewrite IH; symmetry; rewrite IH; cbn [NilEmpty.string_of_uint];
    now rewrite string_append_assoc.
Qed.

Lemma to_lu_append_digit (p : positive) (r : Z) :
  (0 <= r <= 9)%Z ->
  N.to_uint (10 * N.pos p + Z.to_N r)
  = Decimal.revapp (DecimalPos.Unsigned.to_lu (N.pos p))
                   (N.to_uint (Z.to_N r)).
Proof.
  intros Hr.
  pose proof (DecimalPos.Unsigned.to_ldec_tenfold p) as H0.
  assert (Hs : forall n, N.to_uint (N.succ n)
                         = Decimal.rev (Decimal.Little.succ
                                          (DecimalPos.Unsigned.to_lu n))).
  { intros n. rewrite <- DecimalPos.Unsigned.to_lu_succ.
    destruct (N.succ n) eqn:E; [destruct n; discriminate | reflexivity]. }
  pose proof (digit_in r Hr) as H. cbn [In] in H.
  decompose [or] H; try contradiction; subst r; cbn [Z.to_N].
  - rewrite N.add_0_r. change (N.to_uint (10 * N.pos p))
      with (Decimal.rev (DecimalPos.Unsigned.to_lu (10 * N.pos p))).
    rewrite H0. reflexivity.
  - replace (10 * N.pos p + 1)%N with (N.succ (10 * N.pos p)) by lia.
    rewrite Hs, H0. reflexivity.
  - replace (10 * N.pos p + 2)%N
      with (N.succ (N.succ (10 * N.pos p))) by lia.
    rewrite Hs, DecimalPos.Unsigned.to_lu_succ, H0. reflexivity.
  - replace (10 * N.pos p + 3)%N
      with (N.succ (N.succ (N.succ (10 * N.pos p)))) by lia.
    rewrite Hs, !DecimalPos.Unsigned.to_lu_succ, H0. reflexivity.
  - replace (10 * N.pos p + 4)%N
      with (N.succ (N.succ (N.succ (N.succ (10 * N.pos p))))) by lia.
    rewrite Hs, !DecimalPos.Unsigned.to_lu_succ, H0. reflexivity.
  - replace (10 * N.pos p + 5)%N
      with (N.succ (N.succ (N.succ (N.succ (N.succ (10 * N.pos p))))))
      by lia.
    rewrite Hs, !DecimalPos.Unsigned.to_lu_succ, H0. reflexivity.
  - replace (10 * N.pos p + 6)%N
      with (N.succ (N.succ (N.succ (N.succ (N.succ
              (N.succ (10 * N.pos p))))))) by lia.
    rewrite Hs, !DecimalPos.Unsigned.to_lu_succ, H0. reflexivity.
  - replace (10 * N.pos p + 7)%N
      with (N.succ (N.succ (N.succ (N.succ (N.succ
              (N.succ (N.succ (10 * N.pos p)))))))) by lia.
    rewrite Hs, !DecimalPos.Unsigned.to_lu_succ, H0. reflexivity.
  - replace (10 * N.pos p + 8)%N
      with (N.succ (N.succ (N.succ (N.succ (N.succ
              (N.succ (N.succ (N.succ (10 * N.pos p))))))))) by lia.
    rewrite Hs, !DecimalPos.Unsigned.to_lu_succ, H0. reflexivity.
  - replace (10 * N.pos p + 9)%N
      with (N.succ (N.succ (N.succ (N.succ (N.succ
              (N.succ (N.succ (N.succ (N.succ (10 * N.pos p))))))))))
      by lia.
    rewrite Hs, !DecimalPos.Unsigned.to_lu_succ, H0. reflexivity.
Qed.

Lemma digits_split (q r : Z) :
  (0 < q)%Z -> (0 <= r <= 9)%Z ->
  digits (10 * q + r) = (digits q ++ digits r)%string.
Proof.
  intros Hq Hr. unfold digits.
  destruct q as [| p | p]; try lia.
  rewrite Z2N.inj_add, Z2N.inj_mul by lia.
  change (Z.to_N 10) with 10%N. change (Z.to_N (Z.pos p)) with (N.pos p).
  rewrite (to_lu_append_digit p r Hr).
  unfold NilZero.string_of_uint.
  assert (E : forall d, d <> Decimal.Nil ->
                        match d with
                        | Decimal.Nil => "0"%string
                        | _ => NilEmpty.string_of_uint d
                        end = NilEmpty.string_of_uint d)
    by (intros d Hd; destruct d; [contradiction | reflexivity ..]).
  rewrite (E (N.to_uint (N.pos p))), (E (N.to_uint (Z.to_N r)))
    by apply to_uint_nonnil.
  rewrite E.
  - rewrite string_of_revapp. reflexivity.
  - rewrite <- (to_lu_append_digit p r Hr). apply to_uint_nonnil.
Qed.

Lemma substring_prefix (s t : string) :
  substring 0 (String.length s) (s ++ t) = s.
Proof.
  induction s as [| c s IH]; cbn.
  - now destruct t.
  - now rewrite IH.
Qed.

Lemma substring_whole (t : string) : substring 0 (String.length t) t = t.
Proof. induction t as [| c t IH]; cbn; [reflexivity | now rewrite IH]. Qed.

Lemma substring_suffix (s t : string) :
  substring (String.length s) (String.length t) (s ++ t) = t.
Proof.
  induction s as [| c s IH]; cbn [String.length append substring].
  - apply substring_whole.
  - exact IH.
Qed.

Lemma length_append_string (s t : string) :
  String.length (s ++ t) = (String.length s + String.length t)%nat.
Proof. induction s as [| c s IH]; cbn; [reflexivity | now rewrite IH]. Qed.

Lemma digit_one_char (r : Z) :
  (0 <= r <= 9)%Z -> String.length (digits r) = 1%nat.
Proof.
  intros Hr.
  pose proof (digit_in r Hr) as H. cbn [In] in H.
  decompose [or] H; try contradiction; subst r; reflexivity.
Qed.

(** Step 10 of [toFixed(1)] writes the digits of [n / 10], a point, and
    the last digit of [n]. *)
Lemma decimal1_split (n : Z) :
  (0 <= n)%Z ->
  decimal1 n = (digits (n / 10) ++ "." ++ digits (n mod 10))%string.
Proof.
  intros Hn.
  pose proof (Z.div_mod n 10 ltac:(lia)) as E.
  pose proof (Z.mod_pos_bound n 10 ltac:(lia)) as Hr.
  assert (Hq : (0 <= n / 10)%Z) by (apply Z.div_pos; lia).
  pose proof (digit_one_char (n mod 10) ltac:(lia)) as L1.
  destruct (Z.eq_dec (n / 10) 0) as [Z0 | NZ].
  - pose proof (digit_in n ltac:(lia)) as H. cbn [In] in H.
    clear - H. decompose [or] H; try contradiction; subst n; reflexivity.
  - assert (Em : digits n = (digits (n / 10) ++ digits (n mod 10))%string).
    { rewrite E at 1. apply digits_split; lia. }
    destruct (digits_nonempty (n / 10)) as [c [s Es]].
    unfold decimal1. cbv zeta. rewrite Em.
    set (a := digits (n / 10)) in *. set (b := digits (n mod 10)) in *.
    assert (La : (1 <= String.length a)%nat)
      by (rewrite Es; cbn [String.length]; lia).
    assert (Hlen : (String.length (a ++ b) <=? 1)%nat = false).
    { rewrite length_append_string, L1. apply Nat.leb_gt. lia. }
    rewrite Hlen, length_append_string, L1.
    replace (String.length a + 1 - 1)%nat with (String.length a) by lia.
    rewrite substring_prefix.
    rewrite <- L1 at 1. rewrite substring_suffix. reflexivity.
Qed.

(** [x.toFixed(1)] for a finite [x] below [10^21] in magnitude: the sign,
    then the integer [n] nearest to ten times the magnitude of [x] written
    in decimal with a point before its last digit. *)
Lemma Double_toFixed1_decimal (ToString : Double.number -> string)
    (x : Double.number) :
  Double.isNaN x = false ->
  Double.strict_eq x infinity = false ->
  Double.strict_eq x neg_infinity = false ->
  Double.ge (PrimFloat.abs x) 1e21%float = false ->
  let n := Zfloor (Rabs (Double.real x) * 10 + / 2) in
  Double.CategoryHeatmap.toFixed1 ToString x
  = ((if Double.lt x 0%float then "-" else "")
     ++ digits (n / 10) ++ "." ++ digits (n mod 10))%string.
Proof.
  intros H1 H2 H3 H4 n. unfold Double.CategoryHeatmap.toFixed1.
  rewrite H1, H2, H3, H4. cbv zeta.
  rewrite Double_tenths_nearest. fold n.
  rewrite decimal1_split; [reflexivity |].
  subst n. apply Zfloor_lub. pose proof (Rabs_pos (Double.real x)).
  simpl. lra.
Qed.

(** ** Equal-width bins (C4) *)

Lemma Double_length_createBins (ToString : Double.number -> string)
    (values : list Double.number) (numBins : nat) :
  length (Double.CategoryHeatmap.createBins ToString values numBins) = numBins.
Proof.
  unfold Double.CategoryHeatmap.createBins. now rewrite length_map, length_seq.
Qed.



(** The bins of that example, and the last bin of [createBins([0, 29], 7)]
    and of [createBins([0, 29], 6)]: seven times the seventh of 29 is
    [29.000000000000004] in doubles, so that 29 passes the test of the
    last of seven bins; six times the sixth of 29 is 29. *)
Lemma Double_createBins_examples (ToString : Double.number -> string) :
  Double.CategoryHeatmap.createBins ToString [4; 5; 6; 7; 8; 9; 10]%float 4
  = [Double.Bin.mk 4 5.5 "4.0-5.5"; Double.Bin.mk 5.5 7 "5.5-7.0";
     Double.Bin.mk 7 8.5 "7.0-8.5"; Double.Bin.mk 8.5 10 "8.5-10.0"]%float
  /\ nth 6 (Double.CategoryHeatmap.createBins ToString [0; 29]%float 7)
         (Double.Bin.mk nan nan EmptyString)
     = Double.Bin.mk 24.857142857142861%float 29.000000000000004%float
                     "24.9-29.0"
  /\ Double.in_bin 29%float
       (nth 6 (Double.CategoryHeatmap.createBins ToString [0; 29]%float 7)
            (Double.Bin.mk nan nan EmptyString))
     = true
  /\ nth 5 (Double.CategoryHeatmap.createBins ToString [0; 29]%float 6)
         (Double.Bin.mk nan nan EmptyString)
     = Double.Bin.mk 24.166666666666664%float 29%float "24.2-29.0".
Proof. vm_compute. repeat split. Qed.

(** ** Degenerate bins (C5) *)

(** C5.  Over doubles, at the two degenerate inputs.  For the single value
    5, [createBins] returns six bins with [min = max = 5] and the label
    ["5.0-5.0"], and the test [val >= bin.min && val < bin.max] of
    [processData] places the value 5 in none of them, the first one
    included.  For the empty array [d3.extent] returns undefined bounds:
    the six bins have [min], [max] and width [NaN], not 0, and the label
    ["NaN-NaN"]. *)
Theorem C5_degenerate_bins (ToString : Double.number -> string) :
  (let bins := Double.CategoryHeatmap.createBins ToString [5]%float 6 in
   bins = repeat (Double.Bin.mk 5 5 "5.0-5.0")%float 6
   /\ Double.in_bin 5%float (nth 0 bins (Double.Bin.mk nan nan EmptyString))
      = false
   /\ filter (Double.in_bin 5%float) bins = [])
  /\ (let bins := Double.CategoryHeatmap.createBins ToString [] 6 in
      bins = repeat (Double.Bin.mk nan nan "NaN-NaN") 6
      /\ forall b, In b bins ->
                   Double.isNaN (Double.Bin.max b - Double.Bin.min b)%float
                   = true).
Proof.
  split.
  - vm_compute. repeat split.
  - cbv zeta. split; [vm_compute; reflexivity |].
    intros b Hb. vm_compute in Hb.
    repeat (destruct Hb as [<- | Hb]; [reflexivity |]). destruct Hb.
Qed.

(** ** Columns filtered one by one *)

(** When a cell is missing in one column only, the matrix pairs values of
    different rows while the scatter plot pairs the values of one row: for
    the rows [(1, 1)], [(NaN, 1)], [(2, 2)] of sleep duration and quality
    the entry of the matrix is 0 and the correlation of the scatter plot
    is [0.9999999999999998]. *)
Lemma matrix_pairs_across_rows :
  let row (duration quality : Double.number) : Double.CorrelationMatrix.row :=
    fun v => match v with
             | CorrelationMatrix.SleepDuration => duration
             | CorrelationMatrix.QualityOfSleep => quality
             | _ => 0%float
             end in
  let csvData := [row 1 1; row nan 1; row 2 2]%float in
  nth 1 (nth 0 (Double.CorrelationMatrix.correlationMatrix csvData) []) nan
  = 0%float
  /\ Double.ScatterPlot.calculateCorrelation
       (Double.ScatterPlot.loadData
          (map (fun d => Double.ScatterData.mk
                           (d CorrelationMatrix.SleepDuration)
                           (d CorrelationMatrix.QualityOfSleep) EmptyString)
               csvData))
     = 0x1.ffffffffffffep-1%float.
Proof. vm_compute. split; reflexivity. Qed.

(** ** A constant column in doubles *)

(** The mean of three times [0.1] is [0.10000000000000002] in doubles, so
    that the deviations of the constant column [[0.1, 0.1, 0.1]] are not 0:
    its denominator is not 0, the guard does not fire, and its correlation
    with [[1, 2, 4]] is not 0.  The constant column [[3, 3, 3]] has the
    mean 3 and the denominator 0. *)
Lemma constant_column_in_doubles :
  Double.d3_mean [0.1; 0.1; 0.1]%float = Some 0x1.999999999999bp-4%float
  /\ Double.strict_eq (Double.denominator [0.1; 0.1; 0.1]%float) 0%float
     = false
  /\ Double.strict_eq
       (Double.CorrelationMatrix.calculateCorrelation [0.1; 0.1; 0.1]%float
                                                      [1; 2; 4]%float)
       0%float
     = false
  /\ Double.denominator [3; 3; 3]%float = 0%float.
Proof. vm_compute. repeat split. Qed.
